(** * Kubernetes debug-session orchestration: a shallow embedding

    The development embeds the debug sources of the extension
    (the two port resolvers, the provider registry, the docker client and
    the debug service) as Rocq functions and states the properties of the
    design document against them.

    JavaScript strings are modelled by [string]; every [ascii] stands for one
    UTF-16 code unit below 256.  Asynchronous functions are modelled in a
    state-and-exception monad over a record of oracles that stands for the
    host IDE, the cluster CLI and the user. *)

From Stdlib Require Import String Ascii List Bool Arith ZArith Lia.
From Stdlib Require Import DecimalString DecimalZ DecimalPos.
Import ListNotations.
Local Open Scope string_scope.
Local Open Scope list_scope.
Local Open Scope nat_scope.

Infix "+++" := String.append (at level 60, right associativity).

(** ** JavaScript primitives used by the sources *)

Module Js.

Definition chr (n : nat) : string := String (ascii_of_nat n) EmptyString.
Definition dquote : string := chr 34.
Definition newline : string := chr 10.

(** [\s] of a regular expression and the characters removed by [trim]:
    TAB, LF, VT, FF, CR, SPACE and NBSP. *)
Definition isSpace (c : ascii) : bool :=
  let n := nat_of_ascii c in
  ((9 <=? n) && (n <=? 13)) || (n =? 32) || (n =? 160).

Definition isDigit (c : ascii) : bool :=
  let n := nat_of_ascii c in (48 <=? n) && (n <=? 57).

Definition isLower (c : ascii) : bool :=
  let n := nat_of_ascii c in (97 <=? n) && (n <=? 122).

Definition isUpper (c : ascii) : bool :=
  let n := nat_of_ascii c in (65 <=? n) && (n <=? 90).

(** [\w] *)
Definition isWord (c : ascii) : bool :=
  isLower c || isUpper c || isDigit c || (nat_of_ascii c =? 95).

(** [.] matches everything but the line terminators *)
Definition isDot (c : ascii) : bool :=
  let n := nat_of_ascii c in negb ((n =? 10) || (n =? 13)).

(** Canonicalisation of a code unit under the [i] flag *)
Definition toUpper (c : ascii) : ascii :=
  if isLower c then ascii_of_nat (nat_of_ascii c - 32) else c.

Definition isEmpty (s : string) : bool :=
  match s with EmptyString => true | String _ _ => false end.

Fixpoint trimStart (s : string) : string :=
  match s with
  | EmptyString => EmptyString
  | String c s' => if isSpace c then trimStart s' else s
  end.

Fixpoint trimEnd (s : string) : string :=
  match s with
  | EmptyString => EmptyString
  | String c s' =>
      let t := trimEnd s' in
      if isSpace c && isEmpty t then EmptyString else String c t
  end.

(** [s.trim()] *)
Definition trim (s : string) : string := trimEnd (trimStart s).

(** [s.split(sep)] for a separator of one character *)
Fixpoint split (sep : ascii) (s : string) : list string :=
  match s with
  | EmptyString => [EmptyString]
  | String c s' =>
      if Ascii.eqb c sep then EmptyString :: split sep s'
      else match split sep s' with
           | h :: t => String c h :: t
           | [] => [String c EmptyString]
           end
  end.

(** [a.join(sep)] *)
Definition join (sep : string) (l : list string) : string :=
  String.concat sep l.

(** [a.indexOf(x)] on an array of strings, [-1] when absent *)
Fixpoint indexOfFrom (i : Z) (l : list string) (x : string) : Z :=
  match l with
  | [] => (-1)%Z
  | y :: l' => if String.eqb y x then i else indexOfFrom (i + 1)%Z l' x
  end.

Definition indexOf (l : list string) (x : string) : Z := indexOfFrom 0%Z l x.

(** [s.lastIndexOf(c)] for a one-character needle, [-1] when absent *)
Fixpoint lastIndexOfFrom (i : Z) (c : ascii) (s : string) (found : Z) : Z :=
  match s with
  | EmptyString => found
  | String d s' =>
      lastIndexOfFrom (i + 1)%Z c s' (if Ascii.eqb d c then i else found)
  end.

Definition lastIndexOf (c : ascii) (s : string) : Z :=
  lastIndexOfFrom 0%Z c s (-1)%Z.

Definition clamp (len : nat) (z : Z) : nat :=
  Nat.min (Z.to_nat z) len.

(** [s.substring(a, b)]: both ends clamped to the string, swapped when
    out of order *)
Definition substring (a b : Z) (s : string) : string :=
  let len := String.length s in
  let a' := clamp len a in
  let b' := clamp len b in
  let lo := Nat.min a' b' in
  let hi := Nat.max a' b' in
  String.substring lo (hi - lo) s.

(** [s.substring(a)] *)
Definition substringFrom (a : Z) (s : string) : string :=
  substring a (Z.of_nat (String.length s)) s.

(** [s.indexOf(needle) >= 0] *)
Fixpoint includes (needle s : string) : bool :=
  String.prefix needle s ||
  match s with
  | EmptyString => false
  | String _ s' => includes needle s'
  end.

(** Decimal rendering of an integral number *)
Definition numberToString (z : Z) : string :=
  NilZero.string_of_int (Z.to_int z).

(** The values a variable of the sources can hold where the code tests
    them for truthiness. *)
Inductive value : Type :=
| VUndefined
| VNull
| VBool (b : bool)
| VNumber (z : Z)
| VString (s : string)
| VPromise (settled : value).

Definition truthy (v : value) : bool :=
  match v with
  | VUndefined | VNull => false
  | VBool b => b
  | VNumber z => negb (z =? 0)%Z
  | VString s => negb (isEmpty s)
  | VPromise _ => true
  end.

(** A nullable string ([null] is [None]) *)
Definition ofString (o : option string) : value :=
  match o with Some s => VString s | None => VNull end.

Definition truthyStr (o : option string) : bool := truthy (ofString o).

(** Interpolation of a possibly undefined string in a template literal *)
Definition show (o : option string) : string :=
  match o with Some s => s | None => "undefined" end.

End Js.

(** ** Regular expressions

    A backtracking matcher for the fragment of the regular expressions that
    the sources use: literals, classes, anchors, sequence, alternation,
    greedy repetition and capture groups, with the [i] flag. *)

Module RegExp.

Inductive regex : Type :=
| Eps
| Chr (c : ascii)
| Cls (p : ascii -> bool)
| Bol
| Eol
| Seq (r1 r2 : regex)
| Alt (r1 r2 : regex)
| Star (r : regex)
| Grp (i : nat) (r : regex).

(** [r+] and [r?]; the optional parts of the patterns of the sources never
    match the empty text. *)
Definition Plus (r : regex) : regex := Seq r (Star r).
Definition Opt (r : regex) : regex := Alt r Eps.

(** A literal word *)
Fixpoint Lit (s : string) : regex :=
  match s with
  | EmptyString => Eps
  | String c EmptyString => Chr c
  | String c s' => Seq (Chr c) (Lit s')
  end.

Definition captures : Type := nat -> option string.

Definition noCaptures : captures := fun _ => None.

Definition setCapture (i : nat) (v : option string) (c : captures) : captures :=
  fun j => if Nat.eqb j i then v else c j.

Fixpoint groups (r : regex) : list nat :=
  match r with
  | Seq r1 r2 | Alt r1 r2 => groups r1 ++ groups r2
  | Star r' => groups r'
  | Grp i r' => i :: groups r'
  | _ => []
  end.

Definition clearCaptures (l : list nat) (c : captures) : captures :=
  fold_right (fun i acc => setCapture i None acc) c l.

Definition charEq (ic : bool) (a b : ascii) : bool :=
  if ic then Ascii.eqb (Js.toUpper a) (Js.toUpper b) else Ascii.eqb a b.

(** The text consumed between two suffixes of the input *)
Definition consumed (s s' : string) : string :=
  String.substring 0 (String.length s - String.length s') s.

Section Matcher.
Context {R : Type}.
Variable ic : bool.

(** [matchAt r pos s c k]: match [r] at index [pos], where [s] is the
    rest of the input from that index, then continue with [k];
    alternatives are tried in order and the first success wins. *)
Fixpoint matchAt (r : regex) (pos : nat) (s : string) (c : captures)
    (k : nat -> string -> captures -> option R) {struct r} : option R :=
  match r with
  | Eps => k pos s c
  | Chr a =>
      match s with
      | String b s' => if charEq ic b a then k (S pos) s' c else None
      | EmptyString => None
      end
  | Cls p =>
      match s with
      | String b s' => if p b then k (S pos) s' c else None
      | EmptyString => None
      end
  | Bol => if Nat.eqb pos 0 then k pos s c else None
  | Eol => if Js.isEmpty s then k pos s c else None
  | Seq r1 r2 =>
      matchAt r1 pos s c (fun pos1 s1 c1 => matchAt r2 pos1 s1 c1 k)
  | Alt r1 r2 =>
      match matchAt r1 pos s c k with
      | Some x => Some x
      | None => matchAt r2 pos s c k
      end
  | Star r' =>
      (fix loop (n : nat) (pos : nat) (s : string) (c : captures) : option R :=
         match n with
         | O => k pos s c
         | S n' =>
             match matchAt r' pos s (clearCaptures (groups r') c)
                     (fun pos1 s1 c1 =>
                        if String.length s1 <? String.length s
                        then loop n' pos1 s1 c1 else None) with
             | Some x => Some x
             | None => k pos s c
             end
         end) (String.length s) pos s c
  | Grp i r' =>
      matchAt r' pos s c
        (fun pos1 s1 c1 => k pos1 s1 (setCapture i (Some (consumed s s1)) c1))
  end.
End Matcher.

(** A successful match: index, matched text and the captures *)
Record matchResult : Type := {
  index : nat;
  whole : string;
  caps : captures
}.

(** [m[i]], [undefined] outside of the pattern's groups *)
Definition group (m : matchResult) (i : nat) : option string :=
  match i with O => Some (whole m) | _ => caps m i end.

Definition matchHere (ic : bool) (r : regex) (pos : nat) (s : string)
  : option matchResult :=
  matchAt ic r pos s noCaptures
    (fun _ s' c => Some {| index := pos; whole := consumed s s'; caps := c |}).

(** [re.exec(s)] without the [g] flag: the leftmost index that matches *)
Fixpoint execFrom (ic : bool) (r : regex) (pos : nat) (s : string)
  : option matchResult :=
  match matchHere ic r pos s with
  | Some m => Some m
  | None =>
      match s with
      | EmptyString => None
      | String _ s' => execFrom ic r (S pos) s'
      end
  end.

Record pattern : Type := {
  re : regex;
  ignoreCase : bool
}.

Definition exec (p : pattern) (s : string) : option matchResult :=
  execFrom (ignoreCase p) (re p) 0 s.

(** [re.test(s)] *)
Definition test (p : pattern) (s : string) : bool :=
  match exec p s with Some _ => true | None => false end.

(** [s.split(re)] for a pattern without groups: the loop of the language
    definition over the candidate index [q], with [piece] the text since
    the end of the last separator. *)
Fixpoint splitLoop (fuel : nat) (p : pattern) (pos : nat) (piece : string)
    (s : string) : list string :=
  match fuel with
  | O => [piece +++ s]
  | S fuel' =>
      match s with
      | EmptyString => [piece]
      | String ch s' =>
          match matchAt (ignoreCase p) (re p) pos s noCaptures
                  (fun pos1 s1 _ => Some (pos1, s1)) with
          | Some (pos1, s1) =>
              if Js.isEmpty piece && Nat.eqb pos1 pos
              then splitLoop fuel' p (S pos) (piece +++ String ch EmptyString) s'
              else piece :: splitLoop fuel' p pos1 EmptyString s1
          | None =>
              splitLoop fuel' p (S pos) (piece +++ String ch EmptyString) s'
          end
      end
  end.

Definition split (p : pattern) (s : string) : list string :=
  match s with
  | EmptyString =>
      match matchHere (ignoreCase p) (re p) 0 s with
      | Some _ => []
      | None => [EmptyString]
      end
  | _ => splitLoop (2 * String.length s + 1) p 0 EmptyString s
  end.

(** [s.replace(re, by)] without the [g] flag *)
Definition replace (p : pattern) (by_ : string) (s : string) : string :=
  match exec p s with
  | Some m =>
      String.substring 0 (index m) s +++ by_ +++
      String.substring (index m + String.length (whole m))
        (String.length s - (index m + String.length (whole m))) s
  | None => s
  end.

Definition space : regex := Cls Js.isSpace.
Definition nonSpace : regex := Cls (fun c => negb (Js.isSpace c)).
Definition word : regex := Cls Js.isWord.
Definition digit : regex := Cls Js.isDigit.
Definition dot : regex := Cls Js.isDot.

(** [/\s+/] *)
Definition whitespaces : pattern := {| re := Plus space; ignoreCase := false |}.

End RegExp.


(** ** The build-instruction parser

    [IDockerParser] of debugInterfaces.ts.  It is declared ahead of the host
    because the host constructs the parser: the class that implements the
    interface is not part of this development, and every parser that
    offers the three operations is admitted. *)

Record IDockerParser : Type := {
  getBaseImage : string;
  getExposedPorts : list string;
  searchLaunchArgs : RegExp.pattern -> option RegExp.matchResult
}.

(** ** The host: effects, oracles and the monad of asynchronous code *)

Module Host.

(** [ShellResult] of the command runner *)
Record ShellResult : Type := {
  code : Z;
  stdout : string;
  stderr : string
}.

Definition Env : Type := list (string * string).

(** A plain object used as a map, by its own keys in the order in which
    the object lists them: the keys that are array indices first, in
    ascending order, then the other keys in the order of their creation.
    The values are held by the text that they are rendered to. *)

(** The array index that a key denotes: the canonical decimal text of an
    integer from 0 to 2^32 - 2 *)
Definition arrayIndex (key : string) : option N :=
  match NilEmpty.uint_of_string key with
  | Some u =>
      let n := N.of_uint u in
      if String.eqb (NilZero.string_of_uint (N.to_uint n)) key
         && (n <=? 4294967294)%N
      then Some n else None
  | None => None
  end.

Definition hasKey (key : string) (env : Env) : bool :=
  existsb (fun kv => String.eqb (fst kv) key) env.

(** The value of an own key is replaced where the key is *)
Fixpoint replaceKey (key v : string) (env : Env) : Env :=
  match env with
  | [] => []
  | (k, x) :: env' =>
      if String.eqb k key then (k, v) :: env'
      else (k, x) :: replaceKey key v env'
  end.

(** A new index key goes after the smaller index keys *)
Fixpoint insertIndex (i : N) (key v : string) (env : Env) : Env :=
  match env with
  | [] => [(key, v)]
  | (k, x) :: env' =>
      match arrayIndex k with
      | Some j =>
          if (j <? i)%N then (k, x) :: insertIndex i key v env'
          else (key, v) :: env
      | None => (key, v) :: env
      end
  end.

(** [env[key] = v].  The key [__proto__] is the accessor of the prototype:
    the assignment of a string to it stores nothing. *)
Definition setKey (key v : string) (env : Env) : Env :=
  if String.eqb key "__proto__" then env
  else if hasKey key env then replaceKey key v env
  else
    match arrayIndex key with
    | Some i => insertIndex i key v env
    | None => env ++ [(key, v)]
    end.

(** [Object.assign({}, a, b)] *)
Definition assign (a b : Env) : Env :=
  fold_left (fun acc kv => setKey (fst kv) (snd kv) acc) (a ++ b) [].

(** A local port as the free-port finder hands it back.  The finder
    answers with the port that it was started from when that one is free,
    and the sources start it from a text, the application port of the
    build file, as well as from a number: an answer is a number or a
    text. *)
Inductive Port : Type :=
| PortNumber (n : Z)
| PortString (s : string).

(** [a === b]: a number and a text are never equal *)
Definition portEquals (a b : Port) : bool :=
  match a, b with
  | PortNumber x, PortNumber y => (x =? y)%Z
  | PortString x, PortString y => String.eqb x y
  | _, _ => false
  end.

(** A port in a template literal or in a concatenation with a text *)
Definition portToString (p : Port) : string :=
  match p with
  | PortNumber n => Js.numberToString n
  | PortString s => s
  end.

(** [if (p)] *)
Definition portTruthy (p : Port) : bool :=
  match p with
  | PortNumber n => Js.truthy (Js.VNumber n)
  | PortString s => Js.truthy (Js.VString s)
  end.

(** The starting port handed to the free-port finder *)
Inductive PortRequest : Type :=
| FromBase
| FromString (s : string)
| FromNumber (n : Z).

(** [{ port: p + 1 }]: the next number, or the text with a [1] after it *)
Definition portPlusOne (p : Port) : PortRequest :=
  match p with
  | PortNumber n => FromNumber (n + 1)
  | PortString s => FromString (s +++ "1")
  end.

(** The attach configuration handed to the host debugger *)
Record DebugConfiguration : Type := {
  type_ : string;
  request : string;
  name : string;
  hostName : string;
  port : Port
}.

(** What the code does to the outside, in order *)
Inductive Event : Type :=
| KubectlInvoke (cmd : string)
| ShellExec (cmd : string)
| ShellExecCore (cmd : string) (cwd : string) (env : Env)
| ShowOutput (msg : string) (title : option string)
| ShowErrorMessage (msg : string)
| ShowInformationMessage (msg : string) (item : string)
| ShowQuickPick (items : list string) (placeHolder : string)
| ShowInputBox (prompt placeHolder : string)
| ProgressReport (msg : string)
| Sleep (ms : Z)
| GetPort (req : PortRequest)
| Spawn (bin : string) (args : list string)
| Kill
| Dispose (listeners : nat)
| OnDidStartDebugSession
| OnDidTerminateDebugSession
| StartDebugging (folder : option string) (config : DebugConfiguration)
| ExecuteCommand (command : string) (arg : option string).

(** What the port-forward subprocess and the host debugger can signal
    while a session is set up and runs *)
Inductive SessionEvent : Type :=
| StdoutData (data : string)
| StderrData (data : string)
| Close (exitCode : Z)
| DidStartDebugSession (sessionName : string)
| DidTerminateDebugSession (sessionName : string).

(** One entry of [kubeConfig.contexts] and of [kubeConfig.clusters] *)
Record ContextConfig : Type := {
  contextName : string;
  contextCluster : string
}.

Record ClusterConfig : Type := {
  clusterName : string;
  server : string;
  certificateAuthority : option string
}.

Record KubeConfig : Type := {
  currentContext : string;
  contexts : list ContextConfig;
  clusters : list ClusterConfig
}.

(** The pods of a parsed [get pods -o json] answer: [items] with, for each
    item, [metadata.name]; absent members are [None]. *)
Record PodList : Type := {
  items : option (list (option (option string)))
}.

(** The answers of the outside world.  The first argument of an oracle is
    the number of interactions that came before, so that the same request
    can be answered differently over time. *)
Record World : Type := {
  kubectl : nat -> string -> ShellResult;
  shellExec : nat -> string -> ShellResult;
  shellExecCore : nat -> string -> string -> Env -> ShellResult;
  quickPick : nat -> list string -> option nat;
  inputBox : nat -> option string;
  informationMessage : nat -> string -> option string;
  existsSync : nat -> string -> bool;
  dateNow : nat -> Z;
  getPortPromise : nat -> PortRequest -> option Port;
  spawn : nat -> string -> list string -> list SessionEvent;
  newDockerfileParser : string -> IDockerParser + string;
  numberIsInteger : string -> bool;
  debugStartDebugging : nat -> DebugConfiguration -> bool;
  getKubeconfig : nat -> option KubeConfig;
  jsonParse : string -> PodList + string;
  nodeDebuggerInstalled : nat -> bool;
  getExtension : string -> bool;
  workspaceFolders : list string;
  imageUser : option string;
  kubectlPath : option string;
  execOptsEnv : Env;
  vscodeCliProgram : string;
  pathJoin : string -> string -> string;
  pathDirname : string -> string;
  pathBasename : string -> string;
  sanitiseTag : string -> string
}.

Record State : Type := {
  tick : nat;
  trace : list Event
}.

Definition initial : State := {| tick := 0; trace := [] |}.

(** How a call ends: it returns, it throws (a rejected promise), or the
    promise it awaits is never settled.  What is thrown is known by the
    text that a template literal renders it to: [Error: ] and the message
    for an [Error] object, [undefined] for a bare [reject()]. *)
Inductive Outcome (A : Type) : Type :=
| Normal (a : A)
| Thrown (e : string)
| Pending.

Arguments Normal {A} a.
Arguments Thrown {A} e.
Arguments Pending {A}.

Definition M (A : Type) : Type := World -> State -> Outcome A * State.

Definition ret {A} (a : A) : M A := fun _ st => (Normal a, st).

Definition bind {A B} (m : M A) (f : A -> M B) : M B :=
  fun w st =>
    match m w st with
    | (Normal a, st') => f a w st'
    | (Thrown e, st') => (Thrown e, st')
    | (Pending, st') => (Pending, st')
    end.

(** [throw new Error(e)], an [Error] object whose message is [e] *)
Definition throw {A} (e : string) : M A :=
  fun _ st => (Thrown ("Error: " +++ e), st).

(** [try { m } catch (error) { h error }] *)
Definition tryCatch {A} (m : M A) (h : string -> M A) : M A :=
  fun w st =>
    match m w st with
    | (Thrown e, st') => h e w st'
    | r => r
    end.

(** An effect that asks nothing *)
Definition emit (e : Event) : M unit :=
  fun _ st => (Normal tt, {| tick := tick st; trace := trace st ++ [e] |}).

(** An effect answered by an oracle *)
Definition ask {A} (e : Event) (oracle : World -> nat -> A) : M A :=
  fun w st =>
    (Normal (oracle w (tick st)),
     {| tick := S (tick st); trace := trace st ++ [e] |}).

(** A question to an oracle that leaves no mark outside *)
Definition query {A} (oracle : World -> nat -> A) : M A :=
  fun w st =>
    (Normal (oracle w (tick st)),
     {| tick := S (tick st); trace := trace st |}).

(** A promise that is never settled *)
Definition pending {A} : M A := fun _ st => (Pending, st).

(** A call of an asynchronous function that is not awaited: the caller
    receives the promise, whatever its fate *)
Definition callAsync {A} (m : M A) : M (Outcome A) :=
  fun w st => let '(o, st') := m w st in (Normal o, st').

(** [try { a = m1; m2 a } catch (error) { h a error }], where the variable
    [a] is declared outside of the block and is [undefined] in the
    handler when [m1] threw *)
Definition tryCatchWith {A B} (m1 : M A) (m2 : A -> M B)
    (h : option A -> string -> M B) : M B :=
  fun w st =>
    match m1 w st with
    | (Normal a, st1) => tryCatch (m2 a) (h (Some a)) w st1
    | (Thrown e, st1) => h None e w st1
    | (Pending, st1) => (Pending, st1)
    end.

(** A value read from the configuration of the host *)
Definition read {A} (f : World -> A) : M A := fun w st => (Normal (f w), st).

(** A pure computation that may throw *)
Definition lift {A} (o : Outcome A) : M A := fun _ st => (o, st).

Definition obind {A B} (o : Outcome A) (f : A -> Outcome B) : Outcome B :=
  match o with
  | Normal a => f a
  | Thrown e => Thrown e
  | Pending => Pending
  end.

(** [new C(...)]: the object, or what the constructor throws.  The
    parser of a build file reads the file when it is constructed, and its
    construction fails when the file cannot be read. *)
Definition constructed {A} (r : A + string) : Outcome A :=
  match r with inl a => Normal a | inr e => Thrown e end.

(** Member access on a value that may be [undefined] *)
Definition member {A} (o : option A) (what : string) : Outcome A :=
  match o with
  | Some a => Normal a
  | None => Thrown ("TypeError: Cannot read property of undefined: " +++ what)
  end.

Definition run {A} (m : M A) (w : World) (st : State) : Outcome A * State :=
  m w st.

Definition kubectl_invokeAsync (cmd : string) : M ShellResult :=
  ask (KubectlInvoke cmd) (fun w n => kubectl w n cmd).

Definition shell_exec (cmd : string) : M ShellResult :=
  ask (ShellExec cmd) (fun w n => shellExec w n cmd).

Definition shell_execCore (cmd cwd : string) (env : Env) : M ShellResult :=
  ask (ShellExecCore cmd cwd env) (fun w n => shellExecCore w n cmd cwd env).

Definition showOutput (msg : string) (title : option string) : M unit :=
  emit (ShowOutput msg title).

Definition showErrorMessage (msg : string) : M unit :=
  emit (ShowErrorMessage msg).

(** [showQuickPick]: the chosen item, [undefined] when dismissed *)
Definition showQuickPick (items_ : list string) (placeHolder : string)
  : M (option nat) :=
  ask (ShowQuickPick items_ placeHolder)
    (fun w n => match quickPick w n items_ with
                | Some i => if i <? length items_ then Some i else None
                | None => None
                end).

Definition showInputBox (prompt placeHolder : string) : M (option string) :=
  ask (ShowInputBox prompt placeHolder) (fun w n => inputBox w n).

Definition showInformationMessage (msg item : string) : M (option string) :=
  ask (ShowInformationMessage msg item)
    (fun w n => match informationMessage w n msg with
                | Some a => if String.eqb a item then Some a else None
                | None => None
                end).

Definition sleep (ms : Z) : M unit := emit (Sleep ms).

Definition executeCommand (command : string) (arg : option string) : M unit :=
  emit (ExecuteCommand command arg).

(** [Number.isInteger(Number(s))]; the conversion of the language runtime
    is not modelled, its verdict is read from the host. *)
Definition isIntegerString (s : string) : M bool :=
  read (fun w => numberIsInteger w s).

Arguments ret {A} a _ _ /.
Arguments bind {A B} m f _ _ /.
Arguments throw {A} e _ _ /.
Arguments tryCatch {A} m h _ _ /.
Arguments tryCatchWith {A B} m1 m2 h _ _ /.
Arguments emit e _ _ /.
Arguments ask {A} e oracle _ _ /.
Arguments query {A} oracle _ _ /.
Arguments pending {A} _ _ /.
Arguments callAsync {A} m _ _ /.
Arguments read {A} f _ _ /.
Arguments lift {A} o _ _ /.
Arguments run {A} m w st /.
Arguments kubectl_invokeAsync cmd _ _ /.
Arguments shell_exec cmd _ _ /.
Arguments shell_execCore cmd cwd env _ _ /.
Arguments showOutput msg title _ _ /.
Arguments showErrorMessage msg _ _ /.
Arguments showQuickPick items_ placeHolder _ _ /.
Arguments showInputBox prompt placeHolder _ _ /.
Arguments showInformationMessage msg item _ _ /.
Arguments sleep ms _ _ /.
Arguments executeCommand command arg _ _ /.
Arguments isIntegerString s _ _ /.

End Host.

Declare Scope host_scope.
Delimit Scope host_scope with host.
Notation "x <- m ;; k" := (Host.bind m (fun x => k))
  (at level 61, m at next level, right associativity) : host_scope.
Notation "m ;;; k" := (Host.bind m (fun _ => k))
  (at level 61, right associativity) : host_scope.
Notation "' pat <- m ;; k" := (Host.bind m (fun x => match x with pat => k end))
  (at level 61, pat pattern, m at next level, right associativity) : host_scope.

Import Host.
Local Open Scope host_scope.

(** ** debugInterfaces.ts *)

Module DebugInterfaces.

Record PortInfo : Type := {
  debug : option string;
  app : option string
}.

(** [resolvePortsFromFile] receives the environment object and mutates it:
    the object after the call is returned next to the result.  The
    [kubectl] argument of [resolvePortsFromPod] is the cluster oracle of the
    host. *)
Record IDockerResolver : Type := {
  isSupportedImage : string -> bool;
  resolvePortsFromFile : IDockerParser -> Env -> M (PortInfo * Env);
  resolvePortsFromPod : string -> option string -> M PortInfo
}.

Record IDebugProvider : Type := {
  getDebuggerType : string;
  isDebuggerInstalled : M bool;
  startDebugging : string -> string -> Port -> M bool;
  getDockerResolver : IDockerResolver
}.

(** [a[a.length - 1]] *)
Definition lastElement (a : list string) : option string :=
  nth_error a (length a - 1).

(** [/\$\{?(\w+)\}?/] *)
Definition placeholderRegExp : RegExp.pattern :=
  {| RegExp.re :=
       RegExp.Seq (RegExp.Chr "$")
         (RegExp.Seq (RegExp.Opt (RegExp.Chr "{"))
            (RegExp.Seq (RegExp.Grp 1 (RegExp.Plus RegExp.word))
               (RegExp.Opt (RegExp.Chr "}"))));
     RegExp.ignoreCase := false |}.

(** The length of the array returned by [match] for a pattern *)
Definition matchLength (p : RegExp.pattern) : nat :=
  S (length (RegExp.groups (RegExp.re p))).

(** The header row of the process listing and the scan of its data rows
    are shared by both resolvers; [resolve] is what a resolver does with
    the command text of one row: [None] to go on with the next row,
    [Some d] to stop with [portInfo.debug = d]. *)
Section ProcessListing.
Variable resolve : string -> Outcome (option (option string)).

(** [cols.slice(totalCol - 1, cols.length).join(" ")] *)
Definition commandOf (totalCol : nat) (cols : list string) : string :=
  Js.join " " (skipn (totalCol - 1) cols).

(** The [for] loop over [ps[1]], [ps[2]], ... *)
Fixpoint scanRows (totalCol : nat) (rows : list string)
  : Outcome (option string) :=
  match rows with
  | [] => Normal None
  | row :: rows' =>
      let cols := RegExp.split RegExp.whitespaces (Js.trim row) in
      if length cols <? totalCol then scanRows totalCol rows'
      else
        match resolve (commandOf totalCol cols) with
        | Normal None => scanRows totalCol rows'
        | Normal (Some d) => Normal d
        | Thrown e => Thrown e
        | Pending => Pending
        end
  end.

Definition scanListing (out : string) : Outcome (option string) :=
  let ps := Js.split (ascii_of_nat 10) out in
  obind (member (nth_error ps 0) "trim") (fun header =>
    let totalCol :=
      length (RegExp.split RegExp.whitespaces (Js.trim header)) in
    scanRows totalCol (tl ps)).
End ProcessListing.

End DebugInterfaces.

Import DebugInterfaces.

(** ** nodeDockerResolver.ts *)

Module NodeDockerResolver.
Import RegExp.

Definition debugOrInspect : regex := Alt (Lit "debug") (Lit "inspect").

(** [nodeDebugOptsRegExp]: an optional [--], then [debug] or [inspect],
    then optionally [=] with the non-space characters that follow *)
Definition nodeDebugOptsRegExp : pattern :=
  {| re := Seq (Opt (Grp 1 (Lit "--")))
             (Seq (Grp 2 debugOrInspect)
                (Opt (Grp 3 (Seq (Chr "=") (Star nonSpace)))));
     ignoreCase := false |}.

(** [fullNodeDebugOptsRegExp]: [node] or [nodejs], white space, any text,
    then the pattern above; the case of letters is ignored *)
Definition fullNodeDebugOptsRegExp : pattern :=
  {| re := Seq (Lit "node")
             (Seq (Opt (Grp 1 (Lit "js")))
                (Seq (Plus space)
                   (Seq (Star dot)
                      (Seq (Opt (Grp 2 (Lit "--")))
                         (Seq (Grp 3 debugOrInspect)
                            (Opt (Grp 4 (Seq (Chr "=") (Star nonSpace)))))))));
     ignoreCase := true |}.

Definition isSupportedImage (baseImage : string) : bool :=
  Js.includes "node" baseImage.

(** The debug port named by a flag: [flag] is the flag name and [address]
    the [=...] part that may follow it. *)
Definition debugPortOf (flag address : option string) : option string :=
  if negb (Js.truthyStr address) then
    Some (match flag with
          | Some f => if String.eqb f "inspect" then "9229" else "5858"
          | None => "5858"
          end)
  else
    let addresses := Js.split ":" (Js.substringFrom 1 (Js.show address)) in
    lastElement addresses.

Definition resolvePortsFromFile (dockerParser : IDockerParser) (env : Env)
  : M (PortInfo * Env) :=
  (* Resolve the debug port. *)
  let debug_ :=
    match searchLaunchArgs dockerParser nodeDebugOptsRegExp with
    | Some nodeCmd => debugPortOf (group nodeCmd 2) (group nodeCmd 3)
    | None => None
    end in
  (* Resolve the app port. *)
  let dockerExpose := getExposedPorts dockerParser in
  if Js.truthyStr debug_ && negb (length dockerExpose =? 0) then
    let excludes := [ "9229"; "5858"; Js.show debug_ ] in
    let possiblePorts :=
      filter (fun port => (Js.indexOf excludes port =? -1)%Z) dockerExpose in
    if length possiblePorts =? 1 then
      ret ({| debug := debug_; app := nth_error possiblePorts 0 |}, env)
    else if 1 <? length possiblePorts then
      picked <- showQuickPick possiblePorts
                  "Please select the app port exposed at Dockerfile" ;;
      let appPort :=
        match picked with
        | Some i => nth_error possiblePorts i
        | None => None
        end in
      match exec placeholderRegExp (Js.show appPort) with
      | Some m =>
          let varName := Js.show (group m 1) in
          ret ({| debug := debug_; app := Some "9000" |},
               setKey varName "9000" env)
      | None => ret ({| debug := debug_; app := None |}, env)
      end
    else ret ({| debug := debug_; app := None |}, env)
  else ret ({| debug := debug_; app := None |}, env).

(** The command is the template [exec ${pod} ${...} -- ps -ef], whose
    second hole holds the conditional [container ? "-c ${selectedContainer}"]
    with the empty string as alternative.  The string in the conditional is
    an ordinary string literal, not a template: its text is used as it is
    written. *)
Definition execCmd (pod : string) (container : option string) : string :=
  "exec " +++ pod +++ " " +++
  (if Js.truthyStr container then "-c ${selectedContainer}" else EmptyString)
  +++ " -- ps -ef".

(** The body of the loop below the column test *)
Definition resolveCommand (cmd : string) : Outcome (option (option string)) :=
  match exec fullNodeDebugOptsRegExp cmd with
  | Some matches =>
      if matchLength fullNodeDebugOptsRegExp =? 5 then
        Normal (Some (debugPortOf (group matches 3) (group matches 4)))
      else Normal None
  | None => Normal None
  end.

Definition resolvePortsFromPod (pod : string) (container : option string)
  : M PortInfo :=
  execResult <- kubectl_invokeAsync (execCmd pod container) ;;
  debug_ <- (if (code execResult =? 0)%Z
             then lift (scanListing resolveCommand (stdout execResult))
             else ret None) ;;
  if negb (Js.truthyStr debug_) then
    input <- showInputBox
               "Please specify debug port exposed by the container (e.g. 9229)"
               "9229" ;;
    ret {| debug := if Js.truthyStr input then Some (Js.trim (Js.show input))
                    else None;
           app := None |}
  else ret {| debug := debug_; app := None |}.

Definition resolver : IDockerResolver :=
  {| DebugInterfaces.isSupportedImage := isSupportedImage;
     DebugInterfaces.resolvePortsFromFile := resolvePortsFromFile;
     DebugInterfaces.resolvePortsFromPod := resolvePortsFromPod |}.

End NodeDockerResolver.

(** ** javaDockerResolver.ts *)

Module JavaDockerResolver.
Import RegExp.

Definition defaultJavaDebugPort : string := "5005".
Definition defaultJavaDebugOpts : string :=
  "-agentlib:jdwp=transport=dt_socket,server=y,suspend=n,address="
  +++ defaultJavaDebugPort +++ ",quiet=y".
Definition defaultJavaAppPort : string := "9000".

Definition agent : regex := Alt (Lit "-agentlib") (Lit "-Xrunjdwp").

(** [address=] and one or more characters other than white space and
    the comma *)
Definition address : regex :=
  Seq (Lit "address=")
    (Plus (Cls (fun c => negb (Js.isSpace c || Ascii.eqb c ",")))).

(** [javaDebugOptsRegExp]: the agent flag, a colon, non-space characters
    and the address; the case of letters is ignored *)
Definition javaDebugOptsRegExp : pattern :=
  {| re := Seq (Grp 1 agent)
             (Seq (Chr ":") (Seq (Star nonSpace) (Grp 2 address)));
     ignoreCase := true |}.

(** [fullJavaDebugOptsRegExp]: at the start of the text [java], white
    space and any text, then the pattern above and the non-space
    characters that follow it *)
Definition fullJavaDebugOptsRegExp : pattern :=
  {| re := Seq Bol
             (Seq (Lit "java")
                (Seq (Plus space)
                   (Seq (Star dot)
                      (Seq (Grp 1 agent)
                         (Seq (Chr ":")
                            (Seq (Star nonSpace)
                               (Seq (Grp 2 address) (Star nonSpace))))))));
     ignoreCase := true |}.

(** The pattern for a reference to [JAVA_OPTS], with or without braces *)
Definition javaOptsRegExp : pattern :=
  {| re := Seq (Chr "$")
             (Seq (Opt (Chr "{")) (Seq (Lit "JAVA_OPTS") (Opt (Chr "}"))));
     ignoreCase := false |}.

Definition isSupportedImage (baseImage : string) : bool :=
  Js.includes "java" baseImage
  || Js.includes "openjdk" baseImage
  || Js.includes "oracle" baseImage.

(** [matches[2].split("=")[1].split(":")], then the last element *)
Definition debugPortOf (matches : matchResult) : Outcome (option string) :=
  obind (member (group matches 2) "split") (fun g =>
  obind (member (nth_error (Js.split "=" g) 1) "split") (fun a =>
    let addresses := Js.split ":" a in
    Normal (lastElement addresses))).

Definition resolvePortsFromFile (dockerParser : IDockerParser) (env : Env)
  : M (PortInfo * Env) :=
  (* Resolve the debug port. *)
  '(debug_, env1) <-
    match searchLaunchArgs dockerParser javaDebugOptsRegExp with
    | Some matches =>
        d <- lift (debugPortOf matches) ;; ret (d, env)
    | None =>
        match searchLaunchArgs dockerParser javaOptsRegExp with
        | Some _ =>
            ret (Some defaultJavaDebugPort,
                 setKey "JAVA_OPTS" defaultJavaDebugOpts env)
        | None => ret (None, env)
        end
    end ;;
  (* Resolve the app port. *)
  let dockerExpose := getExposedPorts dockerParser in
  if Js.truthyStr debug_ && negb (length dockerExpose =? 0) then
    let excludes := [ Js.show debug_ ] in
    let possiblePorts :=
      filter (fun port => (Js.indexOf excludes port =? -1)%Z) dockerExpose in
    if length possiblePorts =? 1 then
      ret ({| debug := debug_; app := nth_error possiblePorts 0 |}, env1)
    else if 1 <? length possiblePorts then
      picked <- showQuickPick possiblePorts
                  "Please select the app port exposed at Dockerfile" ;;
      let appPort :=
        match picked with
        | Some i => nth_error possiblePorts i
        | None => None
        end in
      match exec placeholderRegExp (Js.show appPort) with
      | Some m =>
          let varName := Js.show (group m 1) in
          ret ({| debug := debug_; app := Some defaultJavaAppPort |},
               setKey varName defaultJavaAppPort env1)
      | None => ret ({| debug := debug_; app := None |}, env1)
      end
    else ret ({| debug := debug_; app := None |}, env1)
  else ret ({| debug := debug_; app := None |}, env1).

(** The same command line as in the node resolver *)
Definition execCmd (pod : string) (container : option string) : string :=
  "exec " +++ pod +++ " " +++
  (if Js.truthyStr container then "-c ${selectedContainer}" else EmptyString)
  +++ " -- ps -ef".

(** The body of the loop below the column test *)
Definition resolveCommand (cmd : string) : Outcome (option (option string)) :=
  match exec fullJavaDebugOptsRegExp cmd with
  | Some matches =>
      if matchLength fullJavaDebugOptsRegExp =? 3 then
        obind (debugPortOf matches) (fun d => Normal (Some d))
      else Normal None
  | None => Normal None
  end.

Definition resolvePortsFromPod (pod : string) (container : option string)
  : M PortInfo :=
  execResult <- kubectl_invokeAsync (execCmd pod container) ;;
  debug_ <- (if (code execResult =? 0)%Z
             then lift (scanListing resolveCommand (stdout execResult))
             else ret None) ;;
  if negb (Js.truthyStr debug_) then
    input <- showInputBox
               "Please specify debug port exposed by the container (e.g. 5005)"
               defaultJavaDebugPort ;;
    ret {| debug := if Js.truthyStr input then Some (Js.trim (Js.show input))
                    else None;
           app := None |}
  else ret {| debug := debug_; app := None |}.

Definition resolver : IDockerResolver :=
  {| DebugInterfaces.isSupportedImage := isSupportedImage;
     DebugInterfaces.resolvePortsFromFile := resolvePortsFromFile;
     DebugInterfaces.resolvePortsFromPod := resolvePortsFromPod |}.

End JavaDockerResolver.


(** ** javaDebugProvider.ts *)

Module JavaDebugProvider.

Definition defaultJavaDebuggerExtension : string := "vscjava.vscode-java-debug".

Definition getDebuggerType : string := "java".

Definition isDebuggerInstalled : M bool :=
  installed <- read (fun w => getExtension w defaultJavaDebuggerExtension) ;;
  if installed then ret true
  else
    answer <- showInformationMessage
                ("Please install java debugger extension '"
                 +++ defaultJavaDebuggerExtension
                 +++ "' before starting java debug.") "Install Now" ;;
    (match answer with
     | Some _ =>
         cli <- read vscodeCliProgram ;;
         shellResult <- shell_exec
                          (Js.dquote +++ cli +++ Js.dquote
                           +++ " --install-extension "
                           +++ defaultJavaDebuggerExtension) ;;
         if (code shellResult =? 0)%Z then
           restartAns <- showInformationMessage
                           "The java debugger extension was successfully installed. Restart to enable it."
                           "Restart Now" ;;
           match restartAns with
           | Some _ => executeCommand "workbench.action.reloadWindow" None
           | None => ret tt
           end
         else ret tt
     | None => ret tt
     end) ;;;
    ret false.

Definition startDebugging (workspaceFolder sessionName : string)
    (port_ : Port) : M bool :=
  let debugConfiguration :=
    {| type_ := "java";
       request := "attach";
       name := sessionName;
       hostName := "localhost";
       port := port_ |} in
  base <- read (fun w => pathBasename w workspaceFolder) ;;
  folders <- read workspaceFolders ;;
  let currentFolder := find (fun folder => String.eqb folder base) folders in
  ask (StartDebugging currentFolder debugConfiguration)
    (fun w n => debugStartDebugging w n debugConfiguration).

Definition provider : IDebugProvider :=
  {| DebugInterfaces.getDebuggerType := getDebuggerType;
     DebugInterfaces.isDebuggerInstalled := isDebuggerInstalled;
     DebugInterfaces.startDebugging := startDebugging;
     DebugInterfaces.getDockerResolver := JavaDockerResolver.resolver |}.

End JavaDebugProvider.

(** ** nodeDebugProvider.ts *)

Module NodeDebugProvider.

(** Modelled from the spec: the provider of the node runtime, whose source
    file is not part of this development.  It names its debugger type,
    lets the host say whether the debugger tooling is there and attaches
    with the remote-attach descriptor of the host debugger boundary. *)
Definition provider : IDebugProvider :=
  {| DebugInterfaces.getDebuggerType := "node";
     DebugInterfaces.isDebuggerInstalled := query nodeDebuggerInstalled;
     DebugInterfaces.startDebugging := fun workspaceFolder sessionName port_ =>
       let debugConfiguration :=
         {| type_ := "node";
            request := "attach";
            name := sessionName;
            hostName := "localhost";
            port := port_ |} in
       base <- read (fun w => pathBasename w workspaceFolder) ;;
       folders <- read workspaceFolders ;;
       ask (StartDebugging (find (fun folder => String.eqb folder base) folders)
              debugConfiguration)
         (fun w n => debugStartDebugging w n debugConfiguration);
     DebugInterfaces.getDockerResolver := NodeDockerResolver.resolver |}.

End NodeDebugProvider.

(** ** providerRegistry.ts *)

Module ProviderRegistry.

Definition supportedProviders : list IDebugProvider :=
  [ JavaDebugProvider.provider; NodeDebugProvider.provider ].

Definition showProviderPick : M (option IDebugProvider) :=
  let providerItems := map getDebuggerType supportedProviders in
  pickedProvider <- showQuickPick providerItems "Please select the debug type." ;;
  match pickedProvider with
  | None => ret None
  | Some i => ret (nth_error supportedProviders i)
  end.

Definition getDebugProvider (baseImage : option string)
  : M (option IDebugProvider) :=
  let debugProvider :=
    if Js.truthyStr baseImage then
      find (fun provider =>
              isSupportedImage (getDockerResolver provider) (Js.show baseImage))
        supportedProviders
    else None in
  match debugProvider with
  | None => showProviderPick
  | Some p => ret (Some p)
  end.

End ProviderRegistry.

(** ** dockerClient.ts *)

Module DockerClient.

Record ShellOpts : Type := {
  cwd : string;
  env : Env
}.

Definition build (image : string) (shellOpts : ShellOpts) : M ShellResult :=
  shell_execCore ("docker build -t " +++ image +++ " .")
    (cwd shellOpts) (env shellOpts).

Definition push (image : string) (shellOpts : ShellOpts) : M ShellResult :=
  shell_execCore ("docker push " +++ image) (cwd shellOpts) (env shellOpts).

End DockerClient.

(** ** The debug service *)

Module DebugService.
Import RegExp.

Record WorkspaceFolder : Type := {
  folderName : string;
  fsPath : string
}.

(** What [createPortForward] returns; the process is known by the events
    it is going to signal. *)
Record ProxyResult : Type := {
  proxyProcess : list SessionEvent;
  proxyDebugPort : Port;
  proxyAppPort : Port
}.

Definition report (message : string) : M unit := emit (ProgressReport message).

Definition deleteResource (resourceId : string) : M unit :=
  deleteResult <- kubectl_invokeAsync ("delete " +++ resourceId) ;;
  if negb (code deleteResult =? 0)%Z then
    showOutput ("Kubectl command failed: " +++ stderr deleteResult)
      (Some "Delete debug resource")
  else
    showOutput ("Resource " +++ resourceId +++ " is removed successfully.")
      (Some "Delete debug resource") ;;;
    executeCommand "extension.vsKubernetesRefreshExplorer" None.

Definition findVersion (cwd : string) : M string :=
  baseEnv <- read execOptsEnv ;;
  shellResult <- shell_execCore "git describe --always --dirty" cwd baseEnv ;;
  ret (if negb (code shellResult =? 0)%Z then "latest"
       else Js.trim (stdout shellResult)).

(** [/^https/], [/^https?:/] and [/:\d+$/] *)
Definition httpsRegExp : pattern :=
  {| re := Seq Bol (Lit "https"); ignoreCase := false |}.
Definition schemeRegExp : pattern :=
  {| re := Seq Bol (Seq (Lit "http") (Seq (Opt (Chr "s")) (Chr ":")));
     ignoreCase := false |}.
Definition portSuffixRegExp : pattern :=
  {| re := Seq (Chr ":") (Seq (Plus digit) Eol); ignoreCase := false |}.

(** Modelled from the spec: [getKubeconfig(this.kubectl)], whose module is
    not among the sources.  It sends [config view -o json], which the
    cluster CLI boundary lists, through the cluster CLI; what it makes of
    the answer, nothing when the command failed, is the host's. *)
Definition kubectlUtils_getKubeconfig : M (option KubeConfig) :=
  ask (KubectlInvoke "config view -o json") getKubeconfig.

Definition resolveDockerEnv : M Env :=
  let dockerEnv := [] in
  versionResult <- shell_exec
                     ("docker version --format " +++ Js.dquote
                      +++ "{{.Client.APIVersion}}" +++ Js.dquote) ;;
  let dockerEnv := setKey "DOCKER_API_VERSION" "1.23" dockerEnv in
  let dockerEnv :=
    if (code versionResult =? 0)%Z
    then setKey "DOCKER_API_VERSION" (Js.trim (stdout versionResult)) dockerEnv
    else dockerEnv in
  kubeConfig <- kubectlUtils_getKubeconfig ;;
  match kubeConfig with
  | None => ret []
  | Some kubeConfig =>
      let contextConfig :=
        find (fun context => String.eqb (contextName context)
                               (currentContext kubeConfig))
          (contexts kubeConfig) in
      contextConfig <- lift (member contextConfig "context") ;;
      let clusterConfig :=
        find (fun cluster => String.eqb (clusterName cluster)
                               (contextCluster contextConfig))
          (clusters kubeConfig) in
      clusterConfig <- lift (member clusterConfig "cluster") ;;
      let server_ := server clusterConfig in
      let certificate := certificateAuthority clusterConfig in
      if negb (Js.truthyStr certificate) then ret []
      else
        let dockerEnv :=
          if test httpsRegExp server_
          then setKey "DOCKER_TLS_VERIFY" "1" dockerEnv else dockerEnv in
        let dockerEnv :=
          setKey "DOCKER_HOST"
            (replace portSuffixRegExp ":2376"
               (replace schemeRegExp "tcp:" server_)) dockerEnv in
        certDir <- read (fun w => pathDirname w (Js.show certificate)) ;;
        certs <- read (fun w => pathJoin w certDir "certs") ;;
        found <- query (fun w n => existsSync w n certs) ;;
        ret (setKey "DOCKER_CERT_PATH" (if found then certs else certDir)
               dockerEnv)
  end.

Definition buildDockerImage (cwd : string) (dockerImageUser : option string)
  : M string :=
  name_ <- read (fun w => sanitiseTag w (pathBasename w cwd)) ;;
  version <- findVersion cwd ;;
  let image := name_ +++ ":" +++ version in
  let image :=
    if Js.truthyStr dockerImageUser
    then Js.show dockerImageUser +++ "/" +++ image else image in
  baseEnv <- read execOptsEnv ;;
  shellEnv <- (if negb (Js.truthyStr dockerImageUser) then
                 dockerEnv <- resolveDockerEnv ;;
                 (* In order to allow local kubernetes cluster (e.g. minikube)
                    to have access to local docker images, need override
                    docker-env before running docker build. *)
                 ret (assign baseEnv dockerEnv)
               else ret baseEnv) ;;
  let shellOpts := {| DockerClient.cwd := cwd; DockerClient.env := shellEnv |} in
  buildResult <- DockerClient.build image shellOpts ;;
  if (code buildResult =? 0)%Z then
    showOutput (image +++ " built.") (Some "Docker build") ;;;
    (if Js.truthyStr dockerImageUser then
       pushResult <- DockerClient.push image shellOpts ;;
       if negb (code pushResult =? 0)%Z then
         showErrorMessage "Image push failed. See Output window for details." ;;;
         showOutput (stderr pushResult) (Some "Docker push") ;;;
         throw ("Image push failed: " +++ stderr pushResult)
       else showOutput (image +++ " pushed.") (Some "Docker push")
     else ret tt) ;;;
    ret image
  else
    showErrorMessage "Image build failed. See Output window for details." ;;;
    showOutput (stderr buildResult) (Some "Docker build") ;;;
    throw ("Image build failed: " +++ stderr buildResult).

(** The words of the run command, before they are joined *)
Definition runCmd (deploymentName image : string)
    (exposedPorts : list (option string)) (env : Env) : list string :=
  let imageName := hd EmptyString (Js.split ":" image) in
  let imageUser_ :=
    Js.substring 0 (Js.lastIndexOf "/" imageName + 1) imageName in
  [ "run";
    deploymentName;
    "--image=" +++ image;
    if negb (Js.truthyStr (Some imageUser_))
    then " --image-pull-policy=Never" else EmptyString ]
  ++ map (fun port_ => if Js.truthyStr port_
                       then "--port=" +++ Js.show port_ else EmptyString)
       exposedPorts
  ++ map (fun kv => "--env=" +++ Js.dquote +++ fst kv +++ "=" +++ snd kv
                    +++ Js.dquote) env.

Definition runDockerImageInK8s (image : string)
    (exposedPorts : list (option string)) (env : Env) : M string :=
  let imageName := hd EmptyString (Js.split ":" image) in
  let baseName :=
    Js.substringFrom (Js.lastIndexOf "/" imageName + 1) imageName in
  now <- query dateNow ;;
  let deploymentName := baseName +++ "-debug-" +++ Js.numberToString now in
  runResult <- kubectl_invokeAsync
                 (Js.join " " (runCmd deploymentName image exposedPorts env)) ;;
  if negb (code runResult =? 0)%Z then
    showErrorMessage ("Failed to start debug container: " +++ stderr runResult) ;;;
    throw ("Failed to start debug container: " +++ stderr runResult)
  else ret deploymentName.

Definition findPods (labelQuery : string) : M PodList :=
  getResult <- kubectl_invokeAsync ("get pods -o json -l " +++ labelQuery) ;;
  if negb (code getResult =? 0)%Z then
    showErrorMessage ("Kubectl command failed: " +++ stderr getResult) ;;;
    throw ("Kubectl command failed: " +++ stderr getResult)
  else
    parsed <- read (fun w => jsonParse w (stdout getResult)) ;;
    match parsed with
    | inl podList => ret podList
    | inr ex =>
        showErrorMessage ("unexpected error: " +++ ex) ;;;
        throw ("unexpected error: " +++ ex)
    end.

Definition isStatus (status : option string) (s : string) : bool :=
  match status with Some x => String.eqb x s | None => false end.

(** The recursion of the source has no bound; [polls] bounds the number of
    status queries that the model follows, after which the call is still
    waiting. *)
Fixpoint waitForRunningPod (polls : nat) (podName : string) : M unit :=
  match polls with
  | O => pending
  | S polls' =>
      shellResult <- kubectl_invokeAsync
                       ("get pod/" +++ podName +++ " --no-headers") ;;
      if negb (code shellResult =? 0)%Z then
        showOutput ("Failed to get pod status: " +++ stderr shellResult)
          (Some "Query pod status") ;;;
        showErrorMessage ("Failed to get pod status: " +++ stderr shellResult) ;;;
        throw ("Failed to get pod status: " +++ stderr shellResult)
      else
        let status := nth_error (split whitespaces (stdout shellResult)) 2 in
        showOutput ("pod/" +++ podName +++ " status: " +++ Js.show status)
          (Some "Query pod status") ;;;
        if isStatus status "Running" then ret tt
        else if negb (isStatus status "ContainerCreating")
                && negb (isStatus status "Pending")
                && negb (isStatus status "Succeeded") then
          showErrorMessage
            ("The pod " +++ Js.dquote +++ podName +++ Js.dquote
             +++ " stays at a wrong status " +++ Js.dquote +++ Js.show status
             +++ Js.dquote +++ ". See Output window for more details.") ;;;
          logsResult <- kubectl_invokeAsync ("logs pod/" +++ podName) ;;
          showOutput
            ("Failed to start the pod " +++ Js.dquote +++ podName +++ Js.dquote
             +++ ", it's status is " +++ Js.dquote +++ Js.show status
             +++ Js.dquote +++ "." +++ Js.newline +++ Js.newline
             +++ "                See more details from the pod logs:"
             +++ Js.newline
             +++ (if (code logsResult =? 0)%Z
                  then stdout logsResult else stderr logsResult))
            (Some "Query pod status") ;;;
          throw ("Failed to start the pod " +++ Js.dquote +++ podName
                 +++ Js.dquote +++ ", it's status is " +++ Js.dquote
                 +++ Js.show status +++ Js.dquote +++ ".")
        else
          sleep 1000 ;;;
          waitForRunningPod polls' podName
  end.

Definition getPort (req : PortRequest) : M Port :=
  found <- ask (GetPort req) (fun w n => getPortPromise w n req) ;;
  match found with
  | Some p => ret p
  | None => throw "No open ports available"
  end.

Definition createPortForward (podName debugPort : string)
    (appPort : option string) : M ProxyResult :=
  let portMapping := [] in
  (* Find a free local port for forwarding data to remote app port. *)
  let proxyAppPort_ := PortNumber 0 in
  '(proxyAppPort_, portMapping) <-
    (if Js.truthyStr appPort then
       found <- getPort (FromString (Js.show appPort)) ;;
       ret (found,
            portMapping
            ++ [portToString found +++ ":" +++ Js.show appPort])
     else ret (proxyAppPort_, portMapping)) ;;
  (* Find a free local port for forwarding data to remote debug port. *)
  proxyDebugPort_ <- getPort FromBase ;;
  proxyDebugPort_ <-
    (if portEquals proxyDebugPort_ proxyAppPort_
     then getPort (portPlusOne proxyAppPort_)
     else ret proxyDebugPort_) ;;
  let portMapping :=
    portMapping ++ [portToString proxyDebugPort_ +++ ":" +++ debugPort] in
  configured <- read kubectlPath ;;
  let bin := if negb (Js.truthyStr configured) then "kubectl"
             else Js.show configured in
  let args := ["port-forward"; podName] ++ portMapping in
  process <- ask (Spawn bin args) (fun w n => spawn w n bin args) ;;
  ret {| proxyProcess := process;
         proxyDebugPort := proxyDebugPort_;
         proxyAppPort := proxyAppPort_ |}.

(** The pattern of the readiness line: [Forwarding], white space, [from],
    white space, [127.0.0.1:] *)
Definition forwardingRegExp : pattern :=
  {| re := Seq (Lit "Forwarding")
             (Seq (Plus space)
                (Seq (Lit "from") (Seq (Plus space) (Lit "127.0.0.1:"))));
     ignoreCase := false |}.

(** The variables that the handlers of [startDebug] share: the flag
    [isStarted], the state of the returned promise ([None] while it is not
    settled, [Some true] once resolved, [Some false] once rejected) and the
    session name for which the two listeners of the host debugger are
    registered, while they are. *)
Record Session : Type := {
  isStarted : bool;
  settled : option bool;
  listeners : option string
}.

Definition newSession : Session :=
  {| isStarted := false; settled := None; listeners := None |}.

(** [resolve()] and [reject()]: the first call settles the promise *)
Definition settle (b : bool) (s : Session) : Session :=
  {| isStarted := isStarted s;
     settled := match settled s with None => Some b | x => x end;
     listeners := listeners s |}.

Section StartDebug.
Variable debugProvider : IDebugProvider.
Variable appName : option string.
Variable workspaceFolder : string.
Variable debugType : string.
Variable proxyDebugPort_ : Port.
Variable proxyAppPort_ : Port.

(** [proxyProcess.stdout.on('data', ...)] *)
Definition onStdoutData (s : Session) (data : string) : M Session :=
  let message := data in
  if negb (isStarted s) && test forwardingRegExp message then
    let s := {| isStarted := true; settled := settled s;
                listeners := listeners s |} in
    sessionName <-
      (if Js.truthyStr appName then ret (Js.show appName)
       else now <- query dateNow ;; ret (Js.numberToString now)) ;;
    emit OnDidStartDebugSession ;;;
    emit OnDidTerminateDebugSession ;;;
    let s := {| isStarted := isStarted s; settled := settled s;
                listeners := Some sessionName |} in
    (* [startDebugging] is asynchronous and is called without [await]:
       [success] is the promise that it returns. *)
    promise <- callAsync (startDebugging debugProvider workspaceFolder
                            sessionName proxyDebugPort_) ;;
    let success :=
      Js.VPromise (match promise with
                   | Normal b => Js.VBool b
                   | _ => Js.VUndefined
                   end) in
    if negb (Js.truthy success) then
      emit Kill ;;;
      emit (Dispose 2) ;;;
      ret (settle false {| isStarted := isStarted s; settled := settled s;
                           listeners := None |})
    else ret (settle true s)
  else ret s.

(** [proxyProcess.stderr.on('data', ...)] *)
Definition onStderrData (s : Session) (data : string) : M Session :=
  showOutput data (Some "port-forward") ;;; ret s.

(** [proxyProcess.on('close', ...)] *)
Definition onClose (s : Session) (exitCode : Z) : M Session :=
  let s := settle true {| isStarted := true; settled := settled s;
                          listeners := listeners s |} in
  (if Js.truthyStr appName
   then deleteResource ("deployment/" +++ Js.show appName)
   else ret tt) ;;;
  ret s.

(** The listener registered with [onDidStartDebugSession] *)
Definition onDidStart (s : Session) (name_ : string) : M Session :=
  match listeners s with
  | Some sessionName =>
      (if String.eqb name_ sessionName then
         showOutput
           ("The " +++ debugType
            +++ " debug session is started, you could start debugging your application now.")
           (Some ("Start " +++ debugType +++ " debug")) ;;;
         if portTruthy proxyAppPort_ then
           showOutput
             ("The local proxy url for your service is http://localhost:"
              +++ portToString proxyAppPort_)
             (Some "Create proxy for service") ;;;
           executeCommand "vscode.open"
             (Some ("http://localhost:" +++ portToString proxyAppPort_))
         else ret tt
       else ret tt) ;;;
      ret s
  | None => ret s
  end.

(** The listener registered with [onDidTerminateDebugSession] *)
Definition onDidTerminate (s : Session) (name_ : string) : M Session :=
  match listeners s with
  | Some sessionName =>
      if String.eqb name_ sessionName then
        emit Kill ;;;
        emit (Dispose 2) ;;;
        ret {| isStarted := isStarted s; settled := settled s;
               listeners := None |}
      else ret s
  | None => ret s
  end.

Definition handle (s : Session) (e : SessionEvent) : M Session :=
  match e with
  | StdoutData data => onStdoutData s data
  | StderrData data => onStderrData s data
  | Close exitCode => onClose s exitCode
  | DidStartDebugSession n => onDidStart s n
  | DidTerminateDebugSession n => onDidTerminate s n
  end.

(** The handlers at work on a sequence of events *)
Fixpoint handleAll (s : Session) (events : list SessionEvent) : M Session :=
  match events with
  | [] => ret s
  | e :: rest => s' <- handle s e ;; handleAll s' rest
  end.

(** The handlers at work until the promise is settled; the events that
    are left come after the caller has been resumed. *)
Fixpoint untilSettled (s : Session) (events : list SessionEvent)
  : M (Session * list SessionEvent) :=
  match events with
  | [] => ret (s, [])
  | e :: rest =>
      match settled s with
      | Some _ => ret (s, events)
      | None => s' <- handle s e ;; untilSettled s' rest
      end
  end.

(** [await this.startDebug(...)]: the caller is resumed when the promise
    is settled; a rejected promise throws, a promise that no event
    settles leaves the caller waiting. *)
Definition startDebug (proxyProcess_ : list SessionEvent)
  : M (Session * list SessionEvent) :=
  r <- untilSettled newSession proxyProcess_ ;;
  match settled (fst r) with
  | Some true => ret r
  | Some false => lift (Thrown "undefined")
  | None => pending
  end.
End StartDebug.

(** [vscode.window.withProgress(options, task)] is not awaited by its
    caller: the task runs, what becomes of its promise is not looked at. *)
Definition withProgress {A} (task : M A) : M unit :=
  fun w st => let '(_, st') := task w st in (Normal tt, st').

(** The handler of the [catch] block of the launch flow *)
Definition onLaunchError (appName : option string) (error : string) : M unit :=
  showOutput ("Debug(Launch) on kubernetes failed. See the errors: "
              +++ error +++ ".") None ;;;
  if Js.truthyStr appName then
    tryCatch (deleteResource ("deployment/" +++ Js.show appName))
      (fun error1 => (* do nothing. *) ret tt)
  else ret tt.

(** The task handed to [withProgress] by [launchDebug] *)
Definition launchFlow (polls : nat) (debugProvider : IDebugProvider)
    (cwd : string) (dockerImageUser : option string) (portInfo : PortInfo)
    (containerEnv : Env) : M unit :=
  tryCatchWith
    ((* Build docker image. *)
     report "Building docker image..." ;;;
     image <- buildDockerImage cwd dockerImageUser ;;
     (* Run docker image in k8s container. *)
     report "Running docker image on k8s..." ;;;
     runDockerImageInK8s image [app portInfo; debug portInfo] containerEnv)
    (fun appName =>
       (* Find the running debug pod. *)
       report "Finding the debug pod..." ;;;
       podList <- findPods ("run=" +++ appName) ;;
       items_ <- lift (member (items podList) "length") ;;
       (if length items_ =? 0 then
          showErrorMessage "Failed to find debug pod." ;;;
          throw "Failed to find debug pod."
        else ret tt) ;;;
       metadata <- lift (member (nth_error items_ 0) "metadata") ;;
       metadata <- lift (member metadata "name") ;;
       let podName := Js.show metadata in
       showOutput ("Debug pod running as: " +++ podName) (Some "Run debug pod") ;;;
       (* Wait for the debug pod status to be running. *)
       report "Waiting for the pod to be ready..." ;;;
       waitForRunningPod polls podName ;;;
       (* Setup port-forward. *)
       report "Creating port-forwarding..." ;;;
       proxyResult <- createPortForward podName (Js.show (debug portInfo))
                        (app portInfo) ;;
       (* Start debug session. *)
       report ("Starting " +++ getDebuggerType debugProvider
               +++ " debug session...") ;;;
       startDebug debugProvider (Some appName) cwd
         (getDebuggerType debugProvider)
         (proxyDebugPort proxyResult)
         (proxyAppPort proxyResult)
         (proxyProcess proxyResult) ;;;
       ret tt)
    onLaunchError.

(** [launchDebug] from the test of the resolved ports on *)
Definition launchResolved (polls : nat) (debugProvider : IDebugProvider)
    (cwd : string) (dockerImageUser : option string) (portInfo : PortInfo)
    (containerEnv : Env) : M unit :=
  if negb (Js.truthyStr (debug portInfo)) then
    showErrorMessage "Cannot resolve debug port from Dockerfile."
  else
    integral <- isIntegerString (Js.show (app portInfo)) ;;
    if negb (Js.truthyStr (app portInfo)) || negb integral then
      showErrorMessage "Cannot resolve application port from Dockerfile."
    else
      withProgress
        (launchFlow polls debugProvider cwd dockerImageUser portInfo
           containerEnv).

Definition launchDebug (polls : nat) (workspaceFolder : option WorkspaceFolder)
  : M unit :=
  match workspaceFolder with
  | None => ret tt
  | Some folder =>
      (* TODO: Support docker-compose.yml *)
      dockerfilePath <- read (fun w => pathJoin w (fsPath folder) "Dockerfile") ;;
      found <- query (fun w n => existsSync w n dockerfilePath) ;;
      if negb found then
        showErrorMessage ("No Dockerfile found at the workspace "
                          +++ folderName folder)
      else
        dockerParser <- read (fun w => newDockerfileParser w dockerfilePath) ;;
        dockerParser <- lift (constructed dockerParser) ;;
        debugProvider <- ProviderRegistry.getDebugProvider
                           (Some (getBaseImage dockerParser)) ;;
        match debugProvider with
        | None => ret tt
        | Some debugProvider =>
            installed <- isDebuggerInstalled debugProvider ;;
            if negb installed then ret tt
            else
              let cwd := fsPath folder in
              dockerImageUser <- read imageUser ;;
              let containerEnv := [] in
              r <- resolvePortsFromFile (getDockerResolver debugProvider)
                     dockerParser containerEnv ;;
              launchResolved polls debugProvider cwd dockerImageUser
                (fst r) (snd r)
        end
  end.

End DebugService.

(** ** Concrete hosts, used to run the code on examples *)

Module Scenario.

Definition ok (out : string) : ShellResult :=
  {| code := 0; stdout := out; stderr := EmptyString |}.

Definition failure (err : string) : ShellResult :=
  {| code := 1; stdout := EmptyString; stderr := err |}.

(** Modelled from the spec: the parser of a build file, whose class is not
    part of this development.  It exposes the base image and the exposed
    ports, and its search scans every launch instruction and returns the
    first match. *)
Fixpoint firstMatch (p : RegExp.pattern) (launch : list string)
  : option RegExp.matchResult :=
  match launch with
  | [] => None
  | l :: launch' =>
      match RegExp.exec p l with
      | Some m => Some m
      | None => firstMatch p launch'
      end
  end.

Definition dockerfile (baseImage : string) (exposed launch : list string)
  : IDockerParser :=
  {| getBaseImage := baseImage;
     getExposedPorts := exposed;
     searchLaunchArgs := fun p => firstMatch p launch |}.

(** The last segment of a path written with [/] *)
Definition basename (path : string) : string :=
  match lastElement (Js.split "/" path) with
  | Some s => s
  | None => path
  end.

Definition decimal (s : string) : bool :=
  negb (Js.isEmpty s) &&
  forallb Js.isDigit (list_ascii_of_string s).

(** A host in which every command succeeds with [out cmd], the user takes
    the item [pick] of every list, the debugger reports [attached] and the
    port-forward subprocess signals [events]. *)
Definition host (parser : IDockerParser) (user : option string)
    (out : string -> ShellResult) (pick : option nat) (typed : option string)
    (attached : bool) (events : list SessionEvent) : World :=
  {| kubectl := fun _ cmd => out cmd;
     shellExec := fun _ cmd => out cmd;
     shellExecCore := fun _ cmd _ _ => out cmd;
     quickPick := fun _ _ => pick;
     inputBox := fun _ => typed;
     informationMessage := fun _ _ => None;
     existsSync := fun _ _ => true;
     dateNow := fun n => Z.of_nat n;
     getPortPromise := fun _ req =>
       match req with
       | FromBase => Some (PortNumber 8000)
       | FromString s => Some (PortString s)
       | FromNumber n => Some (PortNumber n)
       end;
     spawn := fun _ _ _ => events;
     newDockerfileParser := fun _ => inl parser;
     numberIsInteger := decimal;
     debugStartDebugging := fun _ _ => attached;
     getKubeconfig := fun _ => None;
     jsonParse := fun _ => inl {| items := Some [Some (Some "app-pod")] |};
     nodeDebuggerInstalled := fun _ => true;
     getExtension := fun _ => true;
     workspaceFolders := ["app"];
     imageUser := user;
     kubectlPath := None;
     execOptsEnv := [];
     vscodeCliProgram := "/usr/bin/code";
     pathJoin := fun a b => a +++ "/" +++ b;
     pathDirname := fun a => a;
     pathBasename := basename;
     sanitiseTag := fun a => a |}.

Definition folder : DebugService.WorkspaceFolder :=
  {| DebugService.folderName := "app"; DebugService.fsPath := "/work/app" |}.


(** The answers of a cluster whose pod is running at the first query *)
Definition running (cmd : string) : ShellResult :=
  if String.prefix "get pod/" cmd
  then ok "app-pod   1/1   Running   0   5s"
  else if String.prefix "git" cmd then failure "not a repository"
  else ok EmptyString.

Definition forwarding : string := "Forwarding from 127.0.0.1:54321 -> 5005".

Definition javaLaunch : string :=
  "java -agentlib:jdwp=transport=dt_socket,server=y,suspend=n,address=5005,quiet=y -jar app.jar".

(** A java image that exposes nothing but its debug port *)
Definition debugOnlyFile : IDockerParser :=
  dockerfile "openjdk:8" ["5005"] [javaLaunch].

Definition debugOnly : World :=
  host debugOnlyFile None running None None true [StdoutData forwarding].

(** A node image with two candidate application ports; the user takes
    the first one, [3000]. *)
Definition twoCandidatesFile : IDockerParser :=
  dockerfile "node:8" ["5858"; "3000"; "4000"] ["node --debug index.js"].

Definition twoCandidates : World :=
  host twoCandidatesFile None running (Some 0) None true
    [StdoutData forwarding].

(** A java image with one application port, in a host whose debugger
    reports that it could not attach, after a port-forward subprocess that
    signals readiness twice. *)
Definition appFile : IDockerParser :=
  dockerfile "openjdk:8" ["5005"; "8080"] [javaLaunch].

(** The same image with the application port 8000, the port at which the
    free-port finder starts a search by default *)
Definition basePortFile : IDockerParser :=
  dockerfile "openjdk:8" ["5005"; "8000"] [javaLaunch].

Definition basePortApp : World :=
  host basePortFile None running None None true [StdoutData forwarding].

Definition attachFails : World :=
  host appFile None running None None false
    [StdoutData forwarding; StdoutData forwarding].

(** The same image, pushed to the registry [localhost:5000] *)
Definition registry : World :=
  host appFile (Some "localhost:5000") running None None true
    [StdoutData forwarding].

Definition psListing : string :=
  "UID        PID  PPID  C STIME TTY          TIME CMD" +++ Js.newline +++
  "root         1     0  0 05:49 ?        00:00:00 node --inspect=9229 index.js"
  +++ Js.newline +++
  "root        17     0  0 06:44 pts/0    00:00:00 bash" +++ Js.newline +++
  "root        26    17  0 06:46 pts/0    00:00:00 ps -ef".

(** The host [w] with another cluster *)
Definition withCluster (w : World) (cluster : nat -> string -> ShellResult)
  : World :=
  {| kubectl := cluster;
     shellExec := shellExec w;
     shellExecCore := shellExecCore w;
     quickPick := quickPick w;
     inputBox := inputBox w;
     informationMessage := informationMessage w;
     existsSync := existsSync w;
     dateNow := dateNow w;
     getPortPromise := getPortPromise w;
     spawn := spawn w;
     newDockerfileParser := newDockerfileParser w;
     numberIsInteger := numberIsInteger w;
     debugStartDebugging := debugStartDebugging w;
     getKubeconfig := getKubeconfig w;
     jsonParse := jsonParse w;
     nodeDebuggerInstalled := nodeDebuggerInstalled w;
     getExtension := getExtension w;
     workspaceFolders := workspaceFolders w;
     imageUser := imageUser w;
     kubectlPath := kubectlPath w;
     execOptsEnv := execOptsEnv w;
     vscodeCliProgram := vscodeCliProgram w;
     pathJoin := pathJoin w;
     pathDirname := pathDirname w;
     pathBasename := pathBasename w;
     sanitiseTag := sanitiseTag w |}.

(** The host [w] with another reader of build files *)
Definition withParser (w : World)
    (parser : string -> IDockerParser + string) : World :=
  {| kubectl := kubectl w;
     shellExec := shellExec w;
     shellExecCore := shellExecCore w;
     quickPick := quickPick w;
     inputBox := inputBox w;
     informationMessage := informationMessage w;
     existsSync := existsSync w;
     dateNow := dateNow w;
     getPortPromise := getPortPromise w;
     spawn := spawn w;
     newDockerfileParser := parser;
     numberIsInteger := numberIsInteger w;
     debugStartDebugging := debugStartDebugging w;
     getKubeconfig := getKubeconfig w;
     jsonParse := jsonParse w;
     nodeDebuggerInstalled := nodeDebuggerInstalled w;
     getExtension := getExtension w;
     workspaceFolders := workspaceFolders w;
     imageUser := imageUser w;
     kubectlPath := kubectlPath w;
     execOptsEnv := execOptsEnv w;
     vscodeCliProgram := vscodeCliProgram w;
     pathJoin := pathJoin w;
     pathDirname := pathDirname w;
     pathBasename := pathBasename w;
     sanitiseTag := sanitiseTag w |}.

(** A workspace whose [Dockerfile] is a directory: it is there, and the
    construction of its parser fails on the reading. *)
Definition unreadable : World :=
  withParser debugOnly
    (fun _ => inr "Error: EISDIR: illegal operation on a directory, read").

(** A pod that is pending at the first query and running at the second *)
Definition pendingPod : World :=
  withCluster debugOnly
    (fun n cmd => if n <? 1 then ok "app-pod   0/1   Pending   0   1s"
                  else ok "app-pod   1/1   Running   0   2s").

(** A pod that crashed, with one line of logs *)
Definition crashedPod : World :=
  withCluster debugOnly
    (fun n cmd => if String.prefix "logs" cmd then ok "exit code 1"
                  else ok "app-pod   0/1   Error   0   3s").

(** A cluster that cannot delete *)
Definition noDelete : World :=
  withCluster debugOnly (fun n cmd => failure "not found").

(** A local cluster: its configuration names the certificate authority of
    an https server, and the docker client answers with its API version. *)
Definition minikube : World :=
  {| kubectl := kubectl debugOnly;
     shellExec := fun _ _ => ok ("1.35" +++ Js.newline);
     shellExecCore := shellExecCore debugOnly;
     quickPick := quickPick debugOnly;
     inputBox := inputBox debugOnly;
     informationMessage := informationMessage debugOnly;
     existsSync := fun _ path => negb (Js.includes "certs" path);
     dateNow := dateNow debugOnly;
     getPortPromise := getPortPromise debugOnly;
     spawn := spawn debugOnly;
     newDockerfileParser := newDockerfileParser debugOnly;
     numberIsInteger := numberIsInteger debugOnly;
     debugStartDebugging := debugStartDebugging debugOnly;
     getKubeconfig := fun _ =>
       Some {| currentContext := "minikube";
               contexts := [ {| contextName := "minikube";
                                contextCluster := "minikube" |} ];
               clusters :=
                 [ {| clusterName := "minikube";
                      server := "https://192.168.99.100:8443";
                      certificateAuthority :=
                        Some "/home/me/.minikube/ca.crt" |} ] |};
     jsonParse := jsonParse debugOnly;
     nodeDebuggerInstalled := nodeDebuggerInstalled debugOnly;
     getExtension := getExtension debugOnly;
     workspaceFolders := workspaceFolders debugOnly;
     imageUser := imageUser debugOnly;
     kubectlPath := kubectlPath debugOnly;
     execOptsEnv := execOptsEnv debugOnly;
     vscodeCliProgram := vscodeCliProgram debugOnly;
     pathJoin := pathJoin debugOnly;
     pathDirname := fun path =>
       Js.substring 0 (Js.lastIndexOf "/" path) path;
     pathBasename := pathBasename debugOnly;
     sanitiseTag := sanitiseTag debugOnly |}.

(** A pod whose process listing is the one quoted in the sources *)
Definition attachTarget : World :=
  host appFile None (fun _ => ok psListing) None None true [].

End Scenario.

(** The number of calls of the host debugger in a trace *)
Fixpoint attachCalls (t : list Event) : nat :=
  match t with
  | [] => 0
  | StartDebugging _ _ :: t' => S (attachCalls t')
  | _ :: t' => attachCalls t'
  end.

(** ** What a pattern matches

    [Matches ic r t c c']: the pattern [r] can consume exactly the text [t],
    turning the captures [c] into [c'].  The anchors are not constrained
    here; the relation is used to read off what a successful run of the
    matcher implies. *)
Inductive Matches (ic : bool)
  : RegExp.regex -> string -> RegExp.captures -> RegExp.captures -> Prop :=
| MEps c : Matches ic RegExp.Eps EmptyString c c
| MChr a b c :
    RegExp.charEq ic b a = true ->
    Matches ic (RegExp.Chr a) (String b EmptyString) c c
| MCls p b c :
    p b = true -> Matches ic (RegExp.Cls p) (String b EmptyString) c c
| MBol c : Matches ic RegExp.Bol EmptyString c c
| MEol c : Matches ic RegExp.Eol EmptyString c c
| MSeq r1 r2 t1 t2 c c1 c2 :
    Matches ic r1 t1 c c1 -> Matches ic r2 t2 c1 c2 ->
    Matches ic (RegExp.Seq r1 r2) (t1 +++ t2) c c2
| MAltL r1 r2 t c c1 :
    Matches ic r1 t c c1 -> Matches ic (RegExp.Alt r1 r2) t c c1
| MAltR r1 r2 t c c1 :
    Matches ic r2 t c c1 -> Matches ic (RegExp.Alt r1 r2) t c c1
| MStarO r c : Matches ic (RegExp.Star r) EmptyString c c
| MStarS r t1 t2 c c1 c2 :
    Matches ic r t1 (RegExp.clearCaptures (RegExp.groups r) c) c1 ->
    Matches ic (RegExp.Star r) t2 c1 c2 ->
    Matches ic (RegExp.Star r) (t1 +++ t2) c c2
| MGrp i r t c c1 :
    Matches ic r t c c1 ->
    Matches ic (RegExp.Grp i r) t c (RegExp.setCapture i (Some t) c1).

(** No data row of the process listing [out] that has as many columns as
    the header carries a command that the pattern [p] matches. *)
Definition unmatched (p : RegExp.pattern) (out : string) : Prop :=
  let ps := Js.split (ascii_of_nat 10) out in
  let totalCol :=
    length (RegExp.split RegExp.whitespaces (Js.trim (hd EmptyString ps))) in
  forall row, In row (tl ps) ->
    let cols := RegExp.split RegExp.whitespaces (Js.trim row) in
    totalCol <= length cols ->
    RegExp.exec p (commandOf totalCol cols) = None.

(** What the resolvers make of the answer to the prompt for the debug port *)
Definition typedPort (input : option string) : option string :=
  if Js.truthyStr input then Some (Js.trim (Js.show input)) else None.

(** The text [s] does not contain the character [c]. *)
Fixpoint without (c : ascii) (s : string) : bool :=
  match s with
  | EmptyString => true
  | String d s' => negb (Ascii.eqb d c) && without c s'
  end.

(** The image reference that [buildDockerImage] composes *)
Definition imageReference (dockerImageUser : option string)
    (name_ version : string) : string :=
  let image := name_ +++ ":" +++ version in
  if Js.truthyStr dockerImageUser
  then Js.show dockerImageUser +++ "/" +++ image else image.

(** A parser whose search answers with matches of the pattern that it is
    given, in some text of the build file *)
Definition genuine (parser : IDockerParser) : Prop :=
  forall p m,
    searchLaunchArgs parser p = Some m ->
    exists text, RegExp.exec p text = Some m.

(** In the host [w] the computation [m] returns, from every state, a value
    that satisfies [P]. *)
Definition returns {A : Type} (w : World) (m : M A) (P : A -> Prop) : Prop :=
  forall st, exists a st', run m w st = (Normal a, st') /\ P a.

(** The number of one-second sleeps in a trace *)
Fixpoint sleeps (t : list Event) : nat :=
  match t with
  | [] => 0
  | Sleep 1000 :: t' => S (sleeps t')
  | _ :: t' => sleeps t'
  end.

(** The events at which the handlers call the attach step: a line of the
    standard output that matches the readiness pattern while the flag
    [isStarted] is down *)
Definition triggers (s : DebugService.Session) (e : SessionEvent) : bool :=
  match e with
  | StdoutData data =>
      negb (DebugService.isStarted s)
      && RegExp.test DebugService.forwardingRegExp data
  | _ => false
  end.

(** A provider whose [startDebugging] calls the host debugger once *)
Definition attachesOnce (p : IDebugProvider) : Prop :=
  forall workspaceFolder sessionName port_ w st,
    attachCalls (trace (snd (run (startDebugging p workspaceFolder sessionName
                                    port_) w st)))
    = S (attachCalls (trace st)).

(** The events that settle the promise of [startDebug]: a line of the
    standard output that matches the readiness pattern, and the end of the
    port-forward subprocess *)
Definition wakes (e : SessionEvent) : bool :=
  match e with
  | StdoutData data => RegExp.test DebugService.forwardingRegExp data
  | Close _ => true
  | _ => false
  end.

(** What a call does in a host: for every state in which it starts, the
    outcome and the events added to the trace satisfy [Q]. *)
Definition yields {A : Type} (w : World) (m : M A)
    (Q : Outcome A -> list Event -> Prop) : Prop :=
  forall st, exists o st' new,
    run m w st = (o, st') /\ trace st' = trace st ++ new /\ Q o new.

(** Every event that a call adds to the trace satisfies [P] *)
Definition emitsOnly {A : Type} (w : World) (P : Event -> Prop) (m : M A)
  : Prop :=
  yields w m (fun _ new => Forall P new).

(** The events that are commands sent to the cluster *)
Definition clusterCommand (e : Event) : Prop :=
  match e with KubectlInvoke _ => True | _ => False end.

(** ** The attach entry of the debug service *)

Module DebugServiceAttach.
Import DebugService.

(** What the attach entry reads in the answers of the cluster: of a pod
    [metadata.name], [spec.nodeName] and [spec.containers], and of a
    container [name] and [image].  Absent members are [None]; the metadata
    of a pod, when it is there, holds a name. *)
Record Container : Type := {
  containerName : option string;
  containerImage : option string
}.

Record PodSpec : Type := {
  nodeName : option string;
  containers : option (list Container)
}.

Record Pod : Type := {
  podMetadata : option string;
  podSpec : option PodSpec
}.

Record Pods : Type := {
  podItems : option (list Pod)
}.

(** An entry of the quick pick of pods *)
Record PodPickItem : Type := {
  podLabel : string;
  podDescription : string;
  podName_ : string;
  podContainers : option (list Container)
}.

(** An entry of the quick pick of containers *)
Record ContainerPickItem : Type := {
  containerLabel : string;
  containerDescription : string;
  containerName_ : option string
}.

(** [a.map(f)] for a callback that may throw *)
Fixpoint mapOutcome {A B} (f : A -> Outcome B) (l : list A)
  : Outcome (list B) :=
  match l with
  | [] => Normal []
  | a :: l' =>
      obind (f a) (fun b => obind (mapOutcome f l') (fun bs => Normal (b :: bs)))
  end.

Definition podPickItem (pod : Pod) : Outcome PodPickItem :=
  obind (member (podMetadata pod) "name") (fun name_ =>
  obind (member (podSpec pod) "nodeName") (fun spec_ =>
    Normal {| podLabel := name_ +++ " (" +++ Js.show (nodeName spec_) +++ ")";
              podDescription := "pod";
              podName_ := name_;
              podContainers := containers spec_ |})).

Definition containerPickItem (container : Container) : ContainerPickItem :=
  {| containerLabel := Js.show (containerName container) +++ " ("
                       +++ Js.show (containerImage container) +++ ")";
     containerDescription := "container";
     containerName_ := containerName container |}.

Section Attach.
(** [JSON.parse] on the answer to [get pod/... -o json] and on the answer
    to [get pods -o json]; [inr] is the error that it throws. *)
Variable parsePod : string -> Pod + string.
Variable parsePods : string -> Pods + string.

Definition parsed {A} (r : A + string) : Outcome A :=
  match r with
  | inl a => Normal a
  | inr ex => Thrown ex
  end.

(** The block that selects the target pod: [None] where the source
    returns, the pod and its containers otherwise *)
Definition selectPod (pod : option string)
  : M (option (string * option (list Container))) :=
  if Js.truthyStr pod then
    shellResult <- kubectl_invokeAsync
                     ("get pod/" +++ Js.show pod +++ " -o json") ;;
    if negb (code shellResult =? 0)%Z then
      showErrorMessage (stderr shellResult) ;;;
      ret None
    else
      podObj <- lift (parsed (parsePod (Js.trim (stdout shellResult)))) ;;
      spec_ <- lift (member (podSpec podObj) "containers") ;;
      ret (Some (Js.show pod, containers spec_))
  else
    shellResult <- kubectl_invokeAsync "get pods -o json" ;;
    if negb (code shellResult =? 0)%Z then
      showErrorMessage (stderr shellResult) ;;;
      ret None
    else
      podObj <- lift (parsed (parsePods (Js.trim (stdout shellResult)))) ;;
      items_ <- lift (member (podItems podObj) "map") ;;
      podPickItems <- lift (mapOutcome podPickItem items_) ;;
      picked <- showQuickPick (map podLabel podPickItems)
                  "Please select a pod to attach" ;;
      match picked with
      | None => ret None
      | Some i =>
          match nth_error podPickItems i with
          | None => ret None
          | Some selectedPod =>
              ret (Some (podName_ selectedPod, podContainers selectedPod))
          end
      end.

(** The block that selects the target container: [None] where the source
    returns, the name of the container, left [undefined] when nothing is
    asked, otherwise *)
Definition selectContainer (containers_ : option (list Container))
  : M (option (option string)) :=
  containers_ <- lift (member containers_ "length") ;;
  if 1 <? length containers_ then
    let containerPickItems := map containerPickItem containers_ in
    picked <- showQuickPick (map containerLabel containerPickItems)
                "Please select a container to attach" ;;
    match picked with
    | None => ret None
    | Some i =>
        match nth_error containerPickItems i with
        | None => ret None
        | Some selectedContainer => ret (Some (containerName_ selectedContainer))
        end
    end
  else ret (Some None).

(** The task handed to [withProgress] by [attachDebug] *)
Definition attachFlow (debugProvider : IDebugProvider) (cwd : string)
    (targetPod : string) (portInfo : PortInfo) : M unit :=
  tryCatch
    ((* Setup port-forward. *)
     report "Creating port-forwarding..." ;;;
     proxyResult <- createPortForward targetPod (Js.show (debug portInfo))
                      None ;;
     (* Start debug session. *)
     report ("Starting " +++ getDebuggerType debugProvider
             +++ " debug session...") ;;;
     startDebug debugProvider None cwd
       (getDebuggerType debugProvider)
       (proxyDebugPort proxyResult)
       (proxyAppPort proxyResult)
       (proxyProcess proxyResult) ;;;
     ret tt)
    (fun error => (* do nothing. *) ret tt).

(** [attachDebug] from the selection of the target pod on *)
Definition attachTarget (debugProvider : IDebugProvider) (cwd : string)
    (pod : option string) : M unit :=
  (* Select the target pod to attach. *)
  target <- selectPod pod ;;
  match target with
  | None => ret tt
  | Some (targetPod, containers_) =>
      (* Select the target container to attach. *)
      targetContainer <- selectContainer containers_ ;;
      match targetContainer with
      | None => ret tt
      | Some targetContainer =>
          (* Find the debug port to attach. *)
          portInfo <- resolvePortsFromPod (getDockerResolver debugProvider)
                        targetPod targetContainer ;;
          if negb (Js.truthyStr (debug portInfo)) then ret tt
          else
            withProgress (attachFlow debugProvider cwd targetPod portInfo)
      end
  end.

Definition attachDebug (workspaceFolder : option WorkspaceFolder)
    (pod : option string) : M unit :=
  match workspaceFolder with
  | None => ret tt
  | Some folder =>
      (* Select the image type to attach. *)
      debugProvider <- ProviderRegistry.getDebugProvider None ;;
      match debugProvider with
      | None => ret tt
      | Some debugProvider =>
          installed <- isDebuggerInstalled debugProvider ;;
          if negb installed then ret tt
          else attachTarget debugProvider (fsPath folder) pod
      end
  end.
End Attach.

End DebugServiceAttach.

(** The events of a call that leaves the workloads of the cluster and the
    images alone: it sends no other command to the cluster than [get pod]
    and [exec], and it runs no command in a working directory, as the build
    and the push of an image are. *)
Definition looksOnly (e : Event) : Prop :=
  match e with
  | KubectlInvoke cmd =>
      String.prefix "get pod" cmd = true \/ String.prefix "exec " cmd = true
  | ShellExecCore _ _ _ => False
  | _ => True
  end.

(** The [try] block of the launch flow until the name of the deployment
    is known *)
Definition deployStep (cwd : string) (dockerImageUser : option string)
    (portInfo : PortInfo) (containerEnv : Env) : M string :=
  (* Build docker image. *)
  DebugService.report "Building docker image..." ;;;
  image <- DebugService.buildDockerImage cwd dockerImageUser ;;
  (* Run docker image in k8s container. *)
  DebugService.report "Running docker image on k8s..." ;;;
  DebugService.runDockerImageInK8s image [app portInfo; debug portInfo]
    containerEnv.

(** The [try] block of the launch flow from there on *)
Definition sessionStep (polls : nat) (debugProvider : IDebugProvider)
    (cwd : string) (portInfo : PortInfo) (appName : string) : M unit :=
  (* Find the running debug pod. *)
  DebugService.report "Finding the debug pod..." ;;;
  podList <- DebugService.findPods ("run=" +++ appName) ;;
  items_ <- lift (member (items podList) "length") ;;
  (if length items_ =? 0 then
     showErrorMessage "Failed to find debug pod." ;;;
     throw "Failed to find debug pod."
   else ret tt) ;;;
  metadata <- lift (member (nth_error items_ 0) "metadata") ;;
  metadata <- lift (member metadata "name") ;;
  let podName := Js.show metadata in
  showOutput ("Debug pod running as: " +++ podName) (Some "Run debug pod") ;;;
  (* Wait for the debug pod status to be running. *)
  DebugService.report "Waiting for the pod to be ready..." ;;;
  DebugService.waitForRunningPod polls podName ;;;
  (* Setup port-forward. *)
  DebugService.report "Creating port-forwarding..." ;;;
  proxyResult <- DebugService.createPortForward podName
                   (Js.show (debug portInfo)) (app portInfo) ;;
  (* Start debug session. *)
  DebugService.report ("Starting " +++ getDebuggerType debugProvider
                       +++ " debug session...") ;;;
  DebugService.startDebug debugProvider (Some appName) cwd
    (getDebuggerType debugProvider)
    (DebugService.proxyDebugPort proxyResult)
    (DebugService.proxyAppPort proxyResult)
    (DebugService.proxyProcess proxyResult) ;;;
  ret tt.

(** The providers of the registry *)
Definition registered (p : IDebugProvider) : Prop :=
  p = JavaDebugProvider.provider \/ p = NodeDebugProvider.provider.

(** The events that delete nothing in the cluster *)
Definition deletesNothing (e : Event) : Prop :=
  match e with
  | KubectlInvoke cmd => String.prefix "delete" cmd = false
  | _ => True
  end.

(** The events that delete nothing in the cluster but the deployment
    [name] *)
Definition deletesOnly (name : string) (e : Event) : Prop :=
  match e with
  | KubectlInvoke cmd =>
      String.prefix "delete" cmd = true -> cmd = "delete deployment/" +++ name
  | _ => True
  end.

(** The events that neither reach the cluster nor run anything in the
    working directory, and that start neither a subprocess nor the host
    debugger *)
Definition harmless (e : Event) : Prop :=
  match e with
  | KubectlInvoke _ | ShellExecCore _ _ _ | Spawn _ _ | StartDebugging _ _ =>
      False
  | _ => True
  end.

(** A sequence of events that is harmless until the build of the image is
    announced, if it is announced at all *)
Definition harmlessUntilBuild (new : list Event) : Prop :=
  exists before rest,
    new = before ++ rest
    /\ Forall harmless before
    /\ (rest = []
        \/ exists rest', rest = ProgressReport "Building docker image..." :: rest').

(** The number of times the port-forward subprocess is killed in a trace *)
Fixpoint kills (t : list Event) : nat :=
  match t with
  | [] => 0
  | Kill :: t' => S (kills t')
  | _ :: t' => kills t'
  end.

(** The events by which the host debugger tells that a session is over *)
Definition terminates (e : SessionEvent) : bool :=
  match e with
  | DidTerminateDebugSession _ => true
  | _ => false
  end.

(** The listeners of a session are only registered once it is started. *)
Definition listening (s : DebugService.Session) : Prop :=
  DebugService.listeners s <> None -> DebugService.isStarted s = true.

(** How many times the subprocess of a session can still be killed *)
Definition killable (s : DebugService.Session) : nat :=
  match DebugService.listeners s with
  | Some _ => 1
  | None => if DebugService.isStarted s then 0 else 1
  end.

(** ** The explorer of the cluster

    The tree of the explorer view: clusters, under a cluster the nodes, the
    workloads and the services, under the workloads the deployments, the
    jobs and the pods, and under a kind the resources of that kind. *)

Module Explorer.

(** What the explorer reads of a resource kind of [kuberesources] *)
Record ResourceKind : Type := {
  pluralDisplayName : string;
  abbreviation : string
}.

(** The [metadata] that [getClusters] attaches to a cluster *)
Record ClusterMetadata : Type := {
  context : string;
  active : bool
}.

(** What the explorer reads in the value that [JSON.parse] makes of the
    answer to [config view -o json]: the name of the current context and
    the contexts, each with its name and the cluster of its member
    [context].  A member that is not there is [None]: the contexts of a
    configuration that has none are [null] in the answer of some versions
    of the cluster CLI, and an entry need not hold a [context]. *)
Record NamedContext : Type := {
  entryName : string;
  entryCluster : option string
}.

Record ConfigJson : Type := {
  configCurrentContext : string;
  configContexts : option (list NamedContext)
}.

(** An entry that holds a [context] *)
Definition hasContext (c : NamedContext) : bool :=
  match entryCluster c with Some _ => true | None => false end.

(** The objects of the tree: the three classes, and the plain object with
    an [id] that stands for an error.  A [KubernetesResource] does not keep
    the kind that it was made of, it keeps the [resourceId]. *)
Inductive KubernetesObject : Type :=
| VirtualKubernetesResource (id kind : string) (metadata : option ClusterMetadata)
| KubernetesKind (kind : ResourceKind)
| KubernetesResource (resourceId id : string)
| Plain (id : string).

(** [new KubernetesResource(kind, id)] *)
Definition newKubernetesResource (kind : ResourceKind) (id : string)
  : KubernetesObject :=
  KubernetesResource (abbreviation kind +++ "/" +++ id) id.

(** The property [resourceId] of an object, [undefined] where the class has
    none; of a virtual resource it is [kind + "/" + id]. *)
Definition resourceIdOf (obj : KubernetesObject) : option string :=
  match obj with
  | VirtualKubernetesResource id kind _ => Some (kind +++ "/" +++ id)
  | KubernetesResource resourceId _ => Some resourceId
  | _ => None
  end.

(** The property [id]; of a kind it is the abbreviation. *)
Definition idOf (obj : KubernetesObject) : string :=
  match obj with
  | VirtualKubernetesResource id _ _ => id
  | KubernetesKind kind => abbreviation kind
  | KubernetesResource _ id => id
  | Plain id => id
  end.

Inductive TreeItemCollapsibleState : Type :=
| StateNone
| Collapsed
| Expanded.

Record Command : Type := {
  command : string;
  title : string;
  arguments : list KubernetesObject
}.

(** A tree item; [contextValue] is [None] while it is [undefined] or
    [null]. *)
Record TreeItem : Type := {
  label : string;
  collapsibleState : TreeItemCollapsibleState;
  iconPath : string;
  itemCommand : option Command;
  contextValue : option string
}.

(** [!!obj.kind]: a kind holds an object, a virtual resource a text *)
Definition isKind (obj : KubernetesObject) : bool :=
  match obj with
  | KubernetesKind _ => true
  | VirtualKubernetesResource _ kind _ => Js.truthyStr (Some kind)
  | _ => false
  end.

(** [!!obj.resourceId] *)
Definition isResource (obj : KubernetesObject) : bool :=
  Js.truthyStr (resourceIdOf obj).

(** [bits[0]] of the line split at the spaces; the array of a split is
    never empty *)
Definition parse (kind : ResourceKind) (kubeLine : string) : KubernetesObject :=
  let bits := Js.split " " kubeLine in
  newKubernetesResource kind (hd EmptyString bits).

Section Explorer.
(** The five kinds of [kuberesources.allKinds] that the tree shows, the Uri
    of the picture [kubernetes.svg] and the answers of [kubectl.asLines]:
    the lines, or the result of the command when it failed.  [JSON.parse] on
    the answer to [config view -o json] is [parseConfig]: the value, or what
    it throws on an answer that it rejects. *)
Variables node service deployment job pod : ResourceKind.
Variable kubernetesSvg : string.
Variable asLines : nat -> string -> list string + ShellResult.
Variable parseConfig : string -> ConfigJson + string.

(** The methods of [VirtualKubernetesResource] *)
Definition virtualGetChildren (kind : string) : list KubernetesObject :=
  if String.eqb kind "cluster" then
    [ KubernetesKind node;
      VirtualKubernetesResource "Workloads" "workload" None;
      KubernetesKind service ]
  else if String.eqb kind "workload" then
    [ KubernetesKind deployment;
      KubernetesKind job;
      KubernetesKind pod ]
  else [].

Definition virtualGetTreeItem (id kind : string)
    (metadata : option ClusterMetadata) : Outcome TreeItem :=
  let treeItem :=
    {| label := id; collapsibleState := Collapsed; iconPath := kubernetesSvg;
       itemCommand := None; contextValue := None |} in
  if String.eqb kind "cluster" then
    obind (member metadata "active") (fun metadata =>
      if negb (active metadata) then
        Normal {| label := id; collapsibleState := StateNone;
                  iconPath := kubernetesSvg; itemCommand := None;
                  contextValue := Some "vsKubernetes.resource.cluster" |}
      else Normal treeItem)
  else Normal treeItem.

(** [KubernetesExplorer.getTreeItem] *)
Definition getTreeItem (element : KubernetesObject) : Outcome TreeItem :=
  match element with
  | VirtualKubernetesResource id kind metadata =>
      virtualGetTreeItem id kind metadata
  | _ =>
      let collapsibleState_ := if isKind element then Collapsed else StateNone in
      (* [isKind(element) ? element.kind.pluralDisplayName : element.id] *)
      let label_ :=
        match element with
        | KubernetesKind kind => pluralDisplayName kind
        | _ => idOf element
        end in
      if isResource element then
        let resourceId := Js.show (resourceIdOf element) in
        Normal {| label := label_; collapsibleState := collapsibleState_;
                  iconPath := kubernetesSvg;
                  itemCommand :=
                    Some {| command := "extension.vsKubernetesLoad";
                            title := "Load";
                            arguments := [ element ] |};
                  contextValue :=
                    Some (if String.prefix "pod" resourceId
                          then "vsKubernetes.resource.pod"
                          else if String.prefix "service" resourceId
                          then "vsKubernetes.resource.service"
                          else "vsKubernetes.resource") |}
      else
        Normal {| label := label_; collapsibleState := collapsibleState_;
                  iconPath := kubernetesSvg; itemCommand := None;
                  contextValue := None |}
  end.

(** The callback of [contexts.map] *)
Definition clusterOf (currentContext_ : string) (c : NamedContext)
  : Outcome KubernetesObject :=
  obind (member (entryCluster c) "cluster") (fun cluster_ =>
    Normal (VirtualKubernetesResource cluster_ "cluster"
              (Some {| context := entryName c;
                       active := String.eqb (entryName c) currentContext_ |}))).

(** The branch of the callback of [kubectl.invoke] for a command that
    succeeded, up to the argument of [resolve] *)
Definition clustersOf (stdout_ : string) : Outcome (list KubernetesObject) :=
  obind (constructed (parseConfig stdout_)) (fun configJson =>
    let currentContext_ := configCurrentContext configJson in
    obind (member (configContexts configJson) "map") (fun contexts_ =>
      DebugServiceAttach.mapOutcome (clusterOf currentContext_) contexts_)).

(** The promise is settled by [resolve] in the callback of the command.
    What the callback throws before it gets there is thrown to the caller
    of the callback, not to the promise, which is then never settled. *)
Definition getClusters : M (list KubernetesObject) :=
  result <- kubectl_invokeAsync "config view -o json" ;;
  if negb (code result =? 0)%Z then ret []
  else
    match clustersOf (stdout result) with
    | Normal clusters_ => ret clusters_
    | _ => pending
    end.

(** [KubernetesExplorer.getChildren], together with the function
    [getChildren] of the module, which it calls for the objects that are not
    virtual resources: of those only a [KubernetesKind] has a [kind]. *)
Definition getChildren (parent : option KubernetesObject)
  : M (list KubernetesObject) :=
  match parent with
  | Some (VirtualKubernetesResource _ kind _) => ret (virtualGetChildren kind)
  | Some (KubernetesKind kind) =>
      childrenLines <- ask (KubectlInvoke ("get " +++ abbreviation kind))
                         (fun _ n => asLines n ("get " +++ abbreviation kind)) ;;
      match childrenLines with
      | inr shellResult =>
          showErrorMessage (stderr shellResult) ;;;
          ret [ Plain "Error" ]
      | inl lines => ret (map (fun l => parse kind l) lines)
      end
  | Some _ => ret []
  | None => getClusters
  end.
End Explorer.

(** The clusters that are marked active *)
Definition isActive (obj : KubernetesObject) : bool :=
  match obj with
  | VirtualKubernetesResource _ _ (Some metadata) => active metadata
  | _ => false
  end.

(** How far below an object the tree can go *)
Definition depth (obj : KubernetesObject) : nat :=
  match obj with
  | VirtualKubernetesResource _ kind _ =>
      if String.eqb kind "cluster" then 3
      else if String.eqb kind "workload" then 2 else 0
  | KubernetesKind _ => 1
  | _ => 0
  end.

End Explorer.

(** Kinds, lines and a configuration for the examples on the explorer *)
Module ExplorerScenario.

Definition kindOf (plural abbr : string) : Explorer.ResourceKind :=
  {| Explorer.pluralDisplayName := plural; Explorer.abbreviation := abbr |}.

Definition nodes : Explorer.ResourceKind := kindOf "Nodes" "node".
Definition services : Explorer.ResourceKind := kindOf "Services" "service".
Definition deployments : Explorer.ResourceKind :=
  kindOf "Deployments" "deployment".
Definition jobs : Explorer.ResourceKind := kindOf "Jobs" "job".
Definition pods : Explorer.ResourceKind := kindOf "Pods" "pod".

(** Two pods, whatever is asked for *)
Definition twoPods (n : nat) (cmd : string) : list string + ShellResult :=
  inl [ "web-1   1/1   Running   0   2d"; "web-2   0/1   Pending   0   1m" ].

(** A cluster that does not answer *)
Definition unreachable (n : nat) (cmd : string) : list string + ShellResult :=
  inr (Scenario.failure "connection refused").

(** Two contexts, the second of which is the current one *)
Definition twoContexts (out : string) : Explorer.ConfigJson + string :=
  inl {| Explorer.configCurrentContext := "staging";
         Explorer.configContexts :=
           Some [ {| Explorer.entryName := "minikube";
                     Explorer.entryCluster := Some "local" |};
                  {| Explorer.entryName := "staging";
                     Explorer.entryCluster := Some "cloud" |} ] |}.

(** A configuration without contexts, as the cluster CLI prints it:
    [contexts] is [null] *)
Definition noContexts (out : string) : Explorer.ConfigJson + string :=
  inl {| Explorer.configCurrentContext := EmptyString;
         Explorer.configContexts := None |}.

(** An answer that is not JSON *)
Definition notJson (out : string) : Explorer.ConfigJson + string :=
  inr "SyntaxError: Unexpected end of JSON input".

Definition getChildren :=
  Explorer.getChildren nodes services deployments jobs pods.

End ExplorerScenario.

(** The events that show no error message *)
Definition showsNoError (e : Event) : Prop :=
  match e with
  | ShowErrorMessage _ => False
  | _ => True
  end.

(** * Properties *)


Import DebugService.

(** ** Facts on strings *)

Lemma append_assoc (a b c : string) : (a +++ b) +++ c = a +++ (b +++ c).
Proof. induction a as [|x a IH]; cbn; [reflexivity | now rewrite IH]. Qed.

Lemma append_empty_r (a : string) : a +++ EmptyString = a.
Proof. induction a as [|x a IH]; cbn; [reflexivity | now rewrite IH]. Qed.

Lemma length_append (a b : string) :
  String.length (a +++ b) = String.length a + String.length b.
Proof. induction a as [|x a IH]; cbn; [reflexivity | now rewrite IH]. Qed.

Section Monad.
Context {A B : Type}.

Lemma run_bind (m : M A) (f : A -> M B) w st :
    run (bind m f) w st =
    match run m w st with
    | (Normal a, st') => run (f a) w st'
    | (Thrown e, st') => (Thrown e, st')
    | (Pending, st') => (Pending, st')
    end.
Proof. reflexivity. Qed.

Lemma run_ret (a : A) w st : run (ret a) w st = (Normal a, st).
Proof. reflexivity. Qed.
End Monad.

(** ** Port validation in launch mode *)

(** C1, as amended.  In launch mode both ports are required.  When port
    resolution returns a [PortInfo] whose debug port is unset, the
    orchestrator shows "Cannot resolve debug port from Dockerfile." and
    returns; when the debug port is set and the application port is unset,
    it shows "Cannot resolve application port from Dockerfile." and
    returns.  In both cases the progress task that builds and deploys is
    not started. *)
Theorem launch_requires_app_port :
  forall polls debugProvider cwd dockerImageUser portInfo containerEnv w st,
    (Js.truthyStr (debug portInfo) = false ->
     run (launchResolved polls debugProvider cwd dockerImageUser portInfo
            containerEnv) w st
     = (Normal tt,
        {| tick := tick st;
           trace := trace st ++
             [ShowErrorMessage "Cannot resolve debug port from Dockerfile."] |}))
    /\ (Js.truthyStr (debug portInfo) = true ->
        Js.truthyStr (app portInfo) = false ->
        run (launchResolved polls debugProvider cwd dockerImageUser portInfo
               containerEnv) w st
        = (Normal tt,
           {| tick := tick st;
              trace := trace st ++
                [ShowErrorMessage
                   "Cannot resolve application port from Dockerfile."] |})).
Proof.
  intros polls p cwd user pinfo env w st. split.
  - intros Hd. unfold launchResolved, run. rewrite Hd. reflexivity.
  - intros Hd Ha. unfold launchResolved, run.
    rewrite Hd. cbn [negb].
    unfold bind, isIntegerString, read.
    rewrite Ha. reflexivity.
Qed.

Lemma launch_requires_app_port_witness :
  Js.truthyStr (Some "5005") = true
  /\ Js.truthyStr None = false
  /\ run (launchResolved 5 JavaDebugProvider.provider "/work/app" None
            {| debug := Some "5005"; app := None |} [])
        Scenario.debugOnly initial
     = (Normal tt,
        {| tick := 0;
           trace := [ShowErrorMessage
                       "Cannot resolve application port from Dockerfile."] |})
  /\ run (launchResolved 5 JavaDebugProvider.provider "/work/app" None
            {| debug := None; app := None |} [])
        Scenario.debugOnly initial
     = (Normal tt,
        {| tick := 0;
           trace := [ShowErrorMessage
                       "Cannot resolve debug port from Dockerfile."] |}).
Proof.
  split; [reflexivity | split; [reflexivity | split]].
  - apply (proj2 (launch_requires_app_port 5 JavaDebugProvider.provider
                    "/work/app" None {| debug := Some "5005"; app := None |}
                    [] Scenario.debugOnly initial)); reflexivity.
  - apply (proj1 (launch_requires_app_port 5 JavaDebugProvider.provider
                    "/work/app" None {| debug := None; app := None |}
                    [] Scenario.debugOnly initial)); reflexivity.
Defined.

(** C1, as it was stated, fails on a java image that exposes only its debug
    port: resolution returns the debug port 5005 and no application port,
    and the launch ends at the validation with an error message, before
    anything is built or deployed. *)
Lemma launch_without_app_port_aborts :
  run (resolvePortsFromFile JavaDockerResolver.resolver
         Scenario.debugOnlyFile []) Scenario.debugOnly initial
  = (Normal ({| debug := Some "5005"; app := None |}, []), initial)
  /\ run (launchDebug 5 (Some Scenario.folder)) Scenario.debugOnly initial
     = (Normal tt,
        {| tick := 1;
           trace := [ShowErrorMessage
                       "Cannot resolve application port from Dockerfile."] |}).
Proof. split; vm_compute; reflexivity. Qed.

(** When both ports are set and the application port is an integral number,
    the progress task is started. *)
Lemma launch_starts_flow :
  forall polls debugProvider cwd dockerImageUser portInfo containerEnv w st,
    Js.truthyStr (debug portInfo) = true ->
    Js.truthyStr (app portInfo) = true ->
    numberIsInteger w (Js.show (app portInfo)) = true ->
    run (launchResolved polls debugProvider cwd dockerImageUser portInfo
           containerEnv) w st
    = run (withProgress (launchFlow polls debugProvider cwd dockerImageUser
                           portInfo containerEnv)) w st.
Proof.
  intros polls p cwd user pinfo env w st Hd Ha Hi.
  unfold launchResolved, run.
  rewrite Hd. cbn [negb].
  unfold bind at 1. unfold isIntegerString, read.
  rewrite Ha, Hi. reflexivity.
Qed.

(** ** The application port chosen among several candidates *)

(** C3 at its own input.  With the exposed ports 5858, 3000 and 4000 and the
    debug port 5858 the node resolver prompts with 3000 and 4000; the user
    selects 3000, and the returned [PortInfo] has no application port. *)
Theorem node_selected_port_is_dropped :
  run (NodeDockerResolver.resolvePortsFromFile Scenario.twoCandidatesFile [])
    Scenario.twoCandidates initial
  = (Normal ({| debug := Some "5858"; app := None |}, []),
     {| tick := 1;
        trace := [ShowQuickPick ["3000"; "4000"]
                    "Please select the app port exposed at Dockerfile"] |}).
Proof. vm_compute. reflexivity. Qed.

(** The same for every parser and every host: whichever of the two
    candidates the user selects, and also when the prompt is dismissed, no
    application port is returned. *)
Lemma node_selection_without_placeholder :
  forall dockerParser env w st m,
    getExposedPorts dockerParser = ["5858"; "3000"; "4000"] ->
    searchLaunchArgs dockerParser NodeDockerResolver.nodeDebugOptsRegExp = Some m ->
    NodeDockerResolver.debugPortOf (RegExp.group m 2) (RegExp.group m 3)
    = Some "5858" ->
    fst (run (NodeDockerResolver.resolvePortsFromFile dockerParser env) w st)
    = Normal ({| debug := Some "5858"; app := None |}, env).
Proof.
  intros dp env w st m He Hs Hd.
  unfold NodeDockerResolver.resolvePortsFromFile, run.
  rewrite Hs, Hd, He. cbn -[RegExp.exec placeholderRegExp].
  unfold bind, showQuickPick, ask.
  destruct (quickPick w (tick st) ["3000"; "4000"]) as [[|[|i]]|];
    vm_compute; reflexivity.
Qed.

(** ** The process listing command *)

(** C4 at a concrete pod and container.  With the container [web] selected
    in the pod [mypod], both resolvers hand the text [${selectedContainer}]
    to the cluster CLI after [-c], not the name of the container. *)
Theorem exec_command_ignores_container_name :
  NodeDockerResolver.execCmd "mypod" (Some "web")
  = "exec mypod -c ${selectedContainer} -- ps -ef"
  /\ JavaDockerResolver.execCmd "mypod" (Some "web")
     = "exec mypod -c ${selectedContainer} -- ps -ef"
  /\ hd_error (trace (snd (run (NodeDockerResolver.resolvePortsFromPod "mypod"
                                  (Some "web")) Scenario.attachTarget initial)))
     = Some (KubectlInvoke "exec mypod -c ${selectedContainer} -- ps -ef")
  /\ hd_error (trace (snd (run (JavaDockerResolver.resolvePortsFromPod "mypod"
                                  (Some "web")) Scenario.attachTarget initial)))
     = Some (KubectlInvoke "exec mypod -c ${selectedContainer} -- ps -ef").
Proof. repeat split; vm_compute; reflexivity. Qed.

(** Whatever container is selected, the command is the same. *)
Lemma exec_command_of_any_container :
  forall pod container,
    Js.truthyStr container = true ->
    NodeDockerResolver.execCmd pod container
    = "exec " +++ pod +++ " -c ${selectedContainer} -- ps -ef"
    /\ JavaDockerResolver.execCmd pod container
       = "exec " +++ pod +++ " -c ${selectedContainer} -- ps -ef".
Proof.
  intros pod container H.
  unfold NodeDockerResolver.execCmd, JavaDockerResolver.execCmd.
  rewrite H. split; reflexivity.
Qed.

(** ** The result of the attach step *)

(** C2 at a concrete session.  The host debugger reports that it could not
    attach ([startDebugging] resolves to [false]); after the readiness line
    the promise of [startDebug] is nevertheless resolved, the port-forward
    subprocess is not killed and the listeners stay registered. *)
Theorem attach_failure_goes_unnoticed :
  fst (run (startDebugging JavaDebugProvider.provider "/work/app"
              "app-debug-1" (PortNumber 8001)) Scenario.attachFails initial)
  = Normal false
  /\ fst (run (startDebug JavaDebugProvider.provider (Some "app-debug-1")
                 "/work/app" "java" (PortNumber 8001) (PortNumber 8000)
                 [StdoutData Scenario.forwarding])
            Scenario.attachFails initial)
     = Normal ({| isStarted := true; settled := Some true;
                  listeners := Some "app-debug-1" |}, [])
  /\ ~ In Kill
       (trace (snd (run (startDebug JavaDebugProvider.provider
                           (Some "app-debug-1") "/work/app" "java"
                           (PortNumber 8001) (PortNumber 8000)
                           [StdoutData Scenario.forwarding])
                      Scenario.attachFails initial))).
Proof.
  split; [vm_compute; reflexivity |].
  split; [vm_compute; reflexivity |].
  vm_compute. intros [H | [H | [H | []]]]; discriminate H.
Qed.

(** For every provider, host and event, the handler of the standard output
    never rejects the promise: the value that it tests is the promise
    returned by [startDebugging], which is truthy whatever it settles to. *)
Lemma stdout_handler_never_rejects :
  forall debugProvider appName workspaceFolder proxyDebugPort_ s data w st,
    settled s <> Some false ->
    exists s' st',
      run (onStdoutData debugProvider appName workspaceFolder proxyDebugPort_
             s data) w st = (Normal s', st')
      /\ settled s' <> Some false.
Proof.
  intros p appName ws dp s data w st Hs.
  unfold onStdoutData, run.
  destruct (negb (isStarted s) && RegExp.test forwardingRegExp data).
  - unfold bind.
    destruct (Js.truthyStr appName); unfold ret, emit, callAsync, query;
      match goal with
      | |- context [startDebugging ?a ?b ?c ?d ?e ?f] =>
          destruct (startDebugging a b c d e f) as [o st']
      end;
      cbn; eexists _, _; (split; [reflexivity |]);
      cbn; destruct (settled s) as [[|]|]; congruence.
  - cbn. eexists _, _. split; [reflexivity | exact Hs].
Qed.

(** ** The local ports of the port-forward *)

(** Two numbers with the same decimal rendering are the same *)
Lemma numberToString_inj x y :
  Js.numberToString x = Js.numberToString y -> x = y.
Proof.
  unfold Js.numberToString. intros H.
  assert (Hn : forall z, Z.to_int z <> Decimal.Pos Decimal.Nil
                         /\ Z.to_int z <> Decimal.Neg Decimal.Nil).
  { intros [|p|p]; cbn; split; try discriminate; intros E; injection E as E;
      now apply Unsigned.to_uint_nonnil in E. }
  apply (f_equal NilZero.int_of_string) in H.
  rewrite !NilZero.isi in H by apply Hn.
  injection H as H. apply (f_equal Z.of_int) in H.
  now rewrite !DecimalZ.of_to in H.
Qed.

(** Where the free-port finder answers with numbers, and answers a request
    that starts at a number with a port that is not smaller, the local
    debug port returned by [createPortForward] differs from the local
    application port: the test of the two ports sees a clash, and the
    second search starts above the application port. *)
Lemma createPortForward_numbers_differ :
  forall podName debugPort appPort w st r st',
    (forall n req p, getPortPromise w n req = Some p ->
                     exists z, p = PortNumber z) ->
    (forall n k z,
        getPortPromise w n (FromNumber k) = Some (PortNumber z) ->
        (k <= z)%Z) ->
    Js.truthyStr appPort = true ->
    run (createPortForward podName debugPort appPort) w st = (Normal r, st') ->
    portToString (proxyDebugPort r) <> portToString (proxyAppPort r).
Proof.
  intros podName debugPort appPort w st r st' Hnum Hfinder Happ.
  pose proof numberToString_inj as Hinj.
  unfold createPortForward, run. rewrite Happ.
  cbn -[portToString String.append Z.add].
  destruct (getPortPromise w (tick st) (FromString (Js.show appPort)))
    as [a|] eqn:Ha; cbn -[portToString String.append Z.add];
    [| intros H; discriminate H].
  destruct (Hnum _ _ _ Ha) as [za ->].
  destruct (getPortPromise w (S (tick st)) FromBase) as [d|] eqn:Hd;
    cbn -[portToString String.append Z.add];
    [| intros H; discriminate H].
  destruct (Hnum _ _ _ Hd) as [zd ->]. cbn [portEquals].
  destruct (zd =? za)%Z eqn:Heq; cbn -[portToString String.append Z.add].
  - destruct (getPortPromise w (S (S (tick st))) (FromNumber (za + 1)))
      as [d'|] eqn:Hd'; cbn -[portToString String.append Z.add];
      [| intros H; discriminate H].
    destruct (Hnum _ _ _ Hd') as [zd' ->].
    intros H. injection H as <- _. cbn.
    apply Hfinder in Hd'. intros E. apply Hinj in E. lia.
  - intros H. injection H as <- _. cbn.
    apply Z.eqb_neq in Heq. intros E. apply Hinj in E. contradiction.
Qed.

(** C9.  The build file exposes the debug port 5005 and the application
    port 8000, and every local port is free: the finder answers a search
    with the port that the search starts from, the text [8000] for the
    application port, which the sources hand over as the text of the build
    file, and the number 8000 for the debug port, whose search starts at
    the base port.  Its answers are not smaller than the ports that it is
    started from.  The test of the two ports compares a number with a
    text, sees no clash and does not search again: the two forwardings
    that [createPortForward] hands to the subprocess start at the same
    local port 8000, in [createPortForward] alone and in a launch. *)
Theorem forwarded_ports_clash :
  (forall n s, getPortPromise Scenario.basePortApp n (FromString s)
               = Some (PortString s))
  /\ (forall n k, getPortPromise Scenario.basePortApp n (FromNumber k)
                  = Some (PortNumber k))
  /\ (forall n, getPortPromise Scenario.basePortApp n FromBase
                = Some (PortNumber 8000))
  /\ run (createPortForward "app-pod" "5005" (Some "8000"))
       Scenario.basePortApp initial
     = (Normal {| proxyProcess := [StdoutData Scenario.forwarding];
                  proxyDebugPort := PortNumber 8000;
                  proxyAppPort := PortString "8000" |},
        {| tick := 3;
           trace := [GetPort (FromString "8000"); GetPort FromBase;
                     Spawn "kubectl" ["port-forward"; "app-pod"; "8000:8000";
                                      "8000:5005"]] |})
  /\ portToString (PortNumber 8000) = portToString (PortString "8000")
  /\ In (Spawn "kubectl" ["port-forward"; "app-pod"; "8000:8000"; "8000:5005"])
       (trace (snd (run (launchDebug 5 (Some Scenario.folder))
                      Scenario.basePortApp initial))).
Proof.
  split; [reflexivity |]. split; [reflexivity |]. split; [reflexivity |].
  split; [vm_compute; reflexivity |]. split; [reflexivity |].
  vm_compute. tauto.
Qed.

(** ** The image pull policy of the run command *)

(** C10 at a registry with a port.  With [localhost:5000] configured as the
    registry user, the image is built and pushed as
    [localhost:5000/app:latest], and the run command that follows carries
    [--image-pull-policy=Never]. *)
Theorem pull_policy_with_registry_port :
  imageUser Scenario.registry = Some "localhost:5000"
  /\ In (ShellExecCore "docker push localhost:5000/app:latest" "/work/app" [])
       (trace (snd (run (launchDebug 5 (Some Scenario.folder))
                      Scenario.registry initial)))
  /\ In (KubectlInvoke
           "run localhost-debug-4 --image=localhost:5000/app:latest  --image-pull-policy=Never --port=8080 --port=5005")
       (trace (snd (run (launchDebug 5 (Some Scenario.folder))
                      Scenario.registry initial))).
Proof.
  split; [reflexivity |].
  split; vm_compute; tauto.
Qed.

(** ** Waiting for the pod *)

Lemma waitForRunningPod_step polls podName :
  waitForRunningPod (S polls) podName =
  (shellResult <- kubectl_invokeAsync
                    ("get pod/" +++ podName +++ " --no-headers") ;;
   if negb (code shellResult =? 0)%Z then
     showOutput ("Failed to get pod status: " +++ stderr shellResult)
       (Some "Query pod status") ;;;
     showErrorMessage ("Failed to get pod status: " +++ stderr shellResult) ;;;
     throw ("Failed to get pod status: " +++ stderr shellResult)
   else
     let status :=
       nth_error (RegExp.split RegExp.whitespaces (stdout shellResult)) 2 in
     showOutput ("pod/" +++ podName +++ " status: " +++ Js.show status)
       (Some "Query pod status") ;;;
     if isStatus status "Running" then ret tt
     else if negb (isStatus status "ContainerCreating")
             && negb (isStatus status "Pending")
             && negb (isStatus status "Succeeded") then
       showErrorMessage
         ("The pod " +++ Js.dquote +++ podName +++ Js.dquote
          +++ " stays at a wrong status " +++ Js.dquote +++ Js.show status
          +++ Js.dquote +++ ". See Output window for more details.") ;;;
       logsResult <- kubectl_invokeAsync ("logs pod/" +++ podName) ;;
       showOutput
         ("Failed to start the pod " +++ Js.dquote +++ podName +++ Js.dquote
          +++ ", it's status is " +++ Js.dquote +++ Js.show status
          +++ Js.dquote +++ "." +++ Js.newline +++ Js.newline
          +++ "                See more details from the pod logs:"
          +++ Js.newline
          +++ (if (code logsResult =? 0)%Z
               then stdout logsResult else stderr logsResult))
         (Some "Query pod status") ;;;
       throw ("Failed to start the pod " +++ Js.dquote +++ podName
              +++ Js.dquote +++ ", it's status is " +++ Js.dquote
              +++ Js.show status +++ Js.dquote +++ ".")
     else
       sleep 1000 ;;;
       waitForRunningPod polls podName)%host.
Proof. reflexivity. Qed.

Lemma isStatus_true status s : isStatus status s = true <-> status = Some s.
Proof.
  destruct status as [x|]; cbn.
  - rewrite String.eqb_eq. split; congruence.
  - split; discriminate.
Qed.

Lemma isStatus_false status s : isStatus status s = false <-> status <> Some s.
Proof.
  rewrite <- isStatus_true. destruct (isStatus status s); split; congruence.
Qed.

(** One round of the readiness poll, by the status that the query returns *)
Lemma waitForRunningPod_round :
  forall polls podName w st,
    let shellResult :=
      kubectl w (tick st) ("get pod/" +++ podName +++ " --no-headers") in
    let status :=
      nth_error (RegExp.split RegExp.whitespaces (stdout shellResult)) 2 in
    let queried :=
      trace st ++
      [KubectlInvoke ("get pod/" +++ podName +++ " --no-headers");
       ShowOutput ("pod/" +++ podName +++ " status: " +++ Js.show status)
         (Some "Query pod status")] in
    let logsResult := kubectl w (S (tick st)) ("logs pod/" +++ podName) in
    code shellResult = 0%Z ->
    (status = Some "Running" ->
     run (waitForRunningPod (S polls) podName) w st
     = (Normal tt, {| tick := S (tick st); trace := queried |}))
    /\ (status = Some "ContainerCreating" \/ status = Some "Pending"
        \/ status = Some "Succeeded" ->
        run (waitForRunningPod (S polls) podName) w st
        = run (waitForRunningPod polls podName) w
            {| tick := S (tick st); trace := queried ++ [Sleep 1000] |})
    /\ (status <> Some "Running" -> status <> Some "ContainerCreating" ->
        status <> Some "Pending" -> status <> Some "Succeeded" ->
        exists message failure_ report_,
          run (waitForRunningPod (S polls) podName) w st
          = (Thrown failure_,
             {| tick := S (S (tick st));
                trace := queried ++
                  [ShowErrorMessage message;
                   KubectlInvoke ("logs pod/" +++ podName);
                   ShowOutput
                     (report_ +++
                      (if (code logsResult =? 0)%Z
                       then stdout logsResult else stderr logsResult))
                     (Some "Query pod status")] |})).
Proof.
  intros polls podName w st shellResult status queried logsResult Hcode.
  rewrite waitForRunningPod_step.
  cbn -[RegExp.split String.append waitForRunningPod isStatus nth_error Datatypes.app].
  fold shellResult. rewrite Hcode.
  cbn -[RegExp.split String.append waitForRunningPod isStatus nth_error Datatypes.app].
  fold status.
  split; [| split].
  - intros Hs. apply isStatus_true in Hs. rewrite Hs.
    cbn -[String.append Datatypes.app]. unfold queried. rewrite <- app_assoc. reflexivity.
  - intros Hs.
    assert (Hr : isStatus status "Running" = false).
    { apply isStatus_false.
      destruct Hs as [Hs | [Hs | Hs]]; rewrite Hs; discriminate. }
    assert (Hw : negb (isStatus status "ContainerCreating")
                 && negb (isStatus status "Pending")
                 && negb (isStatus status "Succeeded") = false).
    { destruct Hs as [Hs | [Hs | Hs]]; rewrite Hs; reflexivity. }
    rewrite Hr, Hw.
    cbn -[RegExp.split String.append waitForRunningPod isStatus nth_error Datatypes.app].
    unfold queried. rewrite <- !app_assoc. reflexivity.
  - intros H1 H2 H3 H4.
    apply isStatus_false in H1, H2, H3, H4.
    rewrite H1, H2, H3, H4.
    cbn -[RegExp.split String.append waitForRunningPod isStatus nth_error Datatypes.app].
    fold logsResult.
    exists
      ("The pod " +++ Js.dquote +++ podName +++ Js.dquote
       +++ " stays at a wrong status " +++ Js.dquote +++ Js.show status
       +++ Js.dquote +++ ". See Output window for more details."),
      ("Error: " +++ "Failed to start the pod " +++ Js.dquote +++ podName
       +++ Js.dquote +++ ", it's status is " +++ Js.dquote +++ Js.show status
       +++ Js.dquote +++ "."),
      ("Failed to start the pod " +++ Js.dquote +++ podName +++ Js.dquote
       +++ ", it's status is " +++ Js.dquote +++ Js.show status
       +++ Js.dquote +++ "." +++ Js.newline +++ Js.newline
       +++ "                See more details from the pod logs:"
       +++ Js.newline).
    unfold queried. rewrite <- !app_assoc. cbn [Datatypes.app].
    rewrite !append_assoc. reflexivity.
Qed.

(** C5.  One round of the readiness poll, for a status query that succeeded
    and whose third column is [status]: [Running] ends the wait; each of
    [ContainerCreating], [Pending] and [Succeeded] is followed by a sleep of
    1000 ms and the next round; any other status throws, after the logs of
    the pod have been fetched and written to the output channel. *)
Theorem pod_status_polling :
  forall polls podName w st,
    let shellResult :=
      kubectl w (tick st) ("get pod/" +++ podName +++ " --no-headers") in
    let status :=
      nth_error (RegExp.split RegExp.whitespaces (stdout shellResult)) 2 in
    let queried :=
      trace st ++
      [KubectlInvoke ("get pod/" +++ podName +++ " --no-headers");
       ShowOutput ("pod/" +++ podName +++ " status: " +++ Js.show status)
         (Some "Query pod status")] in
    let logsResult := kubectl w (S (tick st)) ("logs pod/" +++ podName) in
    code shellResult = 0%Z ->
    (status = Some "Running" ->
     run (waitForRunningPod (S polls) podName) w st
     = (Normal tt, {| tick := S (tick st); trace := queried |}))
    /\ (status = Some "ContainerCreating" \/ status = Some "Pending"
        \/ status = Some "Succeeded" ->
        run (waitForRunningPod (S polls) podName) w st
        = run (waitForRunningPod polls podName) w
            {| tick := S (tick st); trace := queried ++ [Sleep 1000] |})
    /\ (status <> Some "Running" -> status <> Some "ContainerCreating" ->
        status <> Some "Pending" -> status <> Some "Succeeded" ->
        exists message failure_ report_,
          run (waitForRunningPod (S polls) podName) w st
          = (Thrown failure_,
             {| tick := S (S (tick st));
                trace := queried ++
                  [ShowErrorMessage message;
                   KubectlInvoke ("logs pod/" +++ podName);
                   ShowOutput
                     (report_ +++
                      (if (code logsResult =? 0)%Z
                       then stdout logsResult else stderr logsResult))
                     (Some "Query pod status")] |})).
Proof. exact waitForRunningPod_round. Qed.

Lemma pod_status_polling_witness :
  run (waitForRunningPod 1 "app-pod") Scenario.debugOnly initial
  = (Normal tt,
     {| tick := 1;
        trace := [KubectlInvoke "get pod/app-pod --no-headers";
                  ShowOutput "pod/app-pod status: Running"
                    (Some "Query pod status")] |})
  /\ run (waitForRunningPod 2 "app-pod") Scenario.pendingPod initial
     = (Normal tt,
        {| tick := 2;
           trace := [KubectlInvoke "get pod/app-pod --no-headers";
                     ShowOutput "pod/app-pod status: Pending"
                       (Some "Query pod status");
                     Sleep 1000;
                     KubectlInvoke "get pod/app-pod --no-headers";
                     ShowOutput "pod/app-pod status: Running"
                       (Some "Query pod status")] |})
  /\ exists failure_,
       fst (run (waitForRunningPod 1 "app-pod") Scenario.crashedPod initial)
       = Thrown failure_.
Proof.
  split; [| split].
  - destruct (pod_status_polling 0 "app-pod" Scenario.debugOnly initial
                eq_refl) as [H _].
    rewrite (H eq_refl). reflexivity.
  - destruct (pod_status_polling 1 "app-pod" Scenario.pendingPod initial
                eq_refl) as [_ [H _]].
    rewrite (H (or_intror (or_introl eq_refl))). vm_compute. reflexivity.
  - destruct (pod_status_polling 0 "app-pod" Scenario.crashedPod initial
                eq_refl) as [_ [_ H]].
    destruct H as [message [failure_ [report_ H]]]; try discriminate.
    exists failure_. rewrite H. reflexivity.
Defined.

Lemma sleeps_app (a b : list Event) : sleeps (a ++ b) = sleeps a + sleeps b.
Proof.
  induction a as [|e a IH]; [reflexivity |].
  destruct e; cbn; try exact IH.
  destruct ms as [|[p|p|]|]; cbn; try exact IH.
  repeat (destruct p as [p|p|]; cbn; try exact IH).
  now rewrite IH.
Qed.

(** When the pod is seen running after [k] rounds in one of the waiting
    states, the wait returns, provided that the model follows more than [k]
    rounds; it has slept [k] times by then. *)
Lemma waitForRunningPod_returns :
  forall k polls podName w st,
    k < polls ->
    (forall i, i <= k ->
       code (kubectl w (tick st + i)
               ("get pod/" +++ podName +++ " --no-headers")) = 0%Z) ->
    (forall i, i < k ->
       let status :=
         nth_error
           (RegExp.split RegExp.whitespaces
              (stdout (kubectl w (tick st + i)
                         ("get pod/" +++ podName +++ " --no-headers")))) 2 in
       status = Some "ContainerCreating" \/ status = Some "Pending"
       \/ status = Some "Succeeded") ->
    nth_error
      (RegExp.split RegExp.whitespaces
         (stdout (kubectl w (tick st + k)
                    ("get pod/" +++ podName +++ " --no-headers")))) 2
    = Some "Running" ->
    exists st',
      run (waitForRunningPod polls podName) w st = (Normal tt, st')
      /\ tick st' = tick st + S k
      /\ sleeps (trace st') = sleeps (trace st) + k.
Proof.
  induction k as [|k IH]; intros polls podName w st Hk Hcode Hwait Hrun.
  - destruct polls as [|polls]; [lia |].
    pose proof (Hcode 0 (Nat.le_refl 0)) as H0.
    rewrite Nat.add_0_r in H0, Hrun.
    destruct (waitForRunningPod_round polls podName w st H0) as [H _].
    rewrite (H Hrun). eexists. split; [reflexivity |].
    cbn [tick trace]. split; [lia |].
    rewrite sleeps_app. cbn. lia.
  - destruct polls as [|polls]; [lia |].
    pose proof (Hcode 0 (Nat.le_0_l _)) as H0.
    pose proof (Hwait 0 (Nat.lt_0_succ _)) as Hw. cbv zeta in Hw.
    rewrite Nat.add_0_r in H0, Hw.
    destruct (waitForRunningPod_round polls podName w st H0) as [_ [H _]].
    rewrite (H Hw).
    match goal with
    | |- context [run _ w ?st1] =>
        destruct (IH polls podName w st1) as [st' [Hr [Ht Hs]]]
    end.
    + lia.
    + intros i Hi. cbn [tick]. rewrite Nat.add_succ_comm. apply Hcode. lia.
    + intros i Hi. cbn [tick]. rewrite Nat.add_succ_comm. apply Hwait. lia.
    + cbn [tick]. rewrite Nat.add_succ_comm. exact Hrun.
    + exists st'. split; [exact Hr |]. cbn [tick trace] in Ht, Hs.
      split; [lia |]. rewrite Hs, !sleeps_app. cbn. lia.
Qed.

(** ** The readiness signal of the port-forward *)

Lemma attachCalls_app (a b : list Event) :
  attachCalls (a ++ b) = attachCalls a + attachCalls b.
Proof.
  induction a as [|e a IH]; [reflexivity |].
  destruct e; cbn; rewrite IH; reflexivity.
Qed.

Lemma java_attaches_once : attachesOnce JavaDebugProvider.provider.
Proof.
  intros ws n p w st. cbn. rewrite attachCalls_app. cbn. lia.
Qed.

Lemma node_attaches_once : attachesOnce NodeDebugProvider.provider.
Proof.
  intros ws n p w st. cbn. rewrite attachCalls_app. cbn. lia.
Qed.

Lemma deleteResource_returns resourceId w st :
  exists st',
    run (deleteResource resourceId) w st = (Normal tt, st')
    /\ attachCalls (trace st') = attachCalls (trace st).
Proof.
  unfold deleteResource. cbn -[String.append].
  destruct (code (kubectl w (tick st) ("delete " +++ resourceId)) =? 0)%Z;
    cbn -[String.append]; eexists; (split; [reflexivity |]);
    cbn [trace]; rewrite !attachCalls_app; cbn; lia.
Qed.

Section Readiness.
Variable debugProvider : IDebugProvider.
Hypothesis once : attachesOnce debugProvider.
Variable appName : option string.
Variables workspaceFolder debugType : string.
Variables proxyDebugPort_ proxyAppPort_ : Port.

Let handle_ :=
  handle debugProvider appName workspaceFolder debugType proxyDebugPort_
    proxyAppPort_.
Let handleAll_ :=
  handleAll debugProvider appName workspaceFolder debugType proxyDebugPort_
    proxyAppPort_.

Lemma handle_attach s e w st :
  exists s' st',
    run (handle_ s e) w st = (Normal s', st')
    /\ attachCalls (trace st')
       = attachCalls (trace st) + (if triggers s e then 1 else 0)
    /\ isStarted s' = (isStarted s || triggers s e
                       || match e with Close _ => true | _ => false end).
Proof.
  unfold handle_, handle. destruct e as [data|data|c|n|n]; cbn [triggers].
  - unfold onStdoutData.
    destruct (negb (isStarted s) && RegExp.test forwardingRegExp data) eqn:Ht.
    + assert (Hs : isStarted s = false).
      { destruct (isStarted s); [discriminate | reflexivity]. }
      destruct (Js.truthyStr appName); cbn -[String.append];
        match goal with
        | |- context [startDebugging ?a ?b ?c ?d ?e ?f] =>
            pose proof (once b c d e f) as Hc; unfold run in Hc;
            destruct (startDebugging a b c d e f) as [o st1]
        end;
        cbn -[String.append] in *; eexists _, _; (split; [reflexivity |]);
        rewrite Hc, !attachCalls_app; cbn; rewrite Hs;
        (split; [lia | reflexivity]).
    + cbn. eexists _, _. split; [reflexivity |].
      split; [lia |]. now rewrite !orb_false_r.
  - cbn. eexists _, _. split; [reflexivity |].
    cbn [trace]. rewrite attachCalls_app. cbn.
    split; [lia | now rewrite !orb_false_r].
  - unfold onClose. cbn -[deleteResource String.append].
    destruct (Js.truthyStr appName).
    + destruct (deleteResource_returns ("deployment/" +++ Js.show appName) w st)
        as [st' [Hr Hc]].
      cbn -[deleteResource String.append] in Hr |- *. rewrite Hr.
      eexists _, _. split; [reflexivity |].
      split; [lia | now rewrite orb_true_r].
    + cbn. eexists _, _. split; [reflexivity |].
      split; [lia | now rewrite orb_true_r].
  - unfold onDidStart. destruct (listeners s) as [sessionName|].
    + destruct (String.eqb n sessionName);
        [destruct (portTruthy proxyAppPort_) |];
        cbn -[String.append]; eexists _, _; (split; [reflexivity |]);
        cbn [trace]; rewrite ?attachCalls_app; cbn; (split; [lia |]);
        now rewrite !orb_false_r.
    + cbn. eexists _, _. split; [reflexivity |].
      split; [lia | now rewrite !orb_false_r].
  - unfold onDidTerminate. destruct (listeners s) as [sessionName|].
    + destruct (String.eqb n sessionName); cbn; eexists _, _;
        (split; [reflexivity |]); cbn [trace]; rewrite ?attachCalls_app;
        cbn; (split; [lia |]); now rewrite !orb_false_r.
    + cbn. eexists _, _. split; [reflexivity |].
      split; [lia | now rewrite !orb_false_r].
Qed.

Lemma handleAll_cons s e events w st :
  run (handleAll_ s (e :: events)) w st =
  match run (handle_ s e) w st with
  | (Normal s', st') => run (handleAll_ s' events) w st'
  | (Thrown x, st') => (Thrown x, st')
  | (Pending, st') => (Pending, st')
  end.
Proof. reflexivity. Qed.

Lemma handleAll_at_most_once events : forall s w st,
  exists s' st',
    run (handleAll_ s events) w st = (Normal s', st')
    /\ attachCalls (trace st')
       <= attachCalls (trace st) + (if isStarted s then 0 else 1).
Proof.
  induction events as [|e events IH]; intros s w st.
  - cbn. eexists _, _. split; [reflexivity | lia].
  - rewrite handleAll_cons.
    destruct (handle_attach s e w st) as [s1 [st1 [Hr [Hc Hs]]]].
    rewrite Hr.
    destruct (IH s1 w st1) as [s2 [st2 [Hr2 Hc2]]].
    rewrite Hr2. eexists _, _. split; [reflexivity |].
    rewrite Hs in Hc2. rewrite Hc in Hc2.
    destruct (isStarted s) eqn:Hi.
    + assert (Ht : triggers s e = false).
      { destruct e; cbn; rewrite ?Hi; reflexivity. }
      rewrite Ht in Hc2. cbn in Hc2. lia.
    + destruct (triggers s e); cbn in Hc2; [lia |].
      destruct e; cbn in Hc2; lia.
Qed.

Lemma handleAll_stdout lines : forall s w st,
  exists s' st',
    run (handleAll_ s (map StdoutData lines)) w st = (Normal s', st')
    /\ attachCalls (trace st')
       = attachCalls (trace st)
         + (if negb (isStarted s)
               && existsb (RegExp.test forwardingRegExp) lines
            then 1 else 0).
Proof.
  induction lines as [|l lines IH]; intros s w st.
  - cbn. eexists _, _. split; [reflexivity |].
    rewrite andb_false_r. lia.
  - cbn [map]. rewrite handleAll_cons.
    destruct (handle_attach s (StdoutData l) w st) as [s1 [st1 [Hr [Hc Hs]]]].
    rewrite Hr.
    destruct (IH s1 w st1) as [s2 [st2 [Hr2 Hc2]]].
    rewrite Hr2. eexists _, _. split; [reflexivity |].
    rewrite Hc2, Hc, Hs. cbn [triggers existsb].
    destruct (isStarted s), (RegExp.test forwardingRegExp l),
      (existsb (RegExp.test forwardingRegExp) lines); cbn; lia.
Qed.
End Readiness.

(** C6.  With a provider whose attach step calls the host debugger once:
    whatever the port-forward subprocess and the host signal, in whatever
    order, the host debugger is called at most once; and for every sequence
    of lines on the standard output it is called once when some line
    matches the readiness pattern and not at all otherwise.  As this holds
    for every prefix of the sequence as well, the call is made at the first
    matching line and every later line, a duplicate included, adds none. *)
Theorem attach_triggered_at_most_once :
  forall debugProvider,
    attachesOnce debugProvider ->
    forall appName workspaceFolder debugType proxyDebugPort_ proxyAppPort_ w st,
      (forall events, exists s' st',
          run (handleAll debugProvider appName workspaceFolder debugType
                 proxyDebugPort_ proxyAppPort_ newSession events) w st
          = (Normal s', st')
          /\ attachCalls (trace st') <= S (attachCalls (trace st)))
      /\ (forall lines, exists s' st',
             run (handleAll debugProvider appName workspaceFolder debugType
                    proxyDebugPort_ proxyAppPort_ newSession
                    (map StdoutData lines)) w st
             = (Normal s', st')
             /\ attachCalls (trace st')
                = attachCalls (trace st)
                  + (if existsb (RegExp.test forwardingRegExp) lines
                     then 1 else 0)).
Proof.
  intros p Hp appName ws dt dp ap w st. split.
  - intros events.
    destruct (handleAll_at_most_once p Hp appName ws dt dp ap events
                newSession w st) as [s' [st' [Hr Hc]]].
    exists s', st'. split; [exact Hr |]. cbn in Hc. lia.
  - intros lines.
    destruct (handleAll_stdout p Hp appName ws dt dp ap lines newSession w st)
      as [s' [st' [Hr Hc]]].
    exists s', st'. split; [exact Hr | exact Hc].
Qed.

Lemma attach_triggered_at_most_once_witness :
  attachesOnce JavaDebugProvider.provider
  /\ exists s' st',
       run (handleAll JavaDebugProvider.provider (Some "app-debug-1")
              "/work/app" "java" (PortNumber 8001) (PortNumber 8000) newSession
              (map StdoutData [Scenario.forwarding; Scenario.forwarding]))
         Scenario.debugOnly initial
       = (Normal s', st')
       /\ attachCalls (trace st') = 1.
Proof.
  split; [exact java_attaches_once |].
  destruct (attach_triggered_at_most_once JavaDebugProvider.provider
              java_attaches_once (Some "app-debug-1") "/work/app" "java"
              (PortNumber 8001) (PortNumber 8000) Scenario.debugOnly initial)
    as [_ H].
  destruct (H [Scenario.forwarding; Scenario.forwarding]) as [s' [st' [Hr Hc]]].
  exists s', st'. split; [exact Hr |].
  rewrite Hc. vm_compute. reflexivity.
Defined.

(** ** Cleanup and the boundary of the launch flow *)

Lemma onLaunchError_returns appName error w st :
  exists st', run (onLaunchError appName error) w st = (Normal tt, st').
Proof.
  unfold onLaunchError. cbn -[deleteResource String.append].
  destruct (Js.truthyStr appName).
  - match goal with
    | |- context [tryCatch (deleteResource ?r) _ w ?s] =>
        destruct (deleteResource_returns r w s) as [st' [Hr _]]
    end.
    unfold tryCatch. unfold run in Hr. rewrite Hr.
    eexists. reflexivity.
  - eexists. reflexivity.
Qed.

(** A [try] block whose handler always returns does not throw. *)
Lemma tryCatchWith_not_thrown {A B} (m1 : M A) (m2 : A -> M B)
    (h : option A -> string -> M B) :
  (forall a error w st, exists b st', run (h a error) w st = (Normal b, st')) ->
  forall w st error, fst (run (tryCatchWith m1 m2 h) w st) <> Thrown error.
Proof.
  intros Hh w st error. cbn.
  destruct (m1 w st) as [[a | e | ] st1].
  - destruct (m2 a w st1) as [[b | e | ] st2]; cbn; try discriminate.
    destruct (Hh (Some a) e w st2) as [b [st' Hr]].
    cbn in Hr. rewrite Hr. discriminate.
  - destruct (Hh None e w st1) as [b [st' Hr]].
    cbn in Hr. rewrite Hr. discriminate.
  - discriminate.
Qed.

(** ** The matcher and the texts it accepts *)

Lemma consumed_append (t s1 : string) : RegExp.consumed (t +++ s1) s1 = t.
Proof.
  unfold RegExp.consumed. rewrite length_append.
  replace (String.length t + String.length s1 - String.length s1)
    with (String.length t) by lia.
  induction t as [|x t IH]; cbn.
  - destruct s1; reflexivity.
  - now rewrite IH.
Qed.

Lemma matchAt_sound {R : Type} (ic : bool) (r : RegExp.regex) :
  forall pos s c (k : nat -> string -> RegExp.captures -> option R) x,
    RegExp.matchAt ic r pos s c k = Some x ->
    exists t s1 c1,
      s = t +++ s1 /\ Matches ic r t c c1
      /\ k (pos + String.length t) s1 c1 = Some x.
Proof.
  induction r as [ | a | p | | | r1 IH1 r2 IH2 | r1 IH1 r2 IH2 | r IH | i r IH];
    intros pos s c k x H; cbn [RegExp.matchAt] in H.
  - exists EmptyString, s, c. cbn. rewrite Nat.add_0_r.
    repeat split; [constructor | exact H].
  - destruct s as [|b s']; [discriminate |].
    destruct (RegExp.charEq ic b a) eqn:E; [| discriminate].
    exists (String b EmptyString), s', c. cbn.
    rewrite Nat.add_1_r. repeat split; [now constructor | exact H].
  - destruct s as [|b s']; [discriminate |].
    destruct (p b) eqn:E; [| discriminate].
    exists (String b EmptyString), s', c. cbn.
    rewrite Nat.add_1_r. repeat split; [now constructor | exact H].
  - destruct (Nat.eqb pos 0); [| discriminate].
    exists EmptyString, s, c. cbn. rewrite Nat.add_0_r.
    repeat split; [constructor | exact H].
  - destruct (Js.isEmpty s); [| discriminate].
    exists EmptyString, s, c. cbn. rewrite Nat.add_0_r.
    repeat split; [constructor | exact H].
  - apply IH1 in H. destruct H as [t1 [s1 [c1 [-> [M1 H]]]]].
    apply IH2 in H. destruct H as [t2 [s2 [c2 [-> [M2 H]]]]].
    exists (t1 +++ t2), s2, c2. rewrite append_assoc, length_append.
    rewrite Nat.add_assoc. repeat split; [econstructor; eassumption | exact H].
  - destruct (RegExp.matchAt ic r1 pos s c k) as [y|] eqn:E.
    + injection H as <-. apply IH1 in E.
      destruct E as [t [s1 [c1 [-> [M E]]]]].
      exists t, s1, c1. repeat split; [now apply MAltL | exact E].
    + apply IH2 in H. destruct H as [t [s1 [c1 [-> [M H]]]]].
      exists t, s1, c1. repeat split; [now apply MAltR | exact H].
  - remember (String.length s) as n eqn:Hn in H. clear Hn.
    revert pos s c x H.
    induction n as [|n IHn]; intros pos s c x H.
    + exists EmptyString, s, c. cbn. rewrite Nat.add_0_r.
      repeat split; [constructor | exact H].
    + match type of H with
      | match ?m with _ => _ end = _ => destruct m as [y|] eqn:E
      end.
      * injection H as <-. apply IH in E.
        destruct E as [t1 [s1 [c1 [-> [M1 E]]]]].
        destruct (String.length s1 <? String.length (t1 +++ s1));
          [| discriminate].
        apply IHn in E. destruct E as [t2 [s2 [c2 [-> [M2 E]]]]].
        exists (t1 +++ t2), s2, c2. rewrite append_assoc, length_append.
        rewrite Nat.add_assoc.
        repeat split; [econstructor; eassumption | exact E].
      * exists EmptyString, s, c. cbn. rewrite Nat.add_0_r.
        repeat split; [constructor | exact H].
  - apply IH in H. destruct H as [t [s1 [c1 [-> [M H]]]]].
    rewrite consumed_append in H.
    exists t, s1, (RegExp.setCapture i (Some t) c1).
    repeat split; [now constructor | exact H].
Qed.

Lemma execFrom_sound ic r : forall s pos m,
  RegExp.execFrom ic r pos s = Some m ->
  Matches ic r (RegExp.whole m) RegExp.noCaptures (RegExp.caps m).
Proof.
  induction s as [|ch s IH]; intros pos m H; cbn [RegExp.execFrom] in H.
  - destruct (RegExp.matchHere ic r pos EmptyString) as [m'|] eqn:E;
      [| discriminate].
    injection H as <-. unfold RegExp.matchHere in E.
    apply matchAt_sound in E. destruct E as [t [s1 [c1 [Hs [M E]]]]].
    injection E as <-. cbn [RegExp.whole RegExp.caps].
    rewrite Hs, consumed_append. exact M.
  - destruct (RegExp.matchHere ic r pos (String ch s)) as [m'|] eqn:E.
    + injection H as <-. unfold RegExp.matchHere in E.
      apply matchAt_sound in E. destruct E as [t [s1 [c1 [Hs [M E]]]]].
      injection E as <-. cbn [RegExp.whole RegExp.caps].
      rewrite Hs, consumed_append. exact M.
    + eapply IH. exact H.
Qed.

Lemma exec_sound p s m :
  RegExp.exec p s = Some m ->
  Matches (RegExp.ignoreCase p) (RegExp.re p) (RegExp.whole m)
    RegExp.noCaptures (RegExp.caps m).
Proof. apply execFrom_sound. Qed.

Lemma clearCaptures_other l c i :
  ~ In i l -> RegExp.clearCaptures l c i = c i.
Proof.
  induction l as [|j l IH]; intros Hi; [reflexivity |].
  cbn. unfold RegExp.setCapture at 1.
  destruct (Nat.eqb i j) eqn:E.
  - apply Nat.eqb_eq in E. subst. exfalso. apply Hi. now left.
  - apply IH. intros Hin. apply Hi. now right.
Qed.

(** A pattern leaves the captures of the groups it does not contain. *)
Lemma Matches_preserves ic r t c c' :
  Matches ic r t c c' ->
  forall i, ~ In i (RegExp.groups r) -> c' i = c i.
Proof.
  induction 1; intros j Hj; cbn [RegExp.groups] in Hj; try reflexivity.
  - rewrite IHMatches2, IHMatches1; [reflexivity | |];
      intros Hin; apply Hj, in_or_app; [now left | now right].
  - apply IHMatches. intros Hin. apply Hj, in_or_app. now left.
  - apply IHMatches. intros Hin. apply Hj, in_or_app. now right.
  - rewrite IHMatches2, IHMatches1 by exact Hj.
    now apply clearCaptures_other.
  - unfold RegExp.setCapture. destruct (Nat.eqb j i) eqn:E.
    + apply Nat.eqb_eq in E. subst. exfalso. apply Hj. now left.
    + apply IHMatches. intros Hin. apply Hj. now right.
Qed.

Ltac invert_matches :=
  repeat match goal with
    | H : Matches _ (RegExp.Seq _ _) _ _ _ |- _ => inversion H; subst; clear H
    | H : Matches _ (RegExp.Grp _ _) _ _ _ |- _ => inversion H; subst; clear H
    | H : Matches _ (RegExp.Chr _) _ _ _ |- _ => inversion H; subst; clear H
    | H : Matches _ RegExp.Bol _ _ _ |- _ => inversion H; subst; clear H
    end.

Lemma split_nonempty sep s : exists h t, Js.split sep s = h :: t.
Proof.
  destruct s as [|c s]; cbn; [now eexists _, _ |].
  destruct (Ascii.eqb c sep); [now eexists _, _ |].
  destruct (Js.split sep s); now eexists _, _.
Qed.

Lemma split_length_cons sep c s :
  length (Js.split sep s) <= length (Js.split sep (String c s)).
Proof.
  cbn. destruct (Ascii.eqb c sep); cbn; [lia |].
  destruct (split_nonempty sep s) as [h [t ->]]. cbn. lia.
Qed.

Lemma split_length_sep sep s :
  2 <= length (Js.split sep (String sep s)).
Proof.
  cbn. rewrite Ascii.eqb_refl. cbn.
  destruct (split_nonempty sep s) as [h [t ->]]. cbn. lia.
Qed.

(** Under the [i] flag a character that is not a letter matches itself only *)
Lemma charEq_equals b : RegExp.charEq true b "=" = true -> b = "="%char.
Proof.
  destruct b as [[] [] [] [] [] [] [] []]; vm_compute;
    intros H; try discriminate H; reflexivity.
Qed.

(** What a match of the full pattern of the java resolver captures: the
    second group is set, and its text has an equals sign. *)
Lemma java_full_match_address cmd m :
  RegExp.exec JavaDockerResolver.fullJavaDebugOptsRegExp cmd = Some m ->
  exists g, RegExp.group m 2 = Some g /\ 2 <= length (Js.split "=" g).
Proof.
  intros H. apply exec_sound in H.
  cbv [JavaDockerResolver.fullJavaDebugOptsRegExp RegExp.re RegExp.ignoreCase
       JavaDockerResolver.address RegExp.Lit RegExp.Plus] in H.
  invert_matches.
  match goal with
  | H : Matches _ (RegExp.Star RegExp.nonSpace) _
          (RegExp.setCapture 2 (Some ?g) _) (RegExp.caps m) |- _ =>
      exists g; split;
      [ cbn [RegExp.group];
        rewrite (Matches_preserves _ _ _ _ _ H 2) by (cbn; tauto);
        reflexivity
      | ]
  end.
  cbn [String.append].
  match goal with
  | H : RegExp.charEq true _ "=" = true |- _ =>
      apply charEq_equals in H; subst
  end.
  do 7 (etransitivity; [| apply split_length_cons]).
  apply split_length_sep.
Qed.

(** ** Resolution from the process listing *)

Lemma java_resolveCommand_returns cmd :
  exists r, JavaDockerResolver.resolveCommand cmd = Normal r.
Proof.
  unfold JavaDockerResolver.resolveCommand.
  destruct (RegExp.exec JavaDockerResolver.fullJavaDebugOptsRegExp cmd)
    as [m|] eqn:E; [| now eexists].
  destruct (matchLength JavaDockerResolver.fullJavaDebugOptsRegExp =? 3);
    [| now eexists].
  destruct (java_full_match_address cmd m E) as [g [Hg Hl]].
  unfold JavaDockerResolver.debugPortOf. rewrite Hg. cbn [member obind].
  destruct (Js.split "=" g) as [|x [|y l]]; cbn in Hl; try lia.
  cbn. now eexists.
Qed.

Lemma node_resolveCommand_returns cmd :
  exists r, NodeDockerResolver.resolveCommand cmd = Normal r.
Proof.
  unfold NodeDockerResolver.resolveCommand.
  destruct (RegExp.exec NodeDockerResolver.fullNodeDebugOptsRegExp cmd);
    [| now eexists].
  destruct (matchLength NodeDockerResolver.fullNodeDebugOptsRegExp =? 5);
    now eexists.
Qed.

Section Scan.
Variable resolve : string -> Outcome (option (option string)).

Lemma scanRows_skips totalCol row rows :
  length (RegExp.split RegExp.whitespaces (Js.trim row)) < totalCol ->
  scanRows resolve totalCol (row :: rows) = scanRows resolve totalCol rows.
Proof.
  intros H. cbn [scanRows]. apply Nat.ltb_lt in H. now rewrite H.
Qed.

Lemma scanRows_returns totalCol rows :
  (forall cmd, exists r, resolve cmd = Normal r) ->
  exists d, scanRows resolve totalCol rows = Normal d.
Proof.
  intros Hr. induction rows as [|row rows IH]; cbn [scanRows]; [now eexists |].
  destruct (length (RegExp.split RegExp.whitespaces (Js.trim row)) <? totalCol);
    [exact IH |].
  destruct (Hr (commandOf totalCol
                  (RegExp.split RegExp.whitespaces (Js.trim row))))
    as [[d|] ->]; [now eexists | exact IH].
Qed.

Lemma scanRows_no_match totalCol rows :
  (forall row, In row rows ->
     let cols := RegExp.split RegExp.whitespaces (Js.trim row) in
     totalCol <= length cols -> resolve (commandOf totalCol cols) = Normal None) ->
  scanRows resolve totalCol rows = Normal None.
Proof.
  induction rows as [|row rows IH]; intros H; cbn [scanRows]; [reflexivity |].
  destruct (length (RegExp.split RegExp.whitespaces (Js.trim row)) <? totalCol)
    eqn:E.
  - apply IH. intros r Hr. apply H. now right.
  - apply Nat.ltb_ge in E. rewrite (H row (or_introl eq_refl) E).
    apply IH. intros r Hr. apply H. now right.
Qed.

Lemma scanListing_returns out :
  (forall cmd, exists r, resolve cmd = Normal r) ->
  exists d, scanListing resolve out = Normal d.
Proof.
  intros Hr. unfold scanListing.
  destruct (split_nonempty (ascii_of_nat 10) out) as [h [t ->]].
  cbn [nth_error member obind tl]. now apply scanRows_returns.
Qed.
End Scan.

Lemma scanListing_unmatched resolve p out :
  (forall cmd, RegExp.exec p cmd = None -> resolve cmd = Normal None) ->
  unmatched p out ->
  scanListing resolve out = Normal None.
Proof.
  intros Hr Hu. unfold scanListing. unfold unmatched in Hu.
  destruct (split_nonempty (ascii_of_nat 10) out) as [h [t E]].
  rewrite E in Hu |- *. cbn [nth_error member obind tl hd] in *.
  apply scanRows_no_match. intros row Hin cols Hc.
  apply Hr. now apply Hu.
Qed.

Lemma node_resolvePortsFromPod_run pod container w st :
  let execResult :=
    kubectl w (tick st) (NodeDockerResolver.execCmd pod container) in
  forall d,
    (if (code execResult =? 0)%Z
     then scanListing NodeDockerResolver.resolveCommand (stdout execResult)
     else Normal None) = Normal d ->
    run (NodeDockerResolver.resolvePortsFromPod pod container) w st
    = if negb (Js.truthyStr d) then
        (Normal {| debug := typedPort (inputBox w (S (tick st))); app := None |},
         {| tick := S (S (tick st));
            trace := trace st ++
              [KubectlInvoke (NodeDockerResolver.execCmd pod container);
               ShowInputBox
                 "Please specify debug port exposed by the container (e.g. 9229)"
                 "9229"] |})
      else
        (Normal {| debug := d; app := None |},
         {| tick := S (tick st);
            trace := trace st ++
              [KubectlInvoke (NodeDockerResolver.execCmd pod container)] |}).
Proof.
  intros execResult d H.
  unfold NodeDockerResolver.resolvePortsFromPod.
  cbn -[scanListing NodeDockerResolver.execCmd Js.truthyStr Datatypes.app].
  fold execResult.
  destruct (code execResult =? 0)%Z;
    cbn -[scanListing NodeDockerResolver.execCmd Js.truthyStr Datatypes.app];
    [rewrite H | injection H as <-];
    cbn -[scanListing NodeDockerResolver.execCmd Js.truthyStr Datatypes.app];
    destruct (negb (Js.truthyStr _));
    cbn -[scanListing NodeDockerResolver.execCmd Js.truthyStr Datatypes.app];
    rewrite <- ?app_assoc; reflexivity.
Qed.

Lemma java_resolvePortsFromPod_run pod container w st :
  let execResult :=
    kubectl w (tick st) (JavaDockerResolver.execCmd pod container) in
  forall d,
    (if (code execResult =? 0)%Z
     then scanListing JavaDockerResolver.resolveCommand (stdout execResult)
     else Normal None) = Normal d ->
    run (JavaDockerResolver.resolvePortsFromPod pod container) w st
    = if negb (Js.truthyStr d) then
        (Normal {| debug := typedPort (inputBox w (S (tick st))); app := None |},
         {| tick := S (S (tick st));
            trace := trace st ++
              [KubectlInvoke (JavaDockerResolver.execCmd pod container);
               ShowInputBox
                 "Please specify debug port exposed by the container (e.g. 5005)"
                 "5005"] |})
      else
        (Normal {| debug := d; app := None |},
         {| tick := S (tick st);
            trace := trace st ++
              [KubectlInvoke (JavaDockerResolver.execCmd pod container)] |}).
Proof.
  intros execResult d H.
  unfold JavaDockerResolver.resolvePortsFromPod.
  cbn -[scanListing JavaDockerResolver.execCmd Js.truthyStr Datatypes.app].
  fold execResult.
  destruct (code execResult =? 0)%Z;
    cbn -[scanListing JavaDockerResolver.execCmd Js.truthyStr Datatypes.app];
    [rewrite H | injection H as <-];
    cbn -[scanListing JavaDockerResolver.execCmd Js.truthyStr Datatypes.app];
    destruct (negb (Js.truthyStr _));
    cbn -[scanListing JavaDockerResolver.execCmd Js.truthyStr Datatypes.app];
    rewrite <- ?app_assoc; reflexivity.
Qed.

(** C8.  For both resolvers and every output of the process listing: a data
    row with fewer columns than the header is passed over; the resolution
    returns (it throws nothing) whatever the cluster and the user answer;
    and when no row carries a matching command the scan leaves the debug
    port unset and the resolution returns what was typed at the prompt,
    trimmed, or no debug port when nothing was typed. *)
Theorem live_process_resolution_is_total :
  (forall resolve totalCol row rows,
      length (RegExp.split RegExp.whitespaces (Js.trim row)) < totalCol ->
      scanRows resolve totalCol (row :: rows) = scanRows resolve totalCol rows)
  /\ (forall pod container w st,
         (exists portInfo st',
             run (NodeDockerResolver.resolvePortsFromPod pod container) w st
             = (Normal portInfo, st'))
         /\ (exists portInfo st',
                run (JavaDockerResolver.resolvePortsFromPod pod container) w st
                = (Normal portInfo, st')))
  /\ (forall out,
         (unmatched NodeDockerResolver.fullNodeDebugOptsRegExp out ->
          scanListing NodeDockerResolver.resolveCommand out = Normal None)
         /\ (unmatched JavaDockerResolver.fullJavaDebugOptsRegExp out ->
             scanListing JavaDockerResolver.resolveCommand out = Normal None))
  /\ (forall pod container w st,
         (let execResult :=
            kubectl w (tick st) (NodeDockerResolver.execCmd pod container) in
          code execResult = 0%Z ->
          unmatched NodeDockerResolver.fullNodeDebugOptsRegExp
            (stdout execResult) ->
          fst (run (NodeDockerResolver.resolvePortsFromPod pod container) w st)
          = Normal {| debug := typedPort (inputBox w (S (tick st)));
                      app := None |})
         /\ (let execResult :=
               kubectl w (tick st) (JavaDockerResolver.execCmd pod container) in
             code execResult = 0%Z ->
             unmatched JavaDockerResolver.fullJavaDebugOptsRegExp
               (stdout execResult) ->
             fst (run (JavaDockerResolver.resolvePortsFromPod pod container) w st)
             = Normal {| debug := typedPort (inputBox w (S (tick st)));
                         app := None |})).
Proof.
  assert (Hnode : forall out,
             unmatched NodeDockerResolver.fullNodeDebugOptsRegExp out ->
             scanListing NodeDockerResolver.resolveCommand out = Normal None).
  { intros out. apply scanListing_unmatched. intros cmd E.
    unfold NodeDockerResolver.resolveCommand. now rewrite E. }
  assert (Hjava : forall out,
             unmatched JavaDockerResolver.fullJavaDebugOptsRegExp out ->
             scanListing JavaDockerResolver.resolveCommand out = Normal None).
  { intros out. apply scanListing_unmatched. intros cmd E.
    unfold JavaDockerResolver.resolveCommand. now rewrite E. }
  split; [| split; [| split]].
  - intros resolve totalCol row rows. apply scanRows_skips.
  - intros pod container w st. split.
    + assert (H : exists d,
                 (if (code (kubectl w (tick st)
                              (NodeDockerResolver.execCmd pod container)) =? 0)%Z
                  then scanListing NodeDockerResolver.resolveCommand
                         (stdout (kubectl w (tick st)
                                    (NodeDockerResolver.execCmd pod container)))
                  else Normal None) = Normal d).
      { destruct (_ =? _)%Z; [| now eexists].
        apply scanListing_returns, node_resolveCommand_returns. }
      destruct H as [d H].
      rewrite (node_resolvePortsFromPod_run pod container w st d H).
      destruct (negb (Js.truthyStr d)); now eexists _, _.
    + assert (H : exists d,
                 (if (code (kubectl w (tick st)
                              (JavaDockerResolver.execCmd pod container)) =? 0)%Z
                  then scanListing JavaDockerResolver.resolveCommand
                         (stdout (kubectl w (tick st)
                                    (JavaDockerResolver.execCmd pod container)))
                  else Normal None) = Normal d).
      { destruct (_ =? _)%Z; [| now eexists].
        apply scanListing_returns, java_resolveCommand_returns. }
      destruct H as [d H].
      rewrite (java_resolvePortsFromPod_run pod container w st d H).
      destruct (negb (Js.truthyStr d)); now eexists _, _.
  - intros out. split; [apply Hnode | apply Hjava].
  - intros pod container w st. split; intros execResult Hcode Hu.
    + rewrite (node_resolvePortsFromPod_run pod container w st None).
      * reflexivity.
      * fold execResult. rewrite Hcode. cbn [Z.eqb]. now apply Hnode.
    + rewrite (java_resolvePortsFromPod_run pod container w st None).
      * reflexivity.
      * fold execResult. rewrite Hcode. cbn [Z.eqb]. now apply Hjava.
Qed.

Lemma live_process_resolution_is_total_witness :
  length (RegExp.split RegExp.whitespaces (Js.trim "root        17     0")) < 8
  /\ scanRows JavaDockerResolver.resolveCommand 8 ["root        17     0"]
     = Normal None
  /\ code (kubectl Scenario.attachTarget 0
             (JavaDockerResolver.execCmd "mypod" None)) = 0%Z
  /\ unmatched JavaDockerResolver.fullJavaDebugOptsRegExp Scenario.psListing
  /\ fst (run (JavaDockerResolver.resolvePortsFromPod "mypod" None)
            Scenario.attachTarget initial)
     = Normal {| debug := None; app := None |}.
Proof.
  assert (Hlen : length (RegExp.split RegExp.whitespaces
                           (Js.trim "root        17     0")) < 8).
  { apply Nat.ltb_lt. vm_compute. reflexivity. }
  assert (Hun : unmatched JavaDockerResolver.fullJavaDebugOptsRegExp
                  Scenario.psListing).
  { intros row Hin cols Hc. subst cols.
    vm_compute in Hin.
    destruct Hin as [<- | [<- | [<- | []]]]; vm_compute; reflexivity. }
  destruct live_process_resolution_is_total as [Hskip [_ [_ Hno]]].
  split; [exact Hlen |].
  split.
  { rewrite (Hskip JavaDockerResolver.resolveCommand 8
               "root        17     0" [] Hlen).
    reflexivity. }
  split; [reflexivity |].
  split; [exact Hun |].
  destruct (Hno "mypod" None Scenario.attachTarget initial) as [_ Hj].
  rewrite (Hj eq_refl Hun). reflexivity.
Defined.

(** ** The pull policy when the registry user has no colon *)

Lemma split_head_without c a b :
  without c a = true ->
  hd EmptyString (Js.split c (a +++ String c b)) = a.
Proof.
  induction a as [|x a IH]; cbn; intros H.
  - now rewrite Ascii.eqb_refl.
  - apply andb_prop in H. destruct H as [Hx Ha].
    apply negb_true_iff in Hx. rewrite Hx.
    specialize (IH Ha).
    destruct (Js.split c (a +++ String c b)) as [|h t]; cbn in *; now subst.
Qed.

Lemma lastIndexOfFrom_without c s : forall i found,
  without c s = true -> Js.lastIndexOfFrom i c s found = found.
Proof.
  induction s as [|x s IH]; cbn; intros i found H; [reflexivity |].
  apply andb_prop in H. destruct H as [Hx Hs].
  apply negb_true_iff in Hx. rewrite Hx. now apply IH.
Qed.

Lemma lastIndexOfFrom_bounds c s : forall i found,
  (found < i)%Z ->
  let r := Js.lastIndexOfFrom i c s found in
  (r = found \/ (i <= r < i + Z.of_nat (String.length s))%Z).
Proof.
  induction s as [|x s IH]; cbn [Js.lastIndexOfFrom]; intros i found H.
  - now left.
  - destruct (Ascii.eqb x c).
    + destruct (IH (i + 1)%Z i ltac:(lia)) as [-> | Hr];
        right; cbn [String.length]; lia.
    + destruct (IH (i + 1)%Z found ltac:(lia)) as [-> | Hr];
        [now left | right; cbn [String.length]; lia].
Qed.

Lemma lastIndexOfFrom_found c a b : forall i found,
  (found < i)%Z ->
  (i <= Js.lastIndexOfFrom i c (a +++ String c b) found)%Z.
Proof.
  induction a as [|x a IH]; cbn [String.append Js.lastIndexOfFrom];
    intros i found H.
  - rewrite Ascii.eqb_refl.
    destruct (lastIndexOfFrom_bounds c b (i + 1)%Z i ltac:(lia)); lia.
  - destruct (Ascii.eqb x c).
    + specialize (IH (i + 1)%Z i ltac:(lia)). lia.
    + specialize (IH (i + 1)%Z found ltac:(lia)). lia.
Qed.

Lemma substring_nonempty n x s :
  Js.isEmpty (String.substring 0 (S n) (String x s)) = false.
Proof. reflexivity. Qed.

(** The fourth word of the run command: the flag when the image name has
    no slash, the empty word otherwise. *)
Lemma runCmd_pull_policy deploymentName image exposedPorts env :
  nth_error (runCmd deploymentName image exposedPorts env) 3
  = Some (if (Js.lastIndexOf "/" (hd EmptyString (Js.split ":" image)) <? 0)%Z
          then " --image-pull-policy=Never" else EmptyString).
Proof.
  cbv beta zeta iota delta [runCmd Datatypes.app nth_error]. f_equal.
  set (imageName := hd EmptyString (Js.split ":" image)).
  unfold Js.lastIndexOf.
  destruct (lastIndexOfFrom_bounds "/" imageName 0%Z (-1)%Z ltac:(lia))
    as [Hr | Hr]; cbv zeta in Hr.
  - rewrite Hr. unfold Js.substring, Js.clamp. cbn.
    destruct imageName; reflexivity.
  - destruct (Z.ltb_spec (Js.lastIndexOfFrom 0 "/" imageName (-1)) 0); [lia |].
    unfold Js.truthyStr, Js.ofString, Js.truthy, Js.substring, Js.clamp.
    destruct imageName as [|x rest]; [cbn in Hr; lia |].
    cbn [String.length] in *.
    change (Z.to_nat 0) with 0.
    rewrite !Nat.min_0_l, Nat.max_0_l, Nat.sub_0_r.
    destruct (Nat.min (Z.to_nat (Js.lastIndexOfFrom 0 "/" (String x rest) (-1) + 1))
                (S (String.length rest))) as [|n] eqn:E; [lia |].
    reflexivity.
Qed.

(** With a sanitised name and a registry user that has no colon, the run
    command carries the flag exactly when no registry user is configured. *)
Lemma pull_policy_without_registry_port :
  forall deploymentName dockerImageUser name_ version exposedPorts env,
    without ":" name_ = true ->
    without "/" name_ = true ->
    without ":" (Js.show dockerImageUser) = true ->
    nth_error (runCmd deploymentName
                 (imageReference dockerImageUser name_ version)
                 exposedPorts env) 3
    = Some (if Js.truthyStr dockerImageUser then EmptyString
            else " --image-pull-policy=Never").
Proof.
  intros d user name_ version ports env Hn1 Hn2 Hu.
  rewrite runCmd_pull_policy. f_equal. unfold imageReference.
  destruct (Js.truthyStr user).
  - assert (Hw : without ":" (Js.show user +++ "/" +++ name_) = true).
    { revert Hu. generalize (Js.show user). intros u.
      induction u as [|x u IH]; cbn; intros Hu.
      - exact Hn1.
      - apply andb_prop in Hu. destruct Hu as [-> Hu]. now apply IH. }
    replace (Js.show user +++ "/" +++ name_ +++ ":" +++ version)
      with ((Js.show user +++ "/" +++ name_) +++ String ":" version)
      by (rewrite !append_assoc; reflexivity).
    rewrite split_head_without by exact Hw.
    pose proof (lastIndexOfFrom_found "/" (Js.show user) name_ 0%Z (-1)%Z
                  ltac:(lia)) as H.
    unfold Js.lastIndexOf.
    change ("/" +++ name_) with (String "/" name_).
    destruct (Z.ltb_spec (Js.lastIndexOfFrom 0 "/"
                            (Js.show user +++ String "/" name_) (-1)) 0);
      [lia | reflexivity].
  - change (name_ +++ ":" +++ version) with (name_ +++ String ":" version).
    rewrite split_head_without by exact Hn1.
    unfold Js.lastIndexOf. rewrite lastIndexOfFrom_without by exact Hn2.
    reflexivity.
Qed.

Lemma bind_inv {A B} (m : M A) (f : A -> M B) w st b st' :
  bind m f w st = (Normal b, st') ->
  exists a st1, m w st = (Normal a, st1) /\ f a w st1 = (Normal b, st').
Proof.
  unfold bind. destruct (m w st) as [[a | e | ] st1]; intros H;
    try discriminate H.
  now exists a, st1.
Qed.

(** The image that [buildDockerImage] returns is the reference composed of
    the configured user, the sanitised name of the folder and a version. *)
Lemma buildDockerImage_image cwd dockerImageUser w st image st' :
  run (buildDockerImage cwd dockerImageUser) w st = (Normal image, st') ->
  exists version,
    image = imageReference dockerImageUser
              (sanitiseTag w (pathBasename w cwd)) version.
Proof.
  unfold run, buildDockerImage. intros H.
  apply bind_inv in H. destruct H as [name_ [st1 [Hn H]]].
  cbn in Hn. injection Hn as <- <-.
  apply bind_inv in H. destruct H as [version [st2 [_ H]]].
  exists version. unfold imageReference.
  apply bind_inv in H. destruct H as [baseEnv [st3 [_ H]]].
  apply bind_inv in H. destruct H as [shellEnv [st4 [_ H]]].
  apply bind_inv in H. destruct H as [buildResult [st5 [_ H]]].
  destruct (code buildResult =? 0)%Z.
  - apply bind_inv in H. destruct H as [u1 [st6 [_ H]]].
    apply bind_inv in H. destruct H as [u2 [st7 [_ H]]].
    cbn in H. now injection H as <- _.
  - apply bind_inv in H. destruct H as [u1 [st6 [_ H]]].
    apply bind_inv in H. destruct H as [u2 [st7 [_ H]]].
    discriminate H.
Qed.

(** ** The launch as a whole *)

Section Returns.
Variable w : World.

Lemma returns_ret {A} (a : A) (P : A -> Prop) : P a -> returns w (ret a) P.
Proof. intros H st. now exists a, st. Qed.

Lemma returns_bind {A B} (m : M A) (f : A -> M B) (P : A -> Prop)
    (Q : B -> Prop) :
  returns w m P -> (forall a, P a -> returns w (f a) Q) ->
  returns w (bind m f) Q.
Proof.
  intros Hm Hf st. destruct (Hm st) as [a [st1 [Hr Ha]]].
  destruct (Hf a Ha st1) as [b [st2 [Hr2 Hb]]].
  exists b, st2. cbn in *. rewrite Hr. now split.
Qed.

Lemma returns_weaken {A} (m : M A) (P Q : A -> Prop) :
  returns w m P -> (forall a, P a -> Q a) -> returns w m Q.
Proof.
  intros Hm H st. destruct (Hm st) as [a [st' [Hr Ha]]].
  exists a, st'. split; [exact Hr | now apply H].
Qed.

Lemma returns_read {A} (f : World -> A) : returns w (read f) (fun a => a = f w).
Proof. intros st. now exists (f w), st. Qed.

Lemma returns_query {A} (oracle : World -> nat -> A) :
  returns w (query oracle) (fun _ => True).
Proof. intros st. now eexists _, _. Qed.

Lemma returns_ask {A} e (oracle : World -> nat -> A) :
  returns w (ask e oracle) (fun _ => True).
Proof. intros st. now eexists _, _. Qed.

Lemma returns_emit e : returns w (emit e) (fun _ => True).
Proof. intros st. now eexists _, _. Qed.
End Returns.

Lemma java_match_address cmd m :
  RegExp.exec JavaDockerResolver.javaDebugOptsRegExp cmd = Some m ->
  exists g, RegExp.group m 2 = Some g /\ 2 <= length (Js.split "=" g).
Proof.
  intros H. apply exec_sound in H.
  cbv [JavaDockerResolver.javaDebugOptsRegExp RegExp.re RegExp.ignoreCase
       JavaDockerResolver.address RegExp.Lit RegExp.Plus] in H.
  invert_matches.
  match goal with
  | H : RegExp.setCapture 2 (Some ?g) _ = RegExp.caps m |- _ =>
      exists g; split; [cbn [RegExp.group]; rewrite <- H; reflexivity |]
  end.
  cbn [String.append].
  match goal with
  | H : RegExp.charEq true _ "=" = true |- _ =>
      apply charEq_equals in H; subst
  end.
  do 7 (etransitivity; [| apply split_length_cons]).
  apply split_length_sep.
Qed.

Lemma node_resolvePortsFromFile_returns w dockerParser env :
  returns w (NodeDockerResolver.resolvePortsFromFile dockerParser env)
    (fun _ => True).
Proof.
  unfold NodeDockerResolver.resolvePortsFromFile.
  set (debug_ := match searchLaunchArgs dockerParser _ with
                 | Some _ => _ | None => _ end).
  destruct (Js.truthyStr debug_ && _); [| now apply returns_ret].
  destruct (length _ =? 1); [now apply returns_ret |].
  destruct (1 <? length _); [| now apply returns_ret].
  eapply returns_bind; [apply returns_ask |].
  intros picked _.
  destruct (RegExp.exec placeholderRegExp _); now apply returns_ret.
Qed.

Lemma java_resolvePortsFromFile_returns w dockerParser env :
  genuine dockerParser ->
  returns w (JavaDockerResolver.resolvePortsFromFile dockerParser env)
    (fun _ => True).
Proof.
  intros Hg. unfold JavaDockerResolver.resolvePortsFromFile.
  eapply returns_bind with (P := fun _ => True).
  - destruct (searchLaunchArgs dockerParser
                JavaDockerResolver.javaDebugOptsRegExp) as [m|] eqn:E.
    + destruct (Hg _ _ E) as [text Ht].
      destruct (java_match_address text m Ht) as [g [Hm Hl]].
      unfold JavaDockerResolver.debugPortOf. rewrite Hm.
      cbn [member obind].
      destruct (Js.split "=" g) as [|x [|y l]]; cbn in Hl; try lia.
      cbn [nth_error member obind].
      intros st. now eexists _, _.
    + destruct (searchLaunchArgs dockerParser JavaDockerResolver.javaOptsRegExp);
        now apply returns_ret.
  - intros [debug_ env1] _.
    destruct (Js.truthyStr debug_ && _); [| now apply returns_ret].
    destruct (length _ =? 1); [now apply returns_ret |].
    destruct (1 <? length _); [| now apply returns_ret].
    eapply returns_bind; [apply returns_ask |].
    intros picked _.
    destruct (RegExp.exec placeholderRegExp _); now apply returns_ret.
Qed.

Lemma java_isDebuggerInstalled_returns w :
  returns w JavaDebugProvider.isDebuggerInstalled (fun _ => True).
Proof.
  unfold JavaDebugProvider.isDebuggerInstalled.
  eapply returns_bind; [apply returns_read |].
  intros installed _. destruct installed; [now apply returns_ret |].
  eapply returns_bind; [apply returns_ask |].
  intros answer _.
  eapply returns_bind with (P := fun _ => True); [| intros; now apply returns_ret].
  destruct answer; [| now apply returns_ret].
  eapply returns_bind; [apply returns_read |]. intros cli _.
  eapply returns_bind; [apply returns_ask |]. intros shellResult _.
  destruct (code shellResult =? 0)%Z; [| now apply returns_ret].
  eapply returns_bind; [apply returns_ask |]. intros restartAns _.
  destruct restartAns; [apply returns_emit | now apply returns_ret].
Qed.

Lemma getDebugProvider_returns w baseImage :
  returns w (ProviderRegistry.getDebugProvider baseImage)
    (fun p => match p with
              | Some p => p = JavaDebugProvider.provider
                          \/ p = NodeDebugProvider.provider
              | None => True
              end).
Proof.
  unfold ProviderRegistry.getDebugProvider.
  assert (Hpick : returns w ProviderRegistry.showProviderPick
                    (fun p => match p with
                              | Some p => p = JavaDebugProvider.provider
                                          \/ p = NodeDebugProvider.provider
                              | None => True
                              end)).
  { unfold ProviderRegistry.showProviderPick.
    eapply returns_bind; [apply returns_ask |].
    intros [[|[|i]]|] _; apply returns_ret; cbn; auto.
    destruct i; exact I. }
  destruct (Js.truthyStr baseImage); [| exact Hpick].
  cbn [find ProviderRegistry.supportedProviders].
  destruct (isSupportedImage (getDockerResolver JavaDebugProvider.provider) _);
    [apply returns_ret; now left |].
  destruct (isSupportedImage (getDockerResolver NodeDebugProvider.provider) _);
    [apply returns_ret; now right | exact Hpick].
Qed.

Lemma launchResolved_returns w polls debugProvider cwd dockerImageUser portInfo
    containerEnv :
  returns w (launchResolved polls debugProvider cwd dockerImageUser portInfo
               containerEnv) (fun _ => True).
Proof.
  intros st. unfold launchResolved, run.
  destruct (negb (Js.truthyStr (debug portInfo))); [now eexists _, _ |].
  cbn -[launchFlow].
  destruct (negb (Js.truthyStr (app portInfo)) || _); [now eexists _, _ |].
  unfold withProgress.
  destruct (launchFlow polls debugProvider cwd dockerImageUser portInfo
              containerEnv w st).
  now eexists _, _.
Qed.

(** When the parser of the build file is constructed, and answers with
    matches of the patterns, [launchDebug] returns to its caller in every
    host: none of its steps throws. *)
Lemma launchDebug_returns w polls workspaceFolder :
  (forall folder, workspaceFolder = Some folder ->
     exists parser,
       newDockerfileParser w (pathJoin w (fsPath folder) "Dockerfile")
       = inl parser
       /\ genuine parser) ->
  returns w (launchDebug polls workspaceFolder) (fun _ => True).
Proof.
  intros Hg. unfold launchDebug.
  destruct workspaceFolder as [folder|]; [| now apply returns_ret].
  destruct (Hg folder eq_refl) as [dockerParser [Hc Hgen]].
  eapply returns_bind; [apply returns_read |]. intros dockerfilePath ->.
  eapply returns_bind; [apply returns_query |]. intros found _.
  destruct (negb found); [apply returns_emit |].
  eapply returns_bind; [apply returns_read |]. intros constructed_ ->.
  cbn beta. rewrite Hc.
  eapply returns_bind with (P := fun p => p = dockerParser).
  { intros st. now exists dockerParser, st. }
  intros ? ->.
  eapply returns_bind; [apply getDebugProvider_returns |].
  intros [debugProvider|] Hp; [| now apply returns_ret].
  eapply returns_bind with (P := fun _ => True).
  { destruct Hp as [-> | ->];
      [apply java_isDebuggerInstalled_returns | apply returns_query]. }
  intros installed _. destruct (negb installed); [now apply returns_ret |].
  eapply returns_bind; [apply returns_read |]. intros dockerImageUser _.
  eapply returns_bind with (P := fun _ => True).
  { destruct Hp as [-> | ->];
      [apply java_resolvePortsFromFile_returns, Hgen
      | apply node_resolvePortsFromFile_returns]. }
  intros r _. apply launchResolved_returns.
Qed.

(** A build file that is there and cannot be read: the construction of
    its parser throws, and [launchDebug] with it. *)
Lemma launchDebug_throws w polls folder error st :
  existsSync w (tick st) (pathJoin w (fsPath folder) "Dockerfile") = true ->
  newDockerfileParser w (pathJoin w (fsPath folder) "Dockerfile")
  = inr error ->
  run (launchDebug polls (Some folder)) w st
  = (Thrown error, {| tick := S (tick st); trace := trace st |}).
Proof.
  intros He Hc. unfold launchDebug, run.
  cbn [bind read query lift tick]. rewrite He.
  cbn [negb bind read lift]. rewrite Hc. reflexivity.
Qed.

Lemma dockerfile_genuine baseImage exposed launch :
  genuine (Scenario.dockerfile baseImage exposed launch).
Proof.
  intros p m. cbn.
  induction launch as [|l launch IH]; cbn; [discriminate |].
  destruct (RegExp.exec p l) as [m'|] eqn:E; [| exact IH].
  intros H. injection H as <-. now exists l.
Qed.

(** C7.  [deleteResource] logs a delete command that exits with a code
    other than zero and returns; two deletions of the same resource in a
    row return; the task of the launch flow never ends with an exception,
    whatever fails inside it, and [launchDebug], from the validation of the
    resolved ports on, always returns to its caller.  So does the whole of
    [launchDebug] once the parser of the build file is constructed, a
    parser that answers with matches of the patterns that it is given;
    what the construction of the parser throws, ahead of the task,
    reaches the caller. *)
Theorem cleanup_is_best_effort :
  forall resourceId w st,
    (code (kubectl w (tick st) ("delete " +++ resourceId)) <> 0%Z ->
     run (deleteResource resourceId) w st
     = (Normal tt,
        {| tick := S (tick st);
           trace := trace st ++
             [KubectlInvoke ("delete " +++ resourceId);
              ShowOutput
                ("Kubectl command failed: "
                 +++ stderr (kubectl w (tick st) ("delete " +++ resourceId)))
                (Some "Delete debug resource")] |}))
    /\ (exists st',
           run (deleteResource resourceId ;;; deleteResource resourceId) w st
           = (Normal tt, st'))
    /\ (forall polls debugProvider cwd dockerImageUser portInfo containerEnv,
           (forall error,
               fst (run (launchFlow polls debugProvider cwd dockerImageUser
                           portInfo containerEnv) w st) <> Thrown error)
           /\ fst (run (launchResolved polls debugProvider cwd dockerImageUser
                          portInfo containerEnv) w st) = Normal tt)
    /\ (forall polls folder parser,
           newDockerfileParser w (pathJoin w (fsPath folder) "Dockerfile")
           = inl parser ->
           genuine parser ->
           fst (run (launchDebug polls (Some folder)) w st) = Normal tt)
    /\ (forall polls folder error,
           existsSync w (tick st) (pathJoin w (fsPath folder) "Dockerfile")
           = true ->
           newDockerfileParser w (pathJoin w (fsPath folder) "Dockerfile")
           = inr error ->
           fst (run (launchDebug polls (Some folder)) w st) = Thrown error).
Proof.
  intros resourceId w st. split; [| split; [| split; [| split]]].
  - intros Hcode. unfold deleteResource. cbn -[String.append].
    apply Z.eqb_neq in Hcode. rewrite Hcode. cbn -[String.append Datatypes.app].
    rewrite <- app_assoc. reflexivity.
  - destruct (deleteResource_returns resourceId w st) as [st1 [H1 _]].
    destruct (deleteResource_returns resourceId w st1) as [st2 [H2 _]].
    exists st2. cbn -[deleteResource] in *. rewrite H1. exact H2.
  - intros polls p cwd user pinfo env. split.
    + intros error. unfold launchFlow.
      apply tryCatchWith_not_thrown.
      intros a e w' st'.
      destruct (onLaunchError_returns a e w' st') as [st'' Hr].
      exists tt, st''. exact Hr.
    + unfold launchResolved.
      destruct (negb (Js.truthyStr (debug pinfo))); [reflexivity |].
      cbn -[launchFlow].
      destruct (negb (Js.truthyStr (app pinfo))
                || negb (numberIsInteger w (Js.show (app pinfo))));
        [reflexivity |].
      unfold withProgress.
      destruct (launchFlow polls p cwd user pinfo env w st). reflexivity.
  - intros polls folder parser Hc Hg.
    destruct (launchDebug_returns w polls (Some folder)) with (st := st)
      as [[] [st' [Hr _]]].
    + intros f Hf. injection Hf as <-. now exists parser.
    + now rewrite Hr.
  - intros polls folder error He Hc.
    now rewrite (launchDebug_throws w polls folder error st He Hc).
Qed.

Lemma cleanup_is_best_effort_witness :
  code (kubectl Scenario.noDelete 0 "delete deployment/app-debug-1") <> 0%Z
  /\ run (deleteResource "deployment/app-debug-1") Scenario.noDelete initial
     = (Normal tt,
        {| tick := 1;
           trace := [KubectlInvoke "delete deployment/app-debug-1";
                     ShowOutput "Kubectl command failed: not found"
                       (Some "Delete debug resource")] |})
  /\ newDockerfileParser Scenario.noDelete "/work/app/Dockerfile"
     = inl Scenario.debugOnlyFile
  /\ genuine Scenario.debugOnlyFile
  /\ fst (run (launchDebug 5 (Some Scenario.folder)) Scenario.noDelete initial)
     = Normal tt.
Proof.
  assert (H : code (kubectl Scenario.noDelete 0 "delete deployment/app-debug-1")
              <> 0%Z) by (cbn; discriminate).
  pose proof (cleanup_is_best_effort "deployment/app-debug-1"
                Scenario.noDelete initial) as [H1 [_ [_ [H4 _]]]].
  split; [exact H |].
  split; [exact (H1 H) |].
  split; [reflexivity |].
  split; [apply dockerfile_genuine |].
  exact (H4 5 Scenario.folder Scenario.debugOnlyFile eq_refl
           (dockerfile_genuine _ _ _)).
Defined.

(** C7, as it is worded, fails.  The build file of the workspace is there
    and cannot be read: the parser is constructed ahead of the [try] block
    of the flow, and what its construction throws is what the caller of
    [launchDebug] gets; nothing is reported and nothing is cleaned up. *)
Lemma launch_failure_reaches_caller :
  run (launchDebug 5 (Some Scenario.folder)) Scenario.unreadable initial
  = (Thrown "Error: EISDIR: illegal operation on a directory, read",
     {| tick := 1; trace := [] |}).
Proof. vm_compute. reflexivity. Qed.

(** ** The embedding at work on the examples of the design document *)

Example node_bare_inspect :
  fst (run (NodeDockerResolver.resolvePortsFromFile
              (Scenario.dockerfile "node:8" [] ["node --inspect index.js"]) [])
         Scenario.debugOnly initial)
  = Normal ({| debug := Some "9229"; app := None |}, []).
Proof. vm_compute. reflexivity. Qed.

Example node_bare_debug :
  fst (run (NodeDockerResolver.resolvePortsFromFile
              (Scenario.dockerfile "node:8" [] ["node --debug index.js"]) [])
         Scenario.debugOnly initial)
  = Normal ({| debug := Some "5858"; app := None |}, []).
Proof. vm_compute. reflexivity. Qed.

Example node_explicit_address :
  fst (run (NodeDockerResolver.resolvePortsFromFile
              (Scenario.dockerfile "node:8" []
                 ["node --inspect=0.0.0.0:9230 index.js"]) [])
         Scenario.debugOnly initial)
  = Normal ({| debug := Some "9230"; app := None |}, []).
Proof. vm_compute. reflexivity. Qed.

Example node_single_candidate :
  run (NodeDockerResolver.resolvePortsFromFile
         (Scenario.dockerfile "node:8" ["5858"; "3000"]
            ["node --debug index.js"]) [])
    Scenario.debugOnly initial
  = (Normal ({| debug := Some "5858"; app := Some "3000" |}, []), initial).
Proof. vm_compute. reflexivity. Qed.

Example node_placeholder_candidate :
  fst (run (NodeDockerResolver.resolvePortsFromFile
              (Scenario.dockerfile "node:8" ["5858"; "${PORT}"; "4000"]
                 ["node --debug index.js"]) [])
         Scenario.twoCandidates initial)
  = Normal ({| debug := Some "5858"; app := Some "9000" |}, [("PORT", "9000")]).
Proof. vm_compute. reflexivity. Qed.

Example java_end_to_end :
  run (JavaDockerResolver.resolvePortsFromFile
         Scenario.appFile []) Scenario.debugOnly initial
  = (Normal ({| debug := Some "5005"; app := Some "8080" |}, []), initial).
Proof. vm_compute. reflexivity. Qed.

Example java_opts_placeholder :
  fst (run (JavaDockerResolver.resolvePortsFromFile
              (Scenario.dockerfile "openjdk:8" [] ["java $JAVA_OPTS -jar app.jar"])
              []) Scenario.debugOnly initial)
  = Normal ({| debug := Some "5005"; app := None |},
            [("JAVA_OPTS",
              "-agentlib:jdwp=transport=dt_socket,server=y,suspend=n,address=5005,quiet=y")]).
Proof. vm_compute. reflexivity. Qed.

Example node_live_process :
  fst (run (NodeDockerResolver.resolvePortsFromPod "mypod" None)
         Scenario.attachTarget initial)
  = Normal {| debug := Some "9229"; app := None |}.
Proof. vm_compute. reflexivity. Qed.

Example java_live_fallback :
  fst (run (JavaDockerResolver.resolvePortsFromPod "mypod" None)
         (Scenario.host Scenario.appFile None
            (fun _ => Scenario.ok Scenario.psListing) None (Some " 9229 ")
            true []) initial)
  = Normal {| debug := Some "9229"; app := None |}.
Proof. vm_compute. reflexivity. Qed.

Example pod_status_column :
  nth_error (RegExp.split RegExp.whitespaces
               "app-pod   0/1   ContainerCreating   0   1s") 2
  = Some "ContainerCreating".
Proof. vm_compute. reflexivity. Qed.

Example docker_host_of_server :
  RegExp.replace portSuffixRegExp ":2376"
    (RegExp.replace schemeRegExp "tcp:" "https://192.168.99.100:8443")
  = "tcp://192.168.99.100:2376".
Proof. vm_compute. reflexivity. Qed.

(** * Further properties of the sources *)

(** ** Splitting at a character *)

Lemma split_single c p : without c p = true -> Js.split c p = [p].
Proof.
  induction p as [|x p IH]; cbn; intros H; [reflexivity |].
  apply andb_prop in H. destruct H as [Hx Hp].
  apply negb_true_iff in Hx. rewrite Hx, (IH Hp). reflexivity.
Qed.

Lemma split_snoc c pre p :
  without c p = true ->
  exists l, l <> [] /\ Js.split c (pre +++ String c p) = l ++ [p].
Proof.
  intros Hp. induction pre as [|x pre IH]; cbn.
  - rewrite Ascii.eqb_refl, (split_single c p Hp).
    exists [EmptyString]. split; [discriminate | reflexivity].
  - destruct IH as [l [Hl IH]]. rewrite IH.
    destruct (Ascii.eqb x c).
    + exists (EmptyString :: l). split; [discriminate | reflexivity].
    + destruct l as [|h l]; [contradiction |]. cbn.
      exists (String x h :: l). split; [discriminate | reflexivity].
Qed.

Lemma lastElement_snoc l (p : string) : lastElement (l ++ [p]) = Some p.
Proof.
  unfold lastElement. rewrite length_app. cbn.
  replace (length l + 1 - 1) with (length l) by lia.
  rewrite nth_error_app2 by lia. now rewrite Nat.sub_diag.
Qed.

Lemma split_two c a b :
  without c a = true -> without c b = true ->
  Js.split c (a +++ String c b) = [a; b].
Proof.
  intros Ha Hb. induction a as [|x a IH]; cbn.
  - now rewrite Ascii.eqb_refl, (split_single c b Hb).
  - cbn in Ha. apply andb_prop in Ha. destruct Ha as [Hx Ha].
    apply negb_true_iff in Hx. rewrite Hx, (IH Ha). reflexivity.
Qed.

Lemma substring_whole s : String.substring 0 (String.length s) s = s.
Proof. induction s as [|x s IH]; cbn; [reflexivity | now rewrite IH]. Qed.

Lemma substringFrom_tail x s : Js.substringFrom 1 (String x s) = s.
Proof.
  unfold Js.substringFrom, Js.substring, Js.clamp. cbn [String.length].
  rewrite Nat2Z.id.
  change (Z.to_nat 1) with 1.
  rewrite Nat.min_id.
  replace (Nat.min 1 (S (String.length s))) with 1 by lia.
  replace (Nat.min 1 (S (String.length s))) with 1 by lia.
  replace (Nat.max 1 (S (String.length s))) with (S (String.length s)) by lia.
  cbn. rewrite Nat.sub_0_r. apply substring_whole.
Qed.

Lemma truthyStr_cons x s : Js.truthyStr (Some (String x s)) = true.
Proof. reflexivity. Qed.
(** ** The debug port read from the build file *)

Lemma node_resolvePortsFromFile_debug dockerParser env w st :
  exists portInfo env' st',
    run (NodeDockerResolver.resolvePortsFromFile dockerParser env) w st
    = (Normal (portInfo, env'), st')
    /\ debug portInfo
       = match searchLaunchArgs dockerParser
                 NodeDockerResolver.nodeDebugOptsRegExp with
         | Some nodeCmd =>
             NodeDockerResolver.debugPortOf (RegExp.group nodeCmd 2)
               (RegExp.group nodeCmd 3)
         | None => None
         end.
Proof.
  unfold NodeDockerResolver.resolvePortsFromFile.
  set (debug_ := match searchLaunchArgs dockerParser _ with
                 | Some _ => _ | None => _ end).
  destruct (Js.truthyStr debug_ && _); [| now eexists _, _, _].
  destruct (length _ =? 1); [now eexists _, _, _ |].
  destruct (1 <? length _); [| now eexists _, _, _].
  cbn -[RegExp.exec placeholderRegExp filter].
  destruct (RegExp.exec placeholderRegExp _); now eexists _, _, _.
Qed.

Lemma node_debugPortOf_address flag hosts p :
  without ":" p = true ->
  NodeDockerResolver.debugPortOf flag (Some ("=" +++ p)) = Some p
  /\ NodeDockerResolver.debugPortOf flag (Some ("=" +++ hosts +++ ":" +++ p))
     = Some p.
Proof.
  intros Hp. unfold NodeDockerResolver.debugPortOf.
  change ("=" +++ p) with (String "=" p).
  change ("=" +++ hosts +++ ":" +++ p) with (String "=" (hosts +++ String ":" p)).
  rewrite !truthyStr_cons. cbn [negb Js.show].
  rewrite !substringFrom_tail. split.
  - rewrite (split_single ":" p Hp). reflexivity.
  - destruct (split_snoc ":" hosts p Hp) as [l [_ ->]].
    apply lastElement_snoc.
Qed.

(** X1.  The node resolver and a debug flag with an address in the build
    file: whatever the flag and however many segments separated by colons
    come first, the debug port is the text after the last colon of the
    address (the whole address when it has no colon). *)
Theorem node_file_address_port :
  forall dockerParser env w st nodeCmd hosts p,
    searchLaunchArgs dockerParser NodeDockerResolver.nodeDebugOptsRegExp
    = Some nodeCmd ->
    RegExp.group nodeCmd 3 = Some ("=" +++ p)
    \/ RegExp.group nodeCmd 3 = Some ("=" +++ hosts +++ ":" +++ p) ->
    without ":" p = true ->
    exists portInfo env' st',
      run (NodeDockerResolver.resolvePortsFromFile dockerParser env) w st
      = (Normal (portInfo, env'), st')
      /\ debug portInfo = Some p.
Proof.
  intros dp env w st m hosts p Hs Hg Hp.
  destruct (node_resolvePortsFromFile_debug dp env w st)
    as [pinfo [env' [st' [Hr Hd]]]].
  exists pinfo, env', st'. split; [exact Hr |].
  rewrite Hd, Hs.
  destruct (node_debugPortOf_address (RegExp.group m 2) hosts p Hp) as [H1 H2].
  destruct Hg as [-> | ->]; assumption.
Qed.

Lemma node_file_address_port_witness :
  without ":" "9230" = true
  /\ exists nodeCmd,
       searchLaunchArgs
         (Scenario.dockerfile "node:8" []
            ["node --inspect=[::1]:9230 index.js"])
         NodeDockerResolver.nodeDebugOptsRegExp = Some nodeCmd
       /\ RegExp.group nodeCmd 3 = Some ("=" +++ "[::1]" +++ ":" +++ "9230")
       /\ exists portInfo env' st',
            run (NodeDockerResolver.resolvePortsFromFile
                   (Scenario.dockerfile "node:8" []
                      ["node --inspect=[::1]:9230 index.js"]) [])
              Scenario.debugOnly initial
            = (Normal (portInfo, env'), st')
            /\ debug portInfo = Some "9230".
Proof.
  split; [reflexivity |].
  destruct (searchLaunchArgs
              (Scenario.dockerfile "node:8" []
                 ["node --inspect=[::1]:9230 index.js"])
              NodeDockerResolver.nodeDebugOptsRegExp) as [nodeCmd|] eqn:E;
    [| vm_compute in E; discriminate E].
  assert (Hg : RegExp.group nodeCmd 3
               = Some ("=" +++ "[::1]" +++ ":" +++ "9230")).
  { vm_compute in E. injection E as <-. reflexivity. }
  exists nodeCmd. split; [reflexivity |]. split; [exact Hg |].
  exact (node_file_address_port _ [] Scenario.debugOnly initial nodeCmd
           "[::1]" "9230" E (or_intror Hg) eq_refl).
Defined.

Lemma java_resolvePortsFromFile_debug dockerParser env w st portInfo env' st' :
  run (JavaDockerResolver.resolvePortsFromFile dockerParser env) w st
  = (Normal (portInfo, env'), st') ->
  match searchLaunchArgs dockerParser JavaDockerResolver.javaDebugOptsRegExp with
  | Some matches => JavaDockerResolver.debugPortOf matches
                    = Normal (debug portInfo)
  | None =>
      debug portInfo
      = match searchLaunchArgs dockerParser JavaDockerResolver.javaOptsRegExp with
        | Some _ => Some JavaDockerResolver.defaultJavaDebugPort
        | None => None
        end
  end.
Proof.
  unfold JavaDockerResolver.resolvePortsFromFile, run. intros H.
  apply bind_inv in H. destruct H as [[debug_ env1] [st1 [H1 H]]].
  assert (Hd : debug portInfo = debug_).
  { destruct (Js.truthyStr debug_ && _); [| now injection H as <- _ _].
    destruct (length _ =? 1); [now injection H as <- _ _ |].
    destruct (1 <? length _); [| now injection H as <- _ _].
    apply bind_inv in H. destruct H as [picked [st2 [_ H]]].
    destruct (RegExp.exec placeholderRegExp _); now injection H as <- _ _. }
  rewrite Hd. clear H Hd.
  destruct (searchLaunchArgs dockerParser JavaDockerResolver.javaDebugOptsRegExp)
    as [m|].
  - apply bind_inv in H1. destruct H1 as [d [st2 [Hl H1]]].
    cbn in H1. injection H1 as <- _ _.
    cbn in Hl. destruct (JavaDockerResolver.debugPortOf m);
      try discriminate Hl. now injection Hl as <-.
  - destruct (searchLaunchArgs dockerParser JavaDockerResolver.javaOptsRegExp);
      cbn in H1; now injection H1 as <- _ _.
Qed.

(** X2.  The java resolver and an agent flag with an address in the build
    file: when the second group of the match is [address=] followed by a
    value without equals sign, the resolution returns, and its debug port is
    the text after the last colon of the value (the whole value when it has
    no colon). *)
Theorem java_file_address_port :
  forall dockerParser env w st matches hosts p,
    searchLaunchArgs dockerParser JavaDockerResolver.javaDebugOptsRegExp
    = Some matches ->
    RegExp.group matches 2 = Some ("address=" +++ p)
    \/ (RegExp.group matches 2 = Some ("address=" +++ hosts +++ ":" +++ p)
        /\ without "=" hosts = true) ->
    without ":" p = true ->
    without "=" p = true ->
    exists portInfo env' st',
      run (JavaDockerResolver.resolvePortsFromFile dockerParser env) w st
      = (Normal (portInfo, env'), st')
      /\ debug portInfo = Some p.
Proof.
  intros dp env w st m hosts p Hs Hg Hc He.
  assert (Hd : JavaDockerResolver.debugPortOf m = Normal (Some p)).
  { unfold JavaDockerResolver.debugPortOf.
    destruct Hg as [-> | [-> Hh]]; cbn [member obind].
    - change ("address=" +++ p) with ("address" +++ String "=" p).
      rewrite (split_two "=" "address" p eq_refl He).
      cbn [nth_error member obind]. rewrite (split_single ":" p Hc).
      reflexivity.
    - change ("address=" +++ hosts +++ ":" +++ p)
        with ("address" +++ String "=" (hosts +++ String ":" p)).
      rewrite (split_two "=" "address" (hosts +++ String ":" p) eq_refl).
      + cbn [nth_error member obind].
        destruct (split_snoc ":" hosts p Hc) as [l [_ ->]].
        now rewrite lastElement_snoc.
      + clear -Hh He. induction hosts as [|x hosts IH]; cbn in *.
        * exact He.
        * apply andb_prop in Hh. destruct Hh as [-> Hh]. now apply IH. }
  assert (Hr : returns w (JavaDockerResolver.resolvePortsFromFile dp env)
                 (fun r => debug (fst r) = Some p)).
  { unfold JavaDockerResolver.resolvePortsFromFile.
    eapply returns_bind with (P := fun x => fst x = Some p).
    - rewrite Hs, Hd. intros st0. now eexists _, _.
    - intros [debug_ env1] Hx. cbn in Hx. subst debug_.
      destruct (Js.truthyStr (Some p) && _); [| now apply returns_ret].
      destruct (length _ =? 1); [now apply returns_ret |].
      destruct (1 <? length _); [| now apply returns_ret].
      eapply returns_bind; [apply returns_ask |].
      intros picked _.
      destruct (RegExp.exec placeholderRegExp _); now apply returns_ret. }
  destruct (Hr st) as [[pinfo env'] [st' [Hrun Hdebug]]].
  now exists pinfo, env', st'.
Qed.

Lemma java_file_address_port_witness :
  without ":" "5006" = true
  /\ without "=" "5006" = true
  /\ without "=" "0.0.0.0" = true
  /\ exists matches,
       searchLaunchArgs
         (Scenario.dockerfile "openjdk:8" []
            ["java -Xrunjdwp:transport=dt_socket,address=0.0.0.0:5006 -jar a.jar"])
         JavaDockerResolver.javaDebugOptsRegExp = Some matches
       /\ RegExp.group matches 2
          = Some ("address=" +++ "0.0.0.0" +++ ":" +++ "5006")
       /\ exists portInfo env' st',
            run (JavaDockerResolver.resolvePortsFromFile
                   (Scenario.dockerfile "openjdk:8" []
                      ["java -Xrunjdwp:transport=dt_socket,address=0.0.0.0:5006 -jar a.jar"])
                   []) Scenario.debugOnly initial
            = (Normal (portInfo, env'), st')
            /\ debug portInfo = Some "5006".
Proof.
  split; [reflexivity |]. split; [reflexivity |]. split; [reflexivity |].
  destruct (searchLaunchArgs
              (Scenario.dockerfile "openjdk:8" []
                 ["java -Xrunjdwp:transport=dt_socket,address=0.0.0.0:5006 -jar a.jar"])
              JavaDockerResolver.javaDebugOptsRegExp) as [matches|] eqn:E;
    [| vm_compute in E; discriminate E].
  assert (Hg : RegExp.group matches 2
               = Some ("address=" +++ "0.0.0.0" +++ ":" +++ "5006")).
  { vm_compute in E. injection E as <-. reflexivity. }
  exists matches. split; [reflexivity |]. split; [exact Hg |].
  exact (java_file_address_port _ [] Scenario.debugOnly initial matches
           "0.0.0.0" "5006" E (or_intror (conj Hg eq_refl)) eq_refl eq_refl).
Defined.

(** ** The application port read from the build file *)

Lemma indexOfFrom_spec l x : forall i,
  (0 <= i)%Z ->
  (Js.indexOfFrom i l x = (-1)%Z /\ ~ In x l)
  \/ ((i <= Js.indexOfFrom i l x)%Z /\ In x l).
Proof.
  induction l as [|y l IH]; intros i Hi; cbn.
  - left. split; [reflexivity | tauto].
  - destruct (String.eqb y x) eqn:E.
    + apply String.eqb_eq in E. right. split; [lia | now left].
    + apply String.eqb_neq in E.
      destruct (IH (i + 1)%Z ltac:(lia)) as [[H1 H2] | [H1 H2]].
      * left. split; [exact H1 | intros [H | H]; tauto].
      * right. split; [lia | now right].
Qed.

Lemma indexOf_absent l x :
  (Js.indexOf l x =? -1)%Z = true -> ~ In x l.
Proof.
  intros H. apply Z.eqb_eq in H. unfold Js.indexOf in H.
  destruct (indexOfFrom_spec l x 0%Z ltac:(lia)) as [[_ H2] | [H1 _]];
    [exact H2 | lia].
Qed.

Lemma truthyStr_show o : Js.truthyStr o = true -> o = Some (Js.show o).
Proof. destruct o; [reflexivity | discriminate]. Qed.

(** X3.  The node resolver on a build file.  The resolution returns; it
    asks at most one question, a quick pick among two or more exposed
    ports; an application port is only returned next to a debug port, and
    it is either the default 9000 that stands for a variable (recorded in
    the environment) or an exposed port other than 9229, 5858 and the debug
    port itself. *)
Theorem node_app_port_choice :
  forall dockerParser env w st,
  exists portInfo env' st',
    run (NodeDockerResolver.resolvePortsFromFile dockerParser env) w st
    = (Normal (portInfo, env'), st')
    /\ (st' = st
        \/ exists candidates,
             2 <= length candidates
             /\ incl candidates (getExposedPorts dockerParser)
             /\ st' = {| tick := S (tick st);
                         trace := trace st ++
                           [ShowQuickPick candidates
                              "Please select the app port exposed at Dockerfile"] |})
    /\ (env' = env
        \/ exists varName,
             env' = setKey varName "9000" env /\ app portInfo = Some "9000")
    /\ (forall a,
           app portInfo = Some a ->
           Js.truthyStr (debug portInfo) = true
           /\ (a = "9000"
               \/ (In a (getExposedPorts dockerParser)
                   /\ a <> "9229" /\ a <> "5858"
                   /\ debug portInfo <> Some a))).
Proof.
  intros dp env w st.
  unfold NodeDockerResolver.resolvePortsFromFile.
  set (debug_ := match searchLaunchArgs dp _ with
                 | Some _ => _ | None => _ end).
  set (possiblePorts := filter _ (getExposedPorts dp)).
  assert (Hin : forall a, In a possiblePorts ->
                  In a (getExposedPorts dp)
                  /\ a <> "9229" /\ a <> "5858" /\ a <> Js.show debug_).
  { intros a Ha. apply filter_In in Ha. destruct Ha as [Ha Hx].
    apply indexOf_absent in Hx. split; [exact Ha |].
    repeat split; intros ->; apply Hx; cbn; tauto. }
  destruct (Js.truthyStr debug_) eqn:Hd; cbn [andb];
    [| eexists _, _, _; split; [reflexivity |];
       split; [now left |]; split; [now left |]; intros a Ha; discriminate Ha].
  destruct (negb (length (getExposedPorts dp) =? 0));
    [| eexists _, _, _; split; [reflexivity |];
       split; [now left |]; split; [now left |]; intros a Ha; discriminate Ha].
  destruct (length possiblePorts =? 1) eqn:H1.
  - eexists _, _, _. split; [reflexivity |].
    split; [now left |]. split; [now left |].
    intros a Ha. cbn in Ha. split; [exact Hd |]. right.
    assert (Ha' : In a possiblePorts).
    { destruct possiblePorts as [|x l]; [discriminate Ha |].
      injection Ha as <-. now left. }
    destruct (Hin a Ha') as [? [? [? Hn]]].
    repeat split; try assumption.
    cbn. intros E. rewrite E in Hn. now apply Hn.
  - destruct (1 <? length possiblePorts) eqn:H2;
      [| eexists _, _, _; split; [reflexivity |];
         split; [now left |]; split; [now left |];
         intros a Ha; discriminate Ha].
    apply Nat.ltb_lt in H2.
    cbn -[RegExp.exec placeholderRegExp].
    assert (Hq : exists candidates,
               2 <= length candidates /\
               incl candidates (getExposedPorts dp) /\
               {| tick := S (tick st);
                  trace := trace st ++
                    [ShowQuickPick possiblePorts
                       "Please select the app port exposed at Dockerfile"] |}
               = {| tick := S (tick st);
                    trace := trace st ++
                      [ShowQuickPick candidates
                         "Please select the app port exposed at Dockerfile"] |}).
    { exists possiblePorts. split; [lia |]. split; [| reflexivity].
      intros a Ha. now apply Hin. }
    destruct (RegExp.exec placeholderRegExp _) as [m|].
    + eexists _, _, _. split; [reflexivity |].
      split; [right; exact Hq |].
      split; [right; eexists; split; reflexivity |].
      intros a Ha. cbn in Ha. injection Ha as <-.
      split; [exact Hd | now left].
    + eexists _, _, _. split; [reflexivity |].
      split; [right; exact Hq |]. split; [now left |].
      intros a Ha. discriminate Ha.
Qed.
(** X4.  The java resolver on a build file.  Whenever the resolution
    returns, it has asked at most one question, a quick pick among two or
    more exposed ports; an application port is only returned next to a debug
    port, and it is either the default 9000 that stands for a variable or an
    exposed port other than the debug port. *)
Theorem java_app_port_choice :
  forall dockerParser env w st portInfo env' st',
    run (JavaDockerResolver.resolvePortsFromFile dockerParser env) w st
    = (Normal (portInfo, env'), st') ->
    (st' = st
     \/ exists candidates,
          2 <= length candidates
          /\ incl candidates (getExposedPorts dockerParser)
          /\ st' = {| tick := S (tick st);
                      trace := trace st ++
                        [ShowQuickPick candidates
                           "Please select the app port exposed at Dockerfile"] |})
    /\ (forall a,
           app portInfo = Some a ->
           Js.truthyStr (debug portInfo) = true
           /\ (a = JavaDockerResolver.defaultJavaAppPort
               \/ (In a (getExposedPorts dockerParser)
                   /\ debug portInfo <> Some a))).
Proof.
  intros dp env w st portInfo env' st'.
  unfold JavaDockerResolver.resolvePortsFromFile, run. intros H.
  apply bind_inv in H. destruct H as [[debug_ env1] [st1 [H1 H]]].
  assert (Hst : st1 = st).
  { destruct (searchLaunchArgs dp JavaDockerResolver.javaDebugOptsRegExp).
    - apply bind_inv in H1. destruct H1 as [d [st2 [Hl H1]]].
      cbn in H1. injection H1 as _ _ <-.
      cbn in Hl. destruct (JavaDockerResolver.debugPortOf m);
        try discriminate Hl. now injection Hl as _ <-.
    - destruct (searchLaunchArgs dp JavaDockerResolver.javaOptsRegExp);
        cbn in H1; now injection H1 as _ _ <-. }
  subst st1. clear H1.
  set (possiblePorts := filter _ (getExposedPorts dp)) in H.
  assert (Hin : forall a, In a possiblePorts ->
                  In a (getExposedPorts dp) /\ a <> Js.show debug_).
  { intros a Ha. apply filter_In in Ha. destruct Ha as [Ha Hx].
    apply indexOf_absent in Hx. split; [exact Ha |].
    intros ->; apply Hx; cbn; tauto. }
  destruct (Js.truthyStr debug_) eqn:Hd; cbn [andb] in H;
    [| cbn in H; injection H as <- _ <-;
       split; [now left | intros a Ha; discriminate Ha]].
  destruct (negb (length (getExposedPorts dp) =? 0));
    [| cbn in H; injection H as <- _ <-;
       split; [now left | intros a Ha; discriminate Ha]].
  destruct (length possiblePorts =? 1) eqn:E1.
  - cbn in H. injection H as <- _ <-. split; [now left |].
    intros a Ha. cbn in Ha. split; [exact Hd |]. right.
    assert (Ha' : In a possiblePorts).
    { destruct possiblePorts as [|x l]; [discriminate Ha |].
      injection Ha as <-. now left. }
    destruct (Hin a Ha') as [? Hn]. split; [assumption |].
    cbn. intros E. rewrite E in Hn. now apply Hn.
  - destruct (1 <? length possiblePorts) eqn:E2;
      [| cbn in H; injection H as <- _ <-;
         split; [now left | intros a Ha; discriminate Ha]].
    apply Nat.ltb_lt in E2.
    apply bind_inv in H. destruct H as [picked [st2 [Hq H]]].
    cbn in Hq. injection Hq as _ <-.
    assert (Hc : forall o e s,
               (Normal (o, e), s)
               = (Normal (portInfo, env'), st') ->
               (s = {| tick := S (tick st);
                       trace := trace st ++
                         [ShowQuickPick possiblePorts
                            "Please select the app port exposed at Dockerfile"] |}) ->
               (st' = st
                \/ exists candidates,
                     2 <= length candidates
                     /\ incl candidates (getExposedPorts dp)
                     /\ st' = {| tick := S (tick st);
                                 trace := trace st ++
                                   [ShowQuickPick candidates
                                      "Please select the app port exposed at Dockerfile"] |})).
    { intros o e s Heq Hs. injection Heq as _ _ <-. right.
      exists possiblePorts. split; [lia |]. split; [| exact Hs].
      intros a Ha. now apply Hin. }
    destruct (RegExp.exec placeholderRegExp _) as [m|]; cbn in H.
    + split; [eapply Hc; [exact H | reflexivity] |].
      injection H as <- _ _. intros a Ha. cbn in Ha. injection Ha as <-.
      split; [exact Hd | now left].
    + split; [eapply Hc; [exact H | reflexivity] |].
      injection H as <- _ _. intros a Ha. discriminate Ha.
Qed.

Lemma java_app_port_choice_witness :
  run (JavaDockerResolver.resolvePortsFromFile Scenario.appFile [])
    Scenario.debugOnly initial
  = (Normal ({| debug := Some "5005"; app := Some "8080" |}, []), initial)
  /\ Js.truthyStr (Some "5005") = true
  /\ In "8080" (getExposedPorts Scenario.appFile).
Proof.
  assert (H : run (JavaDockerResolver.resolvePortsFromFile Scenario.appFile [])
                Scenario.debugOnly initial
              = (Normal ({| debug := Some "5005"; app := Some "8080" |}, []),
                 initial)) by (vm_compute; reflexivity).
  split; [exact H |].
  destruct (proj2 (java_app_port_choice _ _ _ _ _ _ _ H) "8080" eq_refl)
    as [Hd [Ha | [Hi _]]].
  - split; [exact Hd |]. discriminate Ha.
  - split; [exact Hd | exact Hi].
Defined.

(** ** Variables among the exposed ports *)

Lemma matchAt_star_cls {R : Type} ic p pos b s' c
    (k : nat -> string -> RegExp.captures -> option R) :
  RegExp.matchAt ic (RegExp.Star (RegExp.Cls p)) pos (String b s') c k
  = if p b then
      match RegExp.matchAt ic (RegExp.Star (RegExp.Cls p)) (S pos) s' c k with
      | Some x => Some x
      | None => k pos (String b s') c
      end
    else k pos (String b s') c.
Proof.
  cbn. destruct (p b); [| reflexivity].
  rewrite Nat.leb_refl. reflexivity.
Qed.

(** A greedy star over a class takes all of a text of the class, when what
    comes next is outside of the class and the rest of the pattern matches
    from there. *)
Lemma matchAt_star_greedy {R : Type} ic p
    (k : nat -> string -> RegExp.captures -> option R) v :
  forall pos rest c,
    forallb p (list_ascii_of_string v) = true ->
    match rest with String b _ => p b = false | EmptyString => True end ->
    k (pos + String.length v) rest c <> None ->
    RegExp.matchAt ic (RegExp.Star (RegExp.Cls p)) pos (v +++ rest) c k
    = k (pos + String.length v) rest c.
Proof.
  induction v as [|a v IH]; intros pos rest c Hv Hr Hk.
  - cbn [String.append String.length] in *. rewrite Nat.add_0_r in *.
    destruct rest as [|b r]; [reflexivity |].
    rewrite matchAt_star_cls, Hr. reflexivity.
  - cbn [list_ascii_of_string forallb] in Hv.
    apply andb_prop in Hv. destruct Hv as [Ha Hv].
    cbn [String.append String.length] in *.
    rewrite matchAt_star_cls, Ha.
    replace (pos + S (String.length v)) with (S pos + String.length v) in *
      by lia.
    rewrite (IH (S pos) rest c Hv Hr Hk).
    destruct (k (S pos + String.length v) rest c); [reflexivity | contradiction].
Qed.

Lemma isWord_brace : Js.isWord "{" = false /\ Js.isWord "}" = false.
Proof. split; reflexivity. Qed.

(** The pattern of variables on the texts [$v], [${v] and [${v}], for a
    name [v] of word characters, followed by anything that does not begin
    with a word character: the first group is the name. *)
Lemma placeholder_variable (brace : bool) a v rest :
  let name_ := String a v in
  forallb Js.isWord (list_ascii_of_string name_) = true ->
  match rest with String b _ => Js.isWord b = false | EmptyString => True end ->
  exists m,
    RegExp.exec placeholderRegExp
      ("$" +++ (if brace then "{" else EmptyString) +++ name_ +++ rest)
    = Some m
    /\ RegExp.group m 1 = Some name_.
Proof.
  intros name_ Hv Hr. subst name_.
  cbn [list_ascii_of_string forallb] in Hv.
  apply andb_prop in Hv. destruct Hv as [Ha Hv].
  unfold RegExp.exec, placeholderRegExp, RegExp.re, RegExp.ignoreCase,
    RegExp.Plus, RegExp.word.
  remember (RegExp.Star (RegExp.Cls Js.isWord)) as star eqn:Hs.
  assert (Hne : a <> "{"%char).
  { intros ->. discriminate Ha. }
  assert (Hc : RegExp.consumed (String a (v +++ rest)) rest = String a v).
  { change (String a (v +++ rest)) with (String a v +++ rest).
    apply consumed_append. }
  destruct brace; cbn [String.append].
  - cbn [RegExp.execFrom RegExp.matchHere RegExp.matchAt RegExp.Opt
         RegExp.charEq Ascii.eqb Bool.eqb].
    cbn -[RegExp.matchAt RegExp.consumed]. rewrite Ha. subst star.
    rewrite matchAt_star_greedy; [| exact Hv | exact Hr |].
    + rewrite Hc.
      destruct rest as [|b r]; [| destruct (b =? "}")%char];
        eexists; (split; [reflexivity | reflexivity]).
    + destruct rest as [|b r]; [| destruct (b =? "}")%char];
        intros H; discriminate H.
  - cbn [RegExp.execFrom RegExp.matchHere RegExp.matchAt RegExp.Opt
         RegExp.charEq Ascii.eqb Bool.eqb].
    cbn -[RegExp.matchAt RegExp.consumed].
    replace (a =? "{")%char with false
      by (symmetry; now apply Ascii.eqb_neq).
    rewrite Ha. subst star.
    rewrite matchAt_star_greedy; [| exact Hv | exact Hr |].
    + rewrite Hc.
      destruct rest as [|b r]; [| destruct (b =? "}")%char];
        eexists; (split; [reflexivity | reflexivity]).
    + destruct rest as [|b r]; [| destruct (b =? "}")%char];
        intros H; discriminate H.
Qed.

Lemma trace_grows (st : State) (e : Event) : trace st <> trace st ++ [e].
Proof.
  intros H. apply (f_equal (@length Event)) in H.
  rewrite length_app in H. cbn in H. lia.
Qed.

Lemma showQuickPick_answer (w : World) (st : State) candidates placeHolder i x :
  quickPick w (tick st) candidates = Some i ->
  nth_error candidates i = Some x ->
  run (showQuickPick candidates placeHolder) w st
  = (Normal (Some i),
     {| tick := S (tick st);
        trace := trace st ++ [ShowQuickPick candidates placeHolder] |}).
Proof.
  intros Hq Hn.
  assert (Hi : i < length candidates)
    by (apply nth_error_Some; rewrite Hn; discriminate).
  apply Nat.ltb_lt in Hi.
  unfold run, showQuickPick, ask. rewrite Hq, Hi. reflexivity.
Qed.

(** ** Assignment to a key of an object *)

Lemma setKey_proto v env : setKey "__proto__" v env = env.
Proof. reflexivity. Qed.

Lemma replaceKey_in key v env :
  hasKey key env = true -> In (key, v) (replaceKey key v env).
Proof.
  induction env as [| [k x] env IH]; cbn; [discriminate |].
  destruct (String.eqb_spec k key) as [-> | Hk]; cbn.
  - intros _. now left.
  - intros H. right. now apply IH.
Qed.

Lemma insertIndex_in i key v env : In (key, v) (insertIndex i key v env).
Proof.
  induction env as [| [k x] env IH]; cbn; [now left |].
  destruct (arrayIndex k) as [j |]; [| now left].
  destruct (j <? i)%N; [right; exact IH | now left].
Qed.

Lemma setKey_in key v env :
  key <> "__proto__" -> In (key, v) (setKey key v env).
Proof.
  intros Hk. unfold setKey.
  destruct (String.eqb_spec key "__proto__") as [E | _]; [contradiction |].
  destruct (hasKey key env) eqn:Hh; [now apply replaceKey_in |].
  destruct (arrayIndex key); [apply insertIndex_in |].
  apply in_or_app. right. now left.
Qed.

Lemma replaceKey_other key v env k x :
  k <> key -> In (k, x) (replaceKey key v env) <-> In (k, x) env.
Proof.
  intros Hk. induction env as [| [k' x'] env IH]; cbn; [tauto |].
  destruct (String.eqb_spec k' key) as [-> | Hk']; cbn.
  - split; (intros [H | H]; [injection H as <- _; contradiction | now right]).
  - rewrite IH. tauto.
Qed.

Lemma insertIndex_other i key v env k x :
  k <> key -> In (k, x) (insertIndex i key v env) <-> In (k, x) env.
Proof.
  intros Hk. induction env as [| [k' x'] env IH]; cbn.
  - split; [intros [H | []]; injection H as <- _; contradiction | tauto].
  - assert (Hn : In (k, x) ((key, v) :: (k', x') :: env)
                 <-> (k', x') = (k, x) \/ In (k, x) env).
    { cbn. split; [intros [H | H]; [injection H as <- _; contradiction | exact H]
                  | intros H; right; exact H]. }
    destruct (arrayIndex k') as [j |]; [| exact Hn].
    destruct (j <? i)%N; [| exact Hn].
    cbn. rewrite IH. tauto.
Qed.

Lemma setKey_other key v env k x :
  k <> key -> In (k, x) (setKey key v env) <-> In (k, x) env.
Proof.
  intros Hk. unfold setKey.
  destruct (String.eqb key "__proto__"); [tauto |].
  destruct (hasKey key env); [now apply replaceKey_other |].
  destruct (arrayIndex key); [now apply insertIndex_other |].
  rewrite in_app_iff. cbn.
  split; [intros [H | [H | []]]; [exact H | injection H as <- _; contradiction]
         | tauto].
Qed.

(** An index key goes ahead of the names, an own key keeps its place, and
    nothing is stored under [__proto__] *)
Example setKey_order :
  setKey "0" "9000" [("JAVA_OPTS", "-Xmx1g"); ("PORT", "80")]
  = [("0", "9000"); ("JAVA_OPTS", "-Xmx1g"); ("PORT", "80")]
  /\ setKey "JAVA_OPTS" "9000" [("JAVA_OPTS", "-Xmx1g"); ("PORT", "80")]
     = [("JAVA_OPTS", "9000"); ("PORT", "80")]
  /\ setKey "HOST" "9000" [("JAVA_OPTS", "-Xmx1g"); ("PORT", "80")]
     = [("JAVA_OPTS", "-Xmx1g"); ("PORT", "80"); ("HOST", "9000")]
  /\ setKey "__proto__" "9000" [("PORT", "80")] = [("PORT", "80")]
  /\ setKey "007" "9000" [("PORT", "80")] = [("PORT", "80"); ("007", "9000")].
Proof. repeat split; vm_compute; reflexivity. Qed.

(** X5.  A variable among the exposed ports, node resolver.  When the
    resolution has shown its quick pick and the user takes an item of the
    form [$v] or [${v}], with [v] a name of word characters, the application
    port is 9000 and the environment is the one that the assignment of 9000
    to its key [v] leaves: it holds 9000 under the name [v], and what it
    held under the other names, unless [v] is [__proto__], which names the
    prototype of an object and not a key; then the environment is as it
    was. *)
Theorem node_variable_port :
  forall dockerParser env w st portInfo env' st' candidates i (brace : bool) a v,
    run (NodeDockerResolver.resolvePortsFromFile dockerParser env) w st
    = (Normal (portInfo, env'), st') ->
    trace st' = trace st ++
      [ShowQuickPick candidates
         "Please select the app port exposed at Dockerfile"] ->
    quickPick w (tick st) candidates = Some i ->
    nth_error candidates i
    = Some ("$" +++ (if brace then "{" else EmptyString) +++ String a v
            +++ (if brace then "}" else EmptyString)) ->
    forallb Js.isWord (list_ascii_of_string (String a v)) = true ->
    app portInfo = Some "9000"
    /\ env' = setKey (String a v) "9000" env
    /\ (String a v = "__proto__" -> env' = env)
    /\ (String a v <> "__proto__" -> In (String a v, "9000") env')
    /\ (forall k x, k <> String a v -> In (k, x) env' <-> In (k, x) env).
Proof.
  intros dp env w st portInfo env' st' candidates i brace a v H Ht Hq Hn Hv.
  unfold NodeDockerResolver.resolvePortsFromFile, run in H.
  set (debug_ := match searchLaunchArgs dp _ with
                 | Some _ => _ | None => _ end) in H.
  set (possiblePorts := filter _ (getExposedPorts dp)) in H.
  destruct (Js.truthyStr debug_ && _);
    [| cbn in H; injection H as _ _ <-; now apply trace_grows in Ht].
  destruct (length possiblePorts =? 1);
    [cbn in H; injection H as _ _ <-; now apply trace_grows in Ht |].
  destruct (1 <? length possiblePorts);
    [| cbn in H; injection H as _ _ <-; now apply trace_grows in Ht].
  apply bind_inv in H. destruct H as [picked [st1 [Hp H]]].
  assert (Hc : candidates = possiblePorts).
  { assert (Hst : trace st' = trace st1)
      by (destruct (RegExp.exec placeholderRegExp _); cbn in H;
          now injection H as _ _ <-).
    cbn in Hp. injection Hp as _ <-. cbn in Hst. rewrite Hst in Ht.
    apply app_inv_head in Ht. now injection Ht as <-. }
  subst candidates.
  unfold run in *.
  pose proof (showQuickPick_answer w st possiblePorts
                "Please select the app port exposed at Dockerfile" i _ Hq Hn)
    as Hp'.
  unfold run in Hp'. rewrite Hp' in Hp. injection Hp as <- _.
  rewrite Hn in H. cbn [Js.show] in H.
  destruct (placeholder_variable brace a v
              (if brace then "}" else EmptyString) Hv) as [m [Hm Hg]].
  { destruct brace; [reflexivity | exact I]. }
  rewrite Hm in H. cbn -[setKey] in H, Hg. rewrite Hg in H. cbn -[setKey] in H.
  injection H as <- <- _. split; [reflexivity |]. split; [reflexivity |].
  split; [intros ->; reflexivity |].
  split; [apply setKey_in | intros k x; apply setKey_other].
Qed.

Lemma node_variable_port_witness :
  exists portInfo env' st',
    run (NodeDockerResolver.resolvePortsFromFile
           (Scenario.dockerfile "node:8" ["5858"; "${PORT}"; "4000"]
              ["node --debug index.js"]) [])
      Scenario.twoCandidates initial
    = (Normal (portInfo, env'), st')
    /\ app portInfo = Some "9000"
    /\ env' = setKey "PORT" "9000" []
    /\ ("PORT" = "__proto__" -> env' = [])
    /\ ("PORT" <> "__proto__" -> In ("PORT", "9000") env')
    /\ (forall k x, k <> "PORT" -> In (k, x) env' <-> In (k, x) []).
Proof.
  assert (H : run (NodeDockerResolver.resolvePortsFromFile
                     (Scenario.dockerfile "node:8" ["5858"; "${PORT}"; "4000"]
                        ["node --debug index.js"]) [])
                Scenario.twoCandidates initial
              = (Normal ({| debug := Some "5858"; app := Some "9000" |},
                         [("PORT", "9000")]),
                 {| tick := 1;
                    trace := [ShowQuickPick ["${PORT}"; "4000"]
                                "Please select the app port exposed at Dockerfile"] |}))
    by (vm_compute; reflexivity).
  eexists _, _, _. split; [exact H |].
  apply (node_variable_port _ _ _ _ _ _ _ ["${PORT}"; "4000"] 0 true
           "P"%char "ORT" H); vm_compute; reflexivity.
Defined.

Lemma java_debug_step dockerParser env w st d env1 st1 :
  (match searchLaunchArgs dockerParser JavaDockerResolver.javaDebugOptsRegExp with
   | Some matches =>
       d <- lift (JavaDockerResolver.debugPortOf matches) ;; ret (d, env)
   | None =>
       match searchLaunchArgs dockerParser JavaDockerResolver.javaOptsRegExp with
       | Some _ =>
           ret (Some JavaDockerResolver.defaultJavaDebugPort,
                setKey "JAVA_OPTS" JavaDockerResolver.defaultJavaDebugOpts env)
       | None => ret (None, env)
       end
   end) w st = (Normal (d, env1), st1) ->
  st1 = st
  /\ (env1 = env
      \/ env1 = setKey "JAVA_OPTS" JavaDockerResolver.defaultJavaDebugOpts env).
Proof.
  intros H1.
  destruct (searchLaunchArgs dockerParser JavaDockerResolver.javaDebugOptsRegExp).
  - apply bind_inv in H1. destruct H1 as [d' [st2 [Hl H1]]].
    cbn in H1. injection H1 as _ <- <-.
    cbn in Hl. destruct (JavaDockerResolver.debugPortOf m);
      try discriminate Hl. injection Hl as _ <-. split; [reflexivity | now left].
  - destruct (searchLaunchArgs dockerParser JavaDockerResolver.javaOptsRegExp);
      cbn in H1; injection H1 as _ <- <-; split; try reflexivity;
      [now right | now left].
Qed.

(** X6.  A variable among the exposed ports, java resolver.  When the
    resolution has shown its quick pick and the user takes an item of the
    form [$v] or [${v}], with [v] a name of word characters, the application
    port is 9000 and the environment is the one that the assignment of 9000
    to its key [v] leaves, on top of the options that the resolution of the
    debug port may have added: it holds 9000 under the name [v], and what
    it held under the other names, unless [v] is [__proto__], which names
    the prototype of an object and not a key; then nothing is stored. *)
Theorem java_variable_port :
  forall dockerParser env w st portInfo env' st' candidates i (brace : bool) a v,
    run (JavaDockerResolver.resolvePortsFromFile dockerParser env) w st
    = (Normal (portInfo, env'), st') ->
    trace st' = trace st ++
      [ShowQuickPick candidates
         "Please select the app port exposed at Dockerfile"] ->
    quickPick w (tick st) candidates = Some i ->
    nth_error candidates i
    = Some ("$" +++ (if brace then "{" else EmptyString) +++ String a v
            +++ (if brace then "}" else EmptyString)) ->
    forallb Js.isWord (list_ascii_of_string (String a v)) = true ->
    app portInfo = Some JavaDockerResolver.defaultJavaAppPort
    /\ exists env1,
         (env1 = env
          \/ env1 = setKey "JAVA_OPTS" JavaDockerResolver.defaultJavaDebugOpts env)
         /\ env' = setKey (String a v) JavaDockerResolver.defaultJavaAppPort env1
         /\ (String a v = "__proto__" -> env' = env1)
         /\ (String a v <> "__proto__" ->
             In (String a v, JavaDockerResolver.defaultJavaAppPort) env')
         /\ (forall k x, k <> String a v ->
                         In (k, x) env' <-> In (k, x) env1).
Proof.
  intros dp env w st portInfo env' st' candidates i brace a v H Ht Hq Hn Hv.
  unfold JavaDockerResolver.resolvePortsFromFile, run in H.
  apply bind_inv in H. destruct H as [[debug_ env1] [st0 [H1 H]]].
  apply java_debug_step in H1. destruct H1 as [-> He].
  set (possiblePorts := filter _ (getExposedPorts dp)) in H.
  destruct (Js.truthyStr debug_ && _);
    [| cbn in H; injection H as _ _ <-; now apply trace_grows in Ht].
  destruct (length possiblePorts =? 1);
    [cbn in H; injection H as _ _ <-; now apply trace_grows in Ht |].
  destruct (1 <? length possiblePorts);
    [| cbn in H; injection H as _ _ <-; now apply trace_grows in Ht].
  apply bind_inv in H. destruct H as [picked [st1 [Hp H]]].
  assert (Hc : candidates = possiblePorts).
  { assert (Hst : trace st' = trace st1)
      by (destruct (RegExp.exec placeholderRegExp _); cbn in H;
          now injection H as _ _ <-).
    cbn in Hp. injection Hp as _ <-. cbn in Hst. rewrite Hst in Ht.
    apply app_inv_head in Ht. now injection Ht as <-. }
  subst candidates.
  unfold run in *.
  pose proof (showQuickPick_answer w st possiblePorts
                "Please select the app port exposed at Dockerfile" i _ Hq Hn)
    as Hp'.
  unfold run in Hp'. rewrite Hp' in Hp. injection Hp as <- _.
  rewrite Hn in H. cbn [Js.show] in H.
  destruct (placeholder_variable brace a v
              (if brace then "}" else EmptyString) Hv) as [m [Hm Hg]].
  { destruct brace; [reflexivity | exact I]. }
  rewrite Hm in H. cbn -[setKey] in H, Hg. rewrite Hg in H.
  cbn -[setKey] in H.
  injection H as <- <- _. split; [reflexivity |].
  exists env1. split; [exact He |]. split; [reflexivity |].
  split; [intros ->; reflexivity |].
  split; [apply setKey_in | intros k x; apply setKey_other].
Qed.

Lemma java_variable_port_witness :
  exists portInfo env' st',
    run (JavaDockerResolver.resolvePortsFromFile
           (Scenario.dockerfile "openjdk:8" ["$APP_PORT"; "5005"; "8443"]
              ["java $JAVA_OPTS -jar app.jar"]) [])
      Scenario.twoCandidates initial
    = (Normal (portInfo, env'), st')
    /\ app portInfo = Some "9000"
    /\ exists env1,
         (env1 = []
          \/ env1 = setKey "JAVA_OPTS" JavaDockerResolver.defaultJavaDebugOpts [])
         /\ env' = setKey "APP_PORT" "9000" env1
         /\ ("APP_PORT" = "__proto__" -> env' = env1)
         /\ ("APP_PORT" <> "__proto__" -> In ("APP_PORT", "9000") env')
         /\ (forall k x, k <> "APP_PORT" ->
                         In (k, x) env' <-> In (k, x) env1).
Proof.
  assert (H : run (JavaDockerResolver.resolvePortsFromFile
                     (Scenario.dockerfile "openjdk:8"
                        ["$APP_PORT"; "5005"; "8443"]
                        ["java $JAVA_OPTS -jar app.jar"]) [])
                Scenario.twoCandidates initial
              = (Normal ({| debug := Some "5005"; app := Some "9000" |},
                         [("JAVA_OPTS", JavaDockerResolver.defaultJavaDebugOpts);
                          ("APP_PORT", "9000")]),
                 {| tick := 1;
                    trace := [ShowQuickPick ["$APP_PORT"; "8443"]
                                "Please select the app port exposed at Dockerfile"] |}))
    by (vm_compute; reflexivity).
  eexists _, _, _. split; [exact H |].
  apply (java_variable_port _ _ _ _ _ _ _ ["$APP_PORT"; "8443"] 0 false
           "A"%char "PP_PORT" H); vm_compute; reflexivity.
Defined.

(** X7.  The java resolver falls back on the options variable.  When the
    build file has no agent flag but mentions [JAVA_OPTS], the resolution
    returns the default debug port 5005 and records the default agent
    options under [JAVA_OPTS]; the only other change of the environment is a
    variable set to 9000 together with the application port.  The recorded
    options, read with the pattern of the agent flag, give the same port. *)
Theorem java_opts_fallback :
  forall dockerParser env w st m,
    searchLaunchArgs dockerParser JavaDockerResolver.javaDebugOptsRegExp = None ->
    searchLaunchArgs dockerParser JavaDockerResolver.javaOptsRegExp = Some m ->
    exists portInfo env' st',
      run (JavaDockerResolver.resolvePortsFromFile dockerParser env) w st
      = (Normal (portInfo, env'), st')
      /\ debug portInfo = Some "5005"
      /\ (let env1 :=
            setKey "JAVA_OPTS" JavaDockerResolver.defaultJavaDebugOpts env in
          env' = env1
          \/ exists varName,
               app portInfo = Some "9000" /\ env' = setKey varName "9000" env1)
      /\ exists matches,
           RegExp.exec JavaDockerResolver.javaDebugOptsRegExp
             JavaDockerResolver.defaultJavaDebugOpts = Some matches
           /\ JavaDockerResolver.debugPortOf matches = Normal (debug portInfo).
Proof.
  intros dp env w st m H1 H2.
  assert (Hr : exists matches,
             RegExp.exec JavaDockerResolver.javaDebugOptsRegExp
               JavaDockerResolver.defaultJavaDebugOpts = Some matches
             /\ JavaDockerResolver.debugPortOf matches = Normal (Some "5005")).
  { eexists. split; vm_compute; reflexivity. }
  unfold JavaDockerResolver.resolvePortsFromFile, run.
  rewrite H1, H2.
  cbn [bind ret JavaDockerResolver.defaultJavaDebugPort].
  change (Js.truthyStr (Some "5005")) with true. cbn [andb].
  set (possiblePorts := filter _ (getExposedPorts dp)).
  destruct (negb (length (getExposedPorts dp) =? 0));
    [| eexists _, _, _; split; [reflexivity |]; split; [reflexivity |];
       split; [now left | exact Hr]].
  destruct (length possiblePorts =? 1);
    [eexists _, _, _; split; [reflexivity |]; split; [reflexivity |];
     split; [now left | exact Hr] |].
  destruct (1 <? length possiblePorts);
    [| eexists _, _, _; split; [reflexivity |]; split; [reflexivity |];
       split; [now left | exact Hr]].
  cbn -[RegExp.exec placeholderRegExp JavaDockerResolver.javaDebugOptsRegExp
        JavaDockerResolver.defaultJavaDebugOpts JavaDockerResolver.debugPortOf].
  destruct (RegExp.exec placeholderRegExp _).
  - eexists _, _, _. split; [reflexivity |]. split; [reflexivity |].
    split; [| exact Hr]. right. eexists. split; reflexivity.
  - eexists _, _, _. split; [reflexivity |]. split; [reflexivity |].
    split; [now left | exact Hr].
Qed.

Lemma java_opts_fallback_witness :
  exists portInfo env' st',
    run (JavaDockerResolver.resolvePortsFromFile
           (Scenario.dockerfile "openjdk:8" []
              ["java $JAVA_OPTS -jar app.jar"]) [])
      Scenario.debugOnly initial
    = (Normal (portInfo, env'), st')
    /\ debug portInfo = Some "5005".
Proof.
  destruct (searchLaunchArgs
              (Scenario.dockerfile "openjdk:8" []
                 ["java $JAVA_OPTS -jar app.jar"])
              JavaDockerResolver.javaOptsRegExp) as [m|] eqn:E;
    [| vm_compute in E; discriminate E].
  destruct (java_opts_fallback
              (Scenario.dockerfile "openjdk:8" []
                 ["java $JAVA_OPTS -jar app.jar"])
              [] Scenario.debugOnly initial m eq_refl E)
    as [portInfo [env' [st' [H [Hd _]]]]].
  exists portInfo, env', st'. split; [exact H | exact Hd].
Defined.


(** ** The choice of a provider *)

Lemma prefix_append (needle s : string) :
  String.prefix needle (needle +++ s) = true.
Proof.
  induction needle as [|c needle IH]; cbn; [now destruct s |].
  rewrite IH. now destruct (Ascii.ascii_dec c c).
Qed.

Lemma includes_infix (needle pre post : string) :
  Js.includes needle (pre +++ needle +++ post) = true.
Proof.
  induction pre as [|c pre IH].
  - cbn [String.append].
    pose proof (prefix_append needle post) as H.
    destruct (needle +++ post); cbn [Js.includes]; rewrite H; reflexivity.
  - cbn [String.append Js.includes]. rewrite IH. apply orb_true_r.
Qed.

Lemma includes_nonempty (needle s : string) :
  Js.isEmpty needle = false ->
  Js.includes needle s = true -> Js.isEmpty s = false.
Proof.
  intros Hn Hs. destruct s; [| reflexivity].
  destruct needle; [discriminate Hn | discriminate Hs].
Qed.

(** X8.  An image whose name contains [java], [openjdk] or [oracle] is
    debugged as java, without any question, whatever else the name
    contains. *)
Theorem java_image_selects_java :
  forall keyword pre post w st,
    In keyword ["java"; "openjdk"; "oracle"] ->
    run (ProviderRegistry.getDebugProvider (Some (pre +++ keyword +++ post)))
      w st
    = (Normal (Some JavaDebugProvider.provider), st).
Proof.
  intros keyword pre post w st Hk.
  assert (Hs : JavaDockerResolver.isSupportedImage (pre +++ keyword +++ post)
               = true).
  { unfold JavaDockerResolver.isSupportedImage.
    destruct Hk as [<- | [<- | [<- | []]]]; rewrite includes_infix;
      repeat rewrite orb_true_r; reflexivity. }
  assert (He : Js.truthyStr (Some (pre +++ keyword +++ post)) = true).
  { cbn. apply negb_true_iff.
    destruct Hk as [<- | [<- | [<- | []]]];
      eapply includes_nonempty; try apply includes_infix; reflexivity. }
  unfold ProviderRegistry.getDebugProvider, run. rewrite He.
  cbn [ProviderRegistry.supportedProviders find Js.show
       JavaDebugProvider.provider getDockerResolver
       JavaDockerResolver.resolver isSupportedImage].
  rewrite Hs. reflexivity.
Qed.

Lemma java_image_selects_java_witness :
  run (ProviderRegistry.getDebugProvider (Some "node-with-openjdk:8"))
    Scenario.debugOnly initial
  = (Normal (Some JavaDebugProvider.provider), initial).
Proof.
  apply (java_image_selects_java "openjdk" "node-with-" ":8").
  cbn. tauto.
Defined.

(** X9.  Without a base image, or with one that no resolver supports, the
    provider is asked for: one quick pick over [java] and [node], and the
    result is the provider at the chosen place, or none when the pick is
    dismissed. *)
Theorem unsupported_image_asks :
  forall baseImage w st,
    match baseImage with
    | Some image =>
        JavaDockerResolver.isSupportedImage image = false
        /\ NodeDockerResolver.isSupportedImage image = false
    | None => True
    end ->
    run (ProviderRegistry.getDebugProvider baseImage) w st
    = (Normal
         match quickPick w (tick st) ["java"; "node"] with
         | Some 0 => Some JavaDebugProvider.provider
         | Some 1 => Some NodeDebugProvider.provider
         | _ => None
         end,
       {| tick := S (tick st);
          trace := trace st ++
            [ShowQuickPick ["java"; "node"] "Please select the debug type."] |}).
Proof.
  intros baseImage w st H.
  assert (Hp : run ProviderRegistry.showProviderPick w st
               = (Normal
                    match quickPick w (tick st) ["java"; "node"] with
                    | Some 0 => Some JavaDebugProvider.provider
                    | Some 1 => Some NodeDebugProvider.provider
                    | _ => None
                    end,
                  {| tick := S (tick st);
                     trace := trace st ++
                       [ShowQuickPick ["java"; "node"]
                          "Please select the debug type."] |})).
  { unfold ProviderRegistry.showProviderPick, run.
    cbn [bind showQuickPick ask map ProviderRegistry.supportedProviders
         getDebuggerType JavaDebugProvider.provider NodeDebugProvider.provider].
    change JavaDebugProvider.getDebuggerType with "java".
    destruct (quickPick w (tick st) ["java"; "node"]) as [[|[|i]]|];
      reflexivity. }
  unfold ProviderRegistry.getDebugProvider, run.
  destruct baseImage as [image|]; [| exact Hp].
  destruct H as [Hj Hn].
  destruct (Js.truthyStr (Some image)); [| exact Hp].
  cbn [ProviderRegistry.supportedProviders find Js.show
       JavaDebugProvider.provider NodeDebugProvider.provider getDockerResolver
       JavaDockerResolver.resolver NodeDockerResolver.resolver
       isSupportedImage].
  rewrite Hj, Hn. exact Hp.
Qed.

Lemma unsupported_image_asks_witness :
  run (ProviderRegistry.getDebugProvider (Some "python:3"))
    Scenario.twoCandidates initial
  = (Normal (Some JavaDebugProvider.provider),
     {| tick := 1;
        trace := [ShowQuickPick ["java"; "node"]
                    "Please select the debug type."] |}).
Proof.
  apply (unsupported_image_asks (Some "python:3") Scenario.twoCandidates
           initial).
  split; reflexivity.
Defined.

(** X10.  The java provider's check of the debugger.  The check returns
    what the host says about the extension, so it answers no even after it
    has installed the extension; it does nothing when the extension is
    there, and it runs the install command only after the user has answered
    the first message with Install Now. *)
Theorem java_debugger_check :
  forall w st,
  exists st' new,
    run JavaDebugProvider.isDebuggerInstalled w st
    = (Normal (getExtension w JavaDebugProvider.defaultJavaDebuggerExtension),
       st')
    /\ trace st' = trace st ++ new
    /\ (getExtension w JavaDebugProvider.defaultJavaDebuggerExtension = true ->
        st' = st)
    /\ (forall line,
           In (ShellExec line) new ->
           line = Js.dquote +++ vscodeCliProgram w +++ Js.dquote
                 +++ " --install-extension "
                 +++ JavaDebugProvider.defaultJavaDebuggerExtension
           /\ informationMessage w (tick st)
                ("Please install java debugger extension '"
                 +++ JavaDebugProvider.defaultJavaDebuggerExtension
                 +++ "' before starting java debug.")
              = Some "Install Now").
Proof.
  intros w st.
  unfold JavaDebugProvider.isDebuggerInstalled, run.
  cbn [bind read].
  destruct (getExtension w JavaDebugProvider.defaultJavaDebuggerExtension)
    eqn:E.
  - exists st, []. rewrite app_nil_r.
    split; [reflexivity |]. split; [reflexivity |]. split; [reflexivity |].
    intros line [].
  - cbn -[String.eqb Z.eqb JavaDebugProvider.defaultJavaDebuggerExtension
          String.append].
    repeat (match goal with
            | |- context [match informationMessage w ?n ?m with _ => _ end] =>
                destruct (informationMessage w n m) eqn:?
            | |- context [if String.eqb ?a ?b then _ else _] =>
                destruct (String.eqb a b) eqn:?
            | |- context [if Z.eqb ?a ?b then _ else _] =>
                destruct (Z.eqb a b) eqn:?
            end;
            cbn -[String.eqb Z.eqb
                  JavaDebugProvider.defaultJavaDebuggerExtension
                  String.append]);
      cbn -[String.eqb Z.eqb JavaDebugProvider.defaultJavaDebuggerExtension
            String.append];
      eexists _, _; (split; [reflexivity |]);
      (split; [cbn [trace]; rewrite <- ?app_assoc; reflexivity |]);
      (split; [intros H; discriminate H |]);
      intros line Hin; cbn in Hin;
      repeat (destruct Hin as [Hin | Hin]; try discriminate Hin);
      try contradiction; injection Hin as <-;
      (split; [reflexivity |]);
      match goal with
      | H : String.eqb _ "Install Now" = true |- _ =>
          apply String.eqb_eq in H; rewrite H; reflexivity
      end.
Qed.


(** ** The promise of the debug session *)

Section Settling.
Variable debugProvider : IDebugProvider.
Variable appName : option string.
Variables workspaceFolder debugType : string.
Variables proxyDebugPort_ proxyAppPort_ : Port.

Let handle_ :=
  handle debugProvider appName workspaceFolder debugType proxyDebugPort_
    proxyAppPort_.
Let untilSettled_ :=
  untilSettled debugProvider appName workspaceFolder debugType proxyDebugPort_
    proxyAppPort_.

Lemma handle_idle e w st :
  wakes e = false ->
  exists st', run (handle_ newSession e) w st = (Normal newSession, st').
Proof.
  intros He. unfold handle_, handle.
  destruct e as [data|data|c|n|n]; cbn [wakes] in He.
  - unfold onStdoutData, run. rewrite He, andb_false_r.
    eexists. reflexivity.
  - cbn. eexists. reflexivity.
  - discriminate He.
  - cbn. eexists. reflexivity.
  - cbn. eexists. reflexivity.
Qed.

Lemma handle_wakes e w st :
  wakes e = true ->
  exists s st',
    run (handle_ newSession e) w st = (Normal s, st')
    /\ settled s = Some true.
Proof.
  intros He. unfold handle_, handle.
  destruct e as [data|data|c|n|n]; cbn [wakes] in He; try discriminate He.
  - unfold onStdoutData, run. cbn [isStarted newSession negb andb].
    rewrite He.
    destruct (Js.truthyStr appName); cbn -[String.append];
      match goal with
      | |- context [startDebugging ?a ?b ?c ?d ?e ?f] =>
          destruct (startDebugging a b c d e f) as [o st1]
      end;
      cbn; eexists _, _; split; reflexivity.
  - unfold onClose. cbn -[deleteResource String.append].
    destruct (Js.truthyStr appName).
    + destruct (deleteResource_returns ("deployment/" +++ Js.show appName) w st)
        as [st' [Hr _]].
      cbn -[deleteResource String.append] in Hr |- *. rewrite Hr.
      eexists _, _. split; reflexivity.
    + cbn. eexists _, _. split; reflexivity.
Qed.

Lemma untilSettled_settled s events w st b :
  settled s = Some b ->
  run (untilSettled_ s events) w st = (Normal (s, events), st).
Proof.
  intros Hs. destruct events as [|e rest]; cbn; [reflexivity |].
  rewrite Hs. reflexivity.
Qed.

Lemma untilSettled_new events : forall w st,
  exists o st',
    run (untilSettled_ newSession events) w st = (o, st')
    /\ if existsb wakes events then
         exists s pre e rest,
           o = Normal (s, rest) /\ settled s = Some true
           /\ events = pre ++ e :: rest
           /\ wakes e = true /\ existsb wakes pre = false
       else o = Normal (newSession, []).
Proof.
  induction events as [|e events IH]; intros w st.
  - cbn. eexists _, _. split; reflexivity.
  - cbn [existsb]. destruct (wakes e) eqn:He; cbn [orb].
    + destruct (handle_wakes e w st He) as [s [st' [Hr Hs]]].
      exists (Normal (s, events)), st'. split.
      * unfold untilSettled_, run in *. cbn [untilSettled settled newSession].
        unfold handle_ in Hr. cbn [bind]. rewrite Hr.
        apply (untilSettled_settled s events w st' true Hs).
      * exists s, [], e, events. repeat split; assumption.
    + destruct (handle_idle e w st He) as [st' Hr].
      destruct (IH w st') as [o [st2 [Hu Hc]]].
      exists o, st2. split.
      * unfold untilSettled_, run in *. cbn [untilSettled settled newSession].
        unfold handle_ in Hr. cbn [bind]. rewrite Hr. exact Hu.
      * destruct (existsb wakes events); [| exact Hc].
        destruct Hc as [s [pre [e' [rest [Ho [Hs [Hev [Hw Hp]]]]]]]].
        exists s, (e :: pre), e', rest. subst events.
        repeat split; try assumption.
        cbn. rewrite He. exact Hp.
Qed.
End Settling.

(** X11.  The promise of [startDebug] is never rejected.  It is resolved at
    the first event that is a readiness line of the standard output or the
    end of the port-forward subprocess, and the events after that one are
    left for later; when no such event comes, the caller keeps waiting. *)
Theorem startDebug_settles :
  forall debugProvider appName workspaceFolder debugType proxyDebugPort_
         proxyAppPort_ events w st,
  exists o st',
    run (startDebug debugProvider appName workspaceFolder debugType
           proxyDebugPort_ proxyAppPort_ events) w st = (o, st')
    /\ if existsb wakes events then
         exists s pre e rest,
           o = Normal (s, rest) /\ settled s = Some true
           /\ events = pre ++ e :: rest
           /\ wakes e = true /\ existsb wakes pre = false
       else o = Pending.
Proof.
  intros p appName ws dt dp ap events w st.
  destruct (untilSettled_new p appName ws dt dp ap events w st)
    as [o [st' [Hu Hc]]].
  unfold startDebug, run in *. cbn [bind]. rewrite Hu.
  destruct (existsb wakes events).
  - destruct Hc as [s [pre [e [rest [-> [Hs H]]]]]].
    cbn [fst]. rewrite Hs. cbn.
    eexists _, _. split; [reflexivity |].
    exists s, pre, e, rest. split; [reflexivity |]. split; assumption.
  - subst o. cbn. eexists _, _. split; reflexivity.
Qed.


(** ** The port-forward subprocess *)

(** X12.  [createPortForward] asks the free-port finder and then spawns the
    subprocess.  When it returns, the last thing it did was to spawn
    [port-forward] for the pod with one mapping for the application port,
    if there is one, and one for the debug port, from the very local ports
    that it returns; without an application port the local application port
    is 0.  When it throws, the finder found no port and nothing was
    spawned.  It never stays waiting. *)
Theorem createPortForward_spawns :
  forall podName debugPort appPort w st o st',
    run (createPortForward podName debugPort appPort) w st = (o, st') ->
    exists asked,
      Forall (fun e => exists req, e = GetPort req) asked
      /\ match o with
         | Normal r =>
             trace st' = trace st ++ asked ++
               [Spawn (if negb (Js.truthyStr (kubectlPath w)) then "kubectl"
                       else Js.show (kubectlPath w))
                  (["port-forward"; podName]
                   ++ (if Js.truthyStr appPort
                       then [portToString (proxyAppPort r) +++ ":"
                             +++ Js.show appPort]
                       else [])
                   ++ [portToString (proxyDebugPort r) +++ ":"
                       +++ debugPort])]
             /\ (Js.truthyStr appPort = false ->
                 proxyAppPort r = PortNumber 0)
         | Thrown e =>
             e = "Error: No open ports available" /\ trace st' = trace st ++ asked
         | Pending => False
         end.
Proof.
  intros podName debugPort appPort w st o st'.
  unfold createPortForward, run, getPort.
  destruct (Js.truthyStr appPort) eqn:Ha;
    cbn -[String.append portToString Js.truthyStr Js.show portEquals];
    repeat (match goal with
            | |- context [match getPortPromise w ?n ?r with _ => _ end] =>
                destruct (getPortPromise w n r) eqn:?
            | |- context [if portEquals ?a ?b then _ else _] =>
                destruct (portEquals a b) eqn:?
            end;
            cbn -[String.append portToString Js.truthyStr Js.show portEquals]);
    intros H; injection H as <- <-;
    cbn -[String.append portToString Js.truthyStr Js.show portEquals];
    rewrite <- ?app_assoc; cbn [Datatypes.app].
  all: match goal with
       | |- exists asked, _ /\ (_ ++ ?l = _ ++ asked ++ _ /\ _) =>
           exists (removelast l)
       | |- exists asked, _ /\ (_ /\ _ ++ ?l = _) => exists l
       end; cbn [removelast].
  all: split; [repeat constructor; eexists; reflexivity |].
  all: split; [reflexivity |].
  all: try reflexivity.
  all: intros H; first [reflexivity | discriminate H | congruence].
Qed.

Lemma createPortForward_spawns_witness :
  exists r st',
    run (createPortForward "app-pod" "5005" (Some "8080"))
      Scenario.debugOnly initial = (Normal r, st')
    /\ exists asked,
         trace st' = asked ++
           [Spawn "kubectl"
              ["port-forward"; "app-pod";
               portToString (proxyAppPort r) +++ ":8080";
               portToString (proxyDebugPort r) +++ ":5005"]].
Proof.
  destruct (run (createPortForward "app-pod" "5005" (Some "8080"))
              Scenario.debugOnly initial) as [o st'] eqn:E.
  destruct (createPortForward_spawns _ _ _ _ _ _ _ E) as [asked [_ H]].
  destruct o as [r | e | ]; [| vm_compute in E; discriminate E | contradiction].
  exists r, st'. split; [reflexivity |].
  exists asked. exact (proj1 H).
Defined.


(** ** What a call adds to the trace *)

Section Yields.
Variable w : World.

Lemma yields_weaken {A} (m : M A) (Q Q' : Outcome A -> list Event -> Prop) :
  yields w m Q -> (forall o new, Q o new -> Q' o new) -> yields w m Q'.
Proof.
  intros H HQ st. destruct (H st) as [o [st' [new [Hr [Ht Hq]]]]].
  exists o, st', new. auto.
Qed.

Lemma yields_ret {A} (a : A) (Q : Outcome A -> list Event -> Prop) :
  Q (Normal a) [] -> yields w (ret a) Q.
Proof.
  intros H st. exists (Normal a), st, []. rewrite app_nil_r. auto.
Qed.

Lemma yields_throw {A} e (Q : Outcome A -> list Event -> Prop) :
  Q (Thrown ("Error: " +++ e)) [] -> yields w (throw e) Q.
Proof.
  intros H st. exists (Thrown ("Error: " +++ e)), st, []. rewrite app_nil_r. auto.
Qed.

Lemma yields_pending {A} (Q : Outcome A -> list Event -> Prop) :
  Q Pending [] -> yields w pending Q.
Proof.
  intros H st. exists Pending, st, []. rewrite app_nil_r. auto.
Qed.

Lemma yields_lift {A} (o : Outcome A) (Q : Outcome A -> list Event -> Prop) :
  Q o [] -> yields w (lift o) Q.
Proof.
  intros H st. exists o, st, []. rewrite app_nil_r. auto.
Qed.

Lemma yields_read {A} (f : World -> A) (Q : Outcome A -> list Event -> Prop) :
  Q (Normal (f w)) [] -> yields w (read f) Q.
Proof.
  intros H st. exists (Normal (f w)), st, []. rewrite app_nil_r. auto.
Qed.

Lemma yields_query {A} (oracle : World -> nat -> A)
    (Q : Outcome A -> list Event -> Prop) :
  (forall n, Q (Normal (oracle w n)) []) -> yields w (query oracle) Q.
Proof.
  intros H st. eexists _, _, []. cbn. rewrite app_nil_r. auto.
Qed.

Lemma yields_emit e (Q : Outcome unit -> list Event -> Prop) :
  Q (Normal tt) [e] -> yields w (emit e) Q.
Proof.
  intros H st. eexists _, _, [e]. cbn. auto.
Qed.

Lemma yields_ask {A} e (oracle : World -> nat -> A)
    (Q : Outcome A -> list Event -> Prop) :
  (forall n, Q (Normal (oracle w n)) [e]) -> yields w (ask e oracle) Q.
Proof.
  intros H st. eexists _, _, [e]. cbn. auto.
Qed.

Lemma yields_bind {A B} (m : M A) (f : A -> M B)
    (Q1 : Outcome A -> list Event -> Prop)
    (Q : Outcome B -> list Event -> Prop) :
  yields w m Q1 ->
  (forall a n1, Q1 (Normal a) n1 ->
     yields w (f a) (fun o n2 => Q o (n1 ++ n2))) ->
  (forall e n1, Q1 (Thrown e) n1 -> Q (Thrown e) n1) ->
  (forall n1, Q1 Pending n1 -> Q Pending n1) ->
  yields w (bind m f) Q.
Proof.
  intros Hm Hf He Hp st.
  destruct (Hm st) as [o [st1 [n1 [Hr [Ht Hq]]]]].
  unfold run in *. cbn [bind]. rewrite Hr.
  destruct o as [a | e | ].
  - destruct (Hf a n1 Hq st1) as [o2 [st2 [n2 [Hr2 [Ht2 Hq2]]]]].
    exists o2, st2, (n1 ++ n2). unfold run in Hr2.
    split; [exact Hr2 |]. split; [| exact Hq2].
    rewrite Ht2, Ht. now rewrite app_assoc.
  - exists (Thrown e), st1, n1. auto.
  - exists Pending, st1, n1. auto.
Qed.

Lemma yields_tryCatch {A} (m : M A) (h : string -> M A)
    (Q1 Q : Outcome A -> list Event -> Prop) :
  yields w m Q1 ->
  (forall e n1, Q1 (Thrown e) n1 ->
     yields w (h e) (fun o n2 => Q o (n1 ++ n2))) ->
  (forall a n1, Q1 (Normal a) n1 -> Q (Normal a) n1) ->
  (forall n1, Q1 Pending n1 -> Q Pending n1) ->
  yields w (tryCatch m h) Q.
Proof.
  intros Hm Hh Hn Hp st.
  destruct (Hm st) as [o [st1 [n1 [Hr [Ht Hq]]]]].
  unfold run in *. cbn [tryCatch]. rewrite Hr.
  destruct o as [a | e | ].
  - exists (Normal a), st1, n1. auto.
  - destruct (Hh e n1 Hq st1) as [o2 [st2 [n2 [Hr2 [Ht2 Hq2]]]]].
    exists o2, st2, (n1 ++ n2). unfold run in Hr2.
    split; [exact Hr2 |]. split; [| exact Hq2].
    rewrite Ht2, Ht. now rewrite app_assoc.
  - exists Pending, st1, n1. auto.
Qed.

Lemma yields_tryCatchWith {A B} (m1 : M A) (m2 : A -> M B)
    (h : option A -> string -> M B)
    (Q1 : Outcome A -> list Event -> Prop)
    (Q : Outcome B -> list Event -> Prop) :
  yields w m1 Q1 ->
  (forall a n1, Q1 (Normal a) n1 ->
     yields w (tryCatch (m2 a) (h (Some a))) (fun o n2 => Q o (n1 ++ n2))) ->
  (forall e n1, Q1 (Thrown e) n1 ->
     yields w (h None e) (fun o n2 => Q o (n1 ++ n2))) ->
  (forall n1, Q1 Pending n1 -> Q Pending n1) ->
  yields w (tryCatchWith m1 m2 h) Q.
Proof.
  intros Hm H2 Hh Hp st.
  destruct (Hm st) as [o [st1 [n1 [Hr [Ht Hq]]]]].
  unfold run in *. cbn [tryCatchWith]. rewrite Hr.
  destruct o as [a | e | ].
  - destruct (H2 a n1 Hq st1) as [o2 [st2 [n2 [Hr2 [Ht2 Hq2]]]]].
    exists o2, st2, (n1 ++ n2). unfold run in Hr2.
    split; [exact Hr2 |]. split; [| exact Hq2].
    rewrite Ht2, Ht. now rewrite app_assoc.
  - destruct (Hh e n1 Hq st1) as [o2 [st2 [n2 [Hr2 [Ht2 Hq2]]]]].
    exists o2, st2, (n1 ++ n2). unfold run in Hr2.
    split; [exact Hr2 |]. split; [| exact Hq2].
    rewrite Ht2, Ht. now rewrite app_assoc.
  - exists Pending, st1, n1. auto.
Qed.

Lemma yields_callAsync {A} (m : M A) (Q1 : Outcome A -> list Event -> Prop)
    (Q : Outcome (Outcome A) -> list Event -> Prop) :
  yields w m Q1 ->
  (forall o n1, Q1 o n1 -> Q (Normal o) n1) ->
  yields w (callAsync m) Q.
Proof.
  intros Hm HQ st.
  destruct (Hm st) as [o [st1 [n1 [Hr [Ht Hq]]]]].
  unfold run in *. cbn [callAsync]. rewrite Hr.
  exists (Normal o), st1, n1. auto.
Qed.

Lemma yields_withProgress {A} (m : M A) (Q1 : Outcome A -> list Event -> Prop)
    (Q : Outcome unit -> list Event -> Prop) :
  yields w m Q1 ->
  (forall o n1, Q1 o n1 -> Q (Normal tt) n1) ->
  yields w (withProgress m) Q.
Proof.
  intros Hm HQ st.
  destruct (Hm st) as [o [st1 [n1 [Hr [Ht Hq]]]]].
  unfold run, withProgress in *. rewrite Hr.
  exists (Normal tt), st1, n1. eauto.
Qed.

(** The rules for a property of the events alone *)

Variable P : Event -> Prop.

Lemma emitsOnly_ret {A} (a : A) : emitsOnly w P (ret a).
Proof. apply yields_ret. constructor. Qed.

Lemma emitsOnly_throw {A} e : emitsOnly w P (@throw A e).
Proof. apply yields_throw. constructor. Qed.

Lemma emitsOnly_pending {A} : emitsOnly w P (@pending A).
Proof. apply yields_pending. constructor. Qed.

Lemma emitsOnly_lift {A} (o : Outcome A) : emitsOnly w P (lift o).
Proof. apply yields_lift. constructor. Qed.

Lemma emitsOnly_read {A} (f : World -> A) : emitsOnly w P (read f).
Proof. apply yields_read. constructor. Qed.

Lemma emitsOnly_query {A} (oracle : World -> nat -> A) :
  emitsOnly w P (query oracle).
Proof. apply yields_query. constructor. Qed.

Lemma emitsOnly_emit e : P e -> emitsOnly w P (emit e).
Proof. intros H. apply yields_emit. repeat constructor. exact H. Qed.

Lemma emitsOnly_ask {A} e (oracle : World -> nat -> A) :
  P e -> emitsOnly w P (ask e oracle).
Proof. intros H. apply yields_ask. repeat constructor. exact H. Qed.

Lemma emitsOnly_bind {A B} (m : M A) (f : A -> M B) :
  emitsOnly w P m -> (forall a, emitsOnly w P (f a)) ->
  emitsOnly w P (bind m f).
Proof.
  intros Hm Hf. eapply yields_bind; [exact Hm | | auto | auto].
  intros a n1 H1. eapply yields_weaken; [apply Hf |].
  intros o n2 H2. apply Forall_app. split; assumption.
Qed.

Lemma emitsOnly_tryCatch {A} (m : M A) (h : string -> M A) :
  emitsOnly w P m -> (forall e, emitsOnly w P (h e)) ->
  emitsOnly w P (tryCatch m h).
Proof.
  intros Hm Hh. eapply yields_tryCatch; [exact Hm | | auto | auto].
  intros e n1 H1. eapply yields_weaken; [apply Hh |].
  intros o n2 H2. apply Forall_app. split; assumption.
Qed.

Lemma emitsOnly_tryCatchWith {A B} (m1 : M A) (m2 : A -> M B)
    (h : option A -> string -> M B) :
  emitsOnly w P m1 -> (forall a, emitsOnly w P (m2 a)) ->
  (forall a e, emitsOnly w P (h a e)) ->
  emitsOnly w P (tryCatchWith m1 m2 h).
Proof.
  intros Hm H2 Hh. eapply yields_tryCatchWith; [exact Hm | | | auto].
  - intros a n1 H1.
    eapply yields_weaken; [apply emitsOnly_tryCatch; [apply H2 | apply Hh] |].
    intros o n2 Hn. apply Forall_app. split; assumption.
  - intros e n1 H1. eapply yields_weaken; [apply Hh |].
    intros o n2 Hn. apply Forall_app. split; assumption.
Qed.

Lemma emitsOnly_callAsync {A} (m : M A) :
  emitsOnly w P m -> emitsOnly w P (callAsync m).
Proof. intros Hm. eapply yields_callAsync; [exact Hm | auto]. Qed.

Lemma emitsOnly_withProgress {A} (m : M A) :
  emitsOnly w P m -> emitsOnly w P (withProgress m).
Proof. intros Hm. eapply yields_withProgress; [exact Hm | auto]. Qed.

End Yields.

(** ** Cleanup of the deployment *)

Lemma launchFlow_steps polls debugProvider cwd dockerImageUser portInfo
    containerEnv :
  launchFlow polls debugProvider cwd dockerImageUser portInfo containerEnv
  = tryCatchWith (deployStep cwd dockerImageUser portInfo containerEnv)
      (sessionStep polls debugProvider cwd portInfo)
      onLaunchError.
Proof. reflexivity. Qed.

Lemma truthyStr_append a b :
  Js.truthyStr (Some b) = true -> Js.truthyStr (Some (a +++ b)) = true.
Proof. destruct a; [auto | reflexivity]. Qed.

Lemma runDockerImageInK8s_name image exposedPorts env w st name_ st' :
  run (runDockerImageInK8s image exposedPorts env) w st = (Normal name_, st') ->
  Js.truthyStr (Some name_) = true.
Proof.
  unfold runDockerImageInK8s, run. intros H.
  apply bind_inv in H. destruct H as [now [st1 [_ H]]].
  apply bind_inv in H. destruct H as [runResult [st2 [_ H]]].
  destruct (negb (code runResult =? 0)%Z).
  - cbn in H. discriminate H.
  - cbn -[String.append] in H. injection H as <- _.
    apply truthyStr_append. reflexivity.
Qed.

Lemma deployStep_name cwd dockerImageUser portInfo containerEnv w st name_ st' :
  run (deployStep cwd dockerImageUser portInfo containerEnv) w st
  = (Normal name_, st') ->
  Js.truthyStr (Some name_) = true.
Proof.
  unfold deployStep, run. intros H.
  apply bind_inv in H. destruct H as [u1 [st1 [_ H]]].
  apply bind_inv in H. destruct H as [image [st2 [_ H]]].
  apply bind_inv in H. destruct H as [u2 [st3 [_ H]]].
  eapply runDockerImageInK8s_name. exact H.
Qed.

(** X13.  Once the deployment is there, a failure of any later step of the
    launch flow deletes it: the flow writes what was thrown to the output
    channel, as a template renders it ([Error: ] and the message for an
    error object), sends [delete deployment/...] with the name of the
    deployment to the cluster, and returns. *)
Theorem failure_after_deployment_cleans_up :
  forall polls debugProvider cwd dockerImageUser portInfo containerEnv w st
         appName st1 error st2,
    run (deployStep cwd dockerImageUser portInfo containerEnv) w st
    = (Normal appName, st1) ->
    run (sessionStep polls debugProvider cwd portInfo appName) w st1
    = (Thrown error, st2) ->
    exists more st',
      run (launchFlow polls debugProvider cwd dockerImageUser portInfo
             containerEnv) w st = (Normal tt, st')
      /\ trace st' = trace st2 ++
           [ShowOutput ("Debug(Launch) on kubernetes failed. See the errors: "
                        +++ error +++ ".") None;
            KubectlInvoke ("delete deployment/" +++ appName)] ++ more.
Proof.
  intros polls p cwd user pinfo env w st appName st1 error st2 Hd Hs.
  pose proof (deployStep_name _ _ _ _ _ _ _ _ Hd) as Hn.
  rewrite launchFlow_steps. unfold run in *.
  cbn [tryCatchWith tryCatch]. rewrite Hd, Hs.
  unfold onLaunchError. rewrite Hn.
  cbn -[String.append deleteResource].
  unfold deleteResource.
  cbn -[String.append].
  destruct (code (kubectl w (tick st2) _) =? 0)%Z;
    cbn -[String.append]; eexists _, _; (split; [reflexivity |]);
    cbn [trace]; rewrite <- ?app_assoc; cbn [Datatypes.app]; reflexivity.
Qed.

Lemma failure_after_deployment_cleans_up_witness :
  exists st',
    run (launchFlow 5 JavaDebugProvider.provider "/work/app" None
           {| debug := Some "5005"; app := Some "8080" |} [])
      Scenario.crashedPod initial = (Normal tt, st')
    /\ In (ShowOutput
             ("Debug(Launch) on kubernetes failed. See the errors: "
              +++ "Error: Failed to start the pod " +++ Js.dquote +++ "app-pod"
              +++ Js.dquote +++ ", it's status is " +++ Js.dquote +++ "Error"
              +++ Js.dquote +++ "..") None) (trace st')
    /\ In (KubectlInvoke "delete deployment/app-debug-4") (trace st').
Proof.
  pose (d := run (deployStep "/work/app" None
                    {| debug := Some "5005"; app := Some "8080" |} [])
               Scenario.crashedPod initial).
  assert (Hd : run (deployStep "/work/app" None
                      {| debug := Some "5005"; app := Some "8080" |} [])
                 Scenario.crashedPod initial
               = (Normal "app-debug-4", snd d)) by (vm_compute; reflexivity).
  pose (s := run (sessionStep 5 JavaDebugProvider.provider "/work/app"
                    {| debug := Some "5005"; app := Some "8080" |}
                    "app-debug-4")
               Scenario.crashedPod (snd d)).
  assert (Hs : run (sessionStep 5 JavaDebugProvider.provider "/work/app"
                      {| debug := Some "5005"; app := Some "8080" |}
                      "app-debug-4")
                 Scenario.crashedPod (snd d)
               = (Thrown
                    ("Error: Failed to start the pod " +++ Js.dquote
                     +++ "app-pod" +++ Js.dquote +++ ", it's status is "
                     +++ Js.dquote +++ "Error" +++ Js.dquote +++ "."),
                  snd s)) by (vm_compute; reflexivity).
  destruct (failure_after_deployment_cleans_up _ _ _ _ _ _ _ _ _ _ _ _ Hd Hs)
    as [more [st' [Hr Ht]]].
  exists st'. split; [exact Hr |].
  rewrite Ht. split; apply in_or_app; right.
  - left. vm_compute. reflexivity.
  - right. left. reflexivity.
Defined.

(** ** Following a call step by step *)

Section Steps.
Variable w : World.
Context {A B : Type}.
Variable f : A -> M B.
Variable Q : Outcome B -> list Event -> Prop.

Lemma yields_prefix (m : M B) (n1 : list Event) e :
  yields w m (fun o n2 => Q o (n1 ++ e :: n2)) ->
  yields w m (fun o n2 => Q o ((n1 ++ [e]) ++ n2)).
Proof.
  intros H. eapply yields_weaken; [exact H |].
  intros o new Hq. cbn beta in *. now rewrite <- app_assoc.
Qed.

Lemma step_ret a : yields w (f a) Q -> yields w (bind (ret a) f) Q.
Proof. intros H st. exact (H st). Qed.

Lemma step_read (g : World -> A) :
  yields w (f (g w)) Q -> yields w (bind (read g) f) Q.
Proof. intros H st. exact (H st). Qed.

Lemma step_throw e :
  Q (Thrown ("Error: " +++ e)) [] -> yields w (bind (throw e) f) Q.
Proof.
  intros H st. exists (Thrown ("Error: " +++ e)), st, []. rewrite app_nil_r. auto.
Qed.

Lemma step_pending : Q Pending [] -> yields w (bind pending f) Q.
Proof.
  intros H st. exists Pending, st, []. rewrite app_nil_r. auto.
Qed.

Lemma step_lift (o : Outcome A) :
  match o with
  | Normal a => yields w (f a) Q
  | Thrown e => Q (Thrown e) []
  | Pending => Q Pending []
  end ->
  yields w (bind (lift o) f) Q.
Proof.
  intros H st. destruct o as [a | e | ].
  - exact (H st).
  - exists (Thrown e), st, []. rewrite app_nil_r. auto.
  - exists Pending, st, []. rewrite app_nil_r. auto.
Qed.

Lemma step_query (oracle : World -> nat -> A) :
  (forall n, yields w (f (oracle w n)) Q) ->
  yields w (bind (query oracle) f) Q.
Proof.
  intros H st.
  destruct (H (tick st) {| tick := S (tick st); trace := trace st |})
    as [o [st' [new [Hr [Ht Hq]]]]].
  exists o, st', new. auto.
Qed.

Lemma step_ask e (oracle : World -> nat -> A) :
  (forall n, yields w (f (oracle w n)) (fun o new => Q o (e :: new))) ->
  yields w (bind (ask e oracle) f) Q.
Proof.
  intros H st.
  destruct (H (tick st)
              {| tick := S (tick st); trace := trace st ++ [e] |})
    as [o [st' [new [Hr [Ht Hq]]]]].
  exists o, st', (e :: new). split; [exact Hr |]. split; [| exact Hq].
  rewrite Ht. cbn [trace]. now rewrite <- app_assoc.
Qed.

Lemma step_if (b : bool) (m1 m2 : M A) :
  (if b then yields w (bind m1 f) Q else yields w (bind m2 f) Q) ->
  yields w (bind (if b then m1 else m2) f) Q.
Proof. destruct b; auto. Qed.
End Steps.

Lemma step_emit w {B} e (f : unit -> M B) Q :
  yields w (f tt) (fun o new => Q o (e :: new)) ->
  yields w (bind (emit e) f) Q.
Proof.
  intros H st.
  destruct (H {| tick := tick st; trace := trace st ++ [e] |})
    as [o [st' [new [Hr [Ht Hq]]]]].
  exists o, st', (e :: new). split; [exact Hr |]. split; [| exact Hq].
  rewrite Ht. cbn [trace]. now rewrite <- app_assoc.
Qed.

Lemma step_assoc w {A B C} (m : M A) (f : A -> M B) (g : B -> M C) Q :
  yields w (bind m (fun a => bind (f a) g)) Q ->
  yields w (bind (bind m f) g) Q.
Proof.
  intros H st. destruct (H st) as [o [st' [new [Hr [Ht Hq]]]]].
  exists o, st', new. split; [| auto].
  unfold run in *. cbn [bind] in *.
  destruct (m w st) as [[a | e | ] st1]; exact Hr.
Qed.

Lemma step_last w {A} (m : M A) Q :
  yields w (bind m ret) Q -> yields w m Q.
Proof.
  intros H st. destruct (H st) as [o [st' [new [Hr [Ht Hq]]]]].
  exists o, st', new. split; [| auto].
  unfold run in *. cbn [bind ret] in *.
  destruct (m w st) as [[a | e | ] st1]; exact Hr.
Qed.

(** One step of a call written with the primitives of the host *)
Ltac step :=
  lazymatch goal with
  | |- yields _ (bind (bind _ _) _) _ => apply step_assoc
  | |- yields _ (bind (ret _) _) _ => apply step_ret
  | |- yields _ (bind (read _) _) _ => apply step_read
  | |- yields _ (bind (throw _) _) _ => apply step_throw
  | |- yields _ (bind pending _) _ => apply step_pending
  | |- yields _ (bind (lift _) _) _ => apply step_lift
  | |- yields _ (bind (emit _) _) _ => apply step_emit
  | |- yields _ (bind (ask _ _) _) _ => apply step_ask; intros ?
  | |- yields _ (bind (query _) _) _ => apply step_query; intros ?
  | |- yields _ (ret _) _ => apply yields_ret
  | |- yields _ (throw _) _ => apply yields_throw
  | |- yields _ pending _ => apply yields_pending
  | |- yields _ (emit _) _ => apply step_last
  | |- yields _ (ask _ _) _ => apply step_last
  | |- yields _ (query _) _ => apply step_last
  | |- yields _ (read _) _ => apply step_last
  | |- yields _ (lift _) _ => apply step_last
  end.

Ltac branch :=
  match goal with
  | |- yields _ (bind (if ?x then _ else _) _) _ => destruct x eqn:?
  | |- yields _ (bind (match ?x with _ => _ end) _) _ => destruct x eqn:?
  | |- yields _ (if ?x then _ else _) _ => destruct x eqn:?
  | |- yields _ (match ?x with _ => _ end) _ => destruct x eqn:?
  | |- match ?x with _ => _ end => destruct x eqn:?
  end.

Ltac steps := repeat first [step | branch].

(** X14.  When the build of the image fails, the launch flow runs and
    deletes nothing in the cluster: the only command that it can have sent
    is [config view -o json], the reading of the cluster configuration that
    prepares the build.  The last thing it does is to report the failure,
    with the error that was thrown, to the output channel; it has nothing
    to clean up, and returns. *)
Theorem failed_build_leaves_cluster_alone :
  forall polls debugProvider cwd dockerImageUser portInfo containerEnv w,
    (forall n image dir env,
        code (shellExecCore w n ("docker build -t " +++ image +++ " .")
                dir env) <> 0%Z) ->
    yields w
      (launchFlow polls debugProvider cwd dockerImageUser portInfo containerEnv)
      (fun o new =>
         o = Normal tt
         /\ exists before error,
              new = before ++
                [ShowOutput
                   ("Debug(Launch) on kubernetes failed. See the errors: "
                    +++ error +++ ".") None]
              /\ Forall (fun e => clusterCommand e ->
                                  e = KubectlInvoke "config view -o json")
                   before).
Proof.
  intros polls p cwd user pinfo env w Hb.
  rewrite launchFlow_steps.
  eapply yields_tryCatchWith
    with (Q1 := fun o new =>
                  (exists e, o = Thrown e)
                  /\ Forall (fun e => clusterCommand e ->
                                      e = KubectlInvoke "config view -o json")
                       new).
  - unfold deployStep, report, buildDockerImage, findVersion, resolveDockerEnv,
      kubectlUtils_getKubeconfig,
      DockerClient.build, DockerClient.push, shell_execCore, shell_exec,
      showOutput, showErrorMessage.
    cbn [DockerClient.cwd DockerClient.env].
    steps;
      try match goal with
          | Hc : (code (shellExecCore w _ _ _ _) =? 0)%Z = true |- _ =>
              exfalso; apply Z.eqb_eq in Hc; exact (Hb _ _ _ _ Hc)
          | Hc : member ?o _ = Pending |- _ =>
              exfalso; destruct o; discriminate Hc
          end.
    all: cbn beta; (split; [eexists; reflexivity |]);
      repeat (apply Forall_cons;
              [first [cbn; tauto | intros _; reflexivity] |]);
      apply Forall_nil.
  - intros a n1 [[e He] _]. discriminate He.
  - intros e n1 [_ Hn]. unfold onLaunchError, showOutput.
    cbn [Js.truthyStr Js.ofString Js.truthy].
    steps. cbn beta. split; [reflexivity |].
    exists n1, e. split; [reflexivity | exact Hn].
  - intros n1 [[e He] _]. discriminate He.
Qed.

Lemma failed_build_leaves_cluster_alone_witness :
  yields
    (Scenario.host Scenario.appFile None
       (fun cmd => if String.prefix "docker build" cmd
                   then Scenario.failure "no daemon"
                   else Scenario.ok EmptyString)
       None None true [])
    (launchFlow 5 JavaDebugProvider.provider "/work/app" None
       {| debug := Some "5005"; app := Some "8080" |} [])
    (fun o new =>
       o = Normal tt
       /\ exists before error,
            new = before ++
              [ShowOutput
                 ("Debug(Launch) on kubernetes failed. See the errors: "
                  +++ error +++ ".") None]
            /\ Forall (fun e => clusterCommand e ->
                                e = KubectlInvoke "config view -o json")
                 before)
  /\ last
       (trace
          (snd (run (launchFlow 5 JavaDebugProvider.provider "/work/app" None
                       {| debug := Some "5005"; app := Some "8080" |} [])
                  (Scenario.host Scenario.appFile None
                     (fun cmd => if String.prefix "docker build" cmd
                                 then Scenario.failure "no daemon"
                                 else Scenario.ok EmptyString)
                     None None true [])
                  initial)))
       Kill
     = ShowOutput
         ("Debug(Launch) on kubernetes failed. See the errors: "
          +++ "Error: Image build failed: no daemon.") None.
Proof.
  split; [| vm_compute; reflexivity].
  apply failed_build_leaves_cluster_alone.
  intros n image dir env. cbn. discriminate.
Defined.

(** ** What the attach entry does in the cluster *)

Ltac looks :=
  first [ exact I
        | left; exact (prefix_append "get pod" _)
        | right; exact (prefix_append "exec " _)
        | idtac ].

Ltac emits :=
  repeat lazymatch goal with
         | |- emitsOnly _ _ (bind _ _) => apply emitsOnly_bind; [| intros ?]
         | |- emitsOnly _ _ (ret _) => apply emitsOnly_ret
         | |- emitsOnly _ _ (throw _) => apply emitsOnly_throw
         | |- emitsOnly _ _ pending => apply emitsOnly_pending
         | |- emitsOnly _ _ (lift _) => apply emitsOnly_lift
         | |- emitsOnly _ _ (read _) => apply emitsOnly_read
         | |- emitsOnly _ _ (query _) => apply emitsOnly_query
         | |- emitsOnly _ _ (emit _) => apply emitsOnly_emit; looks
         | |- emitsOnly _ _ (ask _ _) => apply emitsOnly_ask; looks
         | |- emitsOnly _ _ (tryCatch _ _) =>
             apply emitsOnly_tryCatch; [| intros ?]
         | |- emitsOnly _ _ (callAsync _) => apply emitsOnly_callAsync
         | |- emitsOnly _ _ (withProgress _) => apply emitsOnly_withProgress
         | |- emitsOnly _ _ (if ?b then _ else _) => destruct b
         | |- emitsOnly _ _ (match ?x with _ => _ end) => destruct x
         end.

Ltac unfold_host :=
  unfold kubectl_invokeAsync, shell_exec, shell_execCore, showOutput,
    showErrorMessage, showQuickPick, showInputBox, showInformationMessage,
    sleep, executeCommand, isIntegerString, report, getPort,
    kubectlUtils_getKubeconfig in *.

Section AttachEvents.
Variable w : World.

Lemma java_isDebuggerInstalled_looks :
  emitsOnly w looksOnly JavaDebugProvider.isDebuggerInstalled.
Proof.
  unfold JavaDebugProvider.isDebuggerInstalled. unfold_host. emits.
Qed.

Lemma java_startDebugging_looks workspaceFolder sessionName port_ :
  emitsOnly w looksOnly
    (JavaDebugProvider.startDebugging workspaceFolder sessionName port_).
Proof. unfold JavaDebugProvider.startDebugging. emits. Qed.

Lemma java_resolvePortsFromPod_looks pod container :
  emitsOnly w looksOnly (JavaDockerResolver.resolvePortsFromPod pod container).
Proof.
  unfold JavaDockerResolver.resolvePortsFromPod. unfold_host. emits.
Qed.

Lemma node_resolvePortsFromPod_looks pod container :
  emitsOnly w looksOnly (NodeDockerResolver.resolvePortsFromPod pod container).
Proof.
  unfold NodeDockerResolver.resolvePortsFromPod. unfold_host. emits.
Qed.

Lemma registered_isDebuggerInstalled p :
  registered p -> emitsOnly w looksOnly (isDebuggerInstalled p).
Proof.
  intros [-> | ->]; cbn [isDebuggerInstalled JavaDebugProvider.provider
                         NodeDebugProvider.provider].
  - apply java_isDebuggerInstalled_looks.
  - emits.
Qed.

Lemma registered_startDebugging p workspaceFolder sessionName port_ :
  registered p ->
  emitsOnly w looksOnly (startDebugging p workspaceFolder sessionName port_).
Proof.
  intros [-> | ->]; cbn [startDebugging JavaDebugProvider.provider
                         NodeDebugProvider.provider].
  - apply java_startDebugging_looks.
  - emits.
Qed.

Lemma registered_resolvePortsFromPod p pod container :
  registered p ->
  emitsOnly w looksOnly
    (resolvePortsFromPod (getDockerResolver p) pod container).
Proof.
  intros [-> | ->]; cbn [resolvePortsFromPod getDockerResolver
                         JavaDebugProvider.provider NodeDebugProvider.provider
                         JavaDockerResolver.resolver NodeDockerResolver.resolver].
  - apply java_resolvePortsFromPod_looks.
  - apply node_resolvePortsFromPod_looks.
Qed.

Lemma handle_looks p workspaceFolder debugType proxyDebugPort_ proxyAppPort_
    s e :
  registered p ->
  emitsOnly w looksOnly
    (handle p None workspaceFolder debugType proxyDebugPort_ proxyAppPort_ s e).
Proof.
  intros Hp.
  unfold handle, onStdoutData, onStderrData, onClose, onDidStart,
    onDidTerminate.
  cbn [Js.truthyStr Js.ofString Js.truthy].
  unfold_host. destruct e; emits.
  all: try (apply registered_startDebugging; exact Hp).
Qed.

Lemma untilSettled_looks p workspaceFolder debugType proxyDebugPort_
    proxyAppPort_ events :
  registered p ->
  forall s,
    emitsOnly w looksOnly
      (untilSettled p None workspaceFolder debugType proxyDebugPort_
         proxyAppPort_ s events).
Proof.
  intros Hp. induction events as [|e events IH]; intros s;
    cbn [untilSettled]; emits.
  - now apply handle_looks.
  - apply IH.
Qed.

Lemma startDebug_looks p workspaceFolder debugType proxyDebugPort_
    proxyAppPort_ events :
  registered p ->
  emitsOnly w looksOnly
    (startDebug p None workspaceFolder debugType proxyDebugPort_
       proxyAppPort_ events).
Proof.
  intros Hp. unfold startDebug. emits. now apply untilSettled_looks.
Qed.

Lemma createPortForward_looks podName debugPort appPort :
  emitsOnly w looksOnly (createPortForward podName debugPort appPort).
Proof. unfold createPortForward. unfold_host. emits. Qed.

Lemma getDebugProvider_registered :
  yields w (ProviderRegistry.getDebugProvider None)
    (fun o new => Forall looksOnly new
                  /\ forall p, o = Normal (Some p) -> registered p).
Proof.
  unfold ProviderRegistry.getDebugProvider, ProviderRegistry.showProviderPick.
  cbn [Js.truthyStr Js.ofString Js.truthy]. unfold_host. steps.
  - cbn beta. split; [repeat constructor |].
    intros p Hp. injection Hp as Hp.
    destruct n0 as [|[|i]]; cbn in Hp.
    + injection Hp as <-. now left.
    + injection Hp as <-. now right.
    + destruct i; discriminate Hp.
  - cbn beta. split; [repeat constructor |]. intros p Hp. discriminate Hp.
Qed.

Section Parsers.
Variable parsePod : string -> DebugServiceAttach.Pod + string.
Variable parsePods : string -> DebugServiceAttach.Pods + string.

Lemma selectPod_looks pod :
  emitsOnly w looksOnly (DebugServiceAttach.selectPod parsePod parsePods pod).
Proof. unfold DebugServiceAttach.selectPod. unfold_host. emits. Qed.

Lemma selectContainer_looks containers_ :
  emitsOnly w looksOnly (DebugServiceAttach.selectContainer containers_).
Proof. unfold DebugServiceAttach.selectContainer. unfold_host. emits. Qed.

Lemma attachFlow_looks p cwd targetPod portInfo :
  registered p ->
  emitsOnly w looksOnly (DebugServiceAttach.attachFlow p cwd targetPod portInfo).
Proof.
  intros Hp. unfold DebugServiceAttach.attachFlow. unfold_host. emits.
  - apply createPortForward_looks.
  - now apply startDebug_looks.
Qed.

Lemma attachTarget_looks p cwd pod :
  registered p ->
  emitsOnly w looksOnly
    (DebugServiceAttach.attachTarget parsePod parsePods p cwd pod).
Proof.
  intros Hp. unfold DebugServiceAttach.attachTarget. emits.
  - apply selectPod_looks.
  - apply selectContainer_looks.
  - now apply registered_resolvePortsFromPod.
  - now apply attachFlow_looks.
Qed.

Lemma attachDebug_looks workspaceFolder pod :
  emitsOnly w looksOnly
    (DebugServiceAttach.attachDebug parsePod parsePods workspaceFolder pod).
Proof.
  unfold DebugServiceAttach.attachDebug.
  destruct workspaceFolder as [folder|]; [| emits].
  eapply yields_bind; [apply getDebugProvider_registered | | |].
  - intros [p|] n1 [Hn Hp]; [specialize (Hp p eq_refl) |].
    + eapply yields_weaken with (Q := fun _ new => Forall looksOnly new).
      * change (emitsOnly w looksOnly
                  (installed <- isDebuggerInstalled p ;;
                   if negb installed then ret tt
                   else DebugServiceAttach.attachTarget parsePod parsePods p
                          (fsPath folder) pod)).
        emits.
        -- now apply registered_isDebuggerInstalled.
        -- now apply attachTarget_looks.
      * intros o n2 H2. apply Forall_app. split; assumption.
    + apply yields_ret. now rewrite app_nil_r.
  - intros e n1 [Hn _]. exact Hn.
  - intros n1 [Hn _]. exact Hn.
Qed.
End Parsers.
End AttachEvents.

(** X15.  Attaching looks, it does not touch: whatever the answers of the
    host, of the user and of the cluster, and however the call ends, the
    attach entry sends no other command to the cluster than [get pod...]
    and [exec], so that it creates and deletes nothing there, and it never
    builds or pushes an image. *)
Theorem attach_only_looks :
  forall parsePod parsePods workspaceFolder pod w st,
  exists new,
    trace (snd (run (DebugServiceAttach.attachDebug parsePod parsePods
                       workspaceFolder pod) w st))
    = trace st ++ new
    /\ Forall looksOnly new.
Proof.
  intros parsePod parsePods workspaceFolder pod w st.
  destruct (attachDebug_looks w parsePod parsePods workspaceFolder pod st)
    as [o [st' [new [Hr [Ht Hq]]]]].
  exists new. rewrite Hr. split; assumption.
Qed.

(** X16.  When the cluster cannot tell about the pod, or the pods, the
    attach entry shows the error output of the command and stops: neither
    the user nor the cluster is asked anything more, and the call returns. *)
Theorem attach_stops_without_pods :
  forall parsePod parsePods debugProvider cwd pod w,
    (forall n cmd,
        String.prefix "get pod" cmd = true -> code (kubectl w n cmd) <> 0%Z) ->
    yields w
      (DebugServiceAttach.attachTarget parsePod parsePods debugProvider cwd pod)
      (fun o new =>
         o = Normal tt
         /\ exists cmd n,
              new = [KubectlInvoke cmd;
                     ShowErrorMessage (stderr (kubectl w n cmd))]).
Proof.
  intros parsePod parsePods p cwd pod w Hk.
  unfold DebugServiceAttach.attachTarget, DebugServiceAttach.selectPod.
  unfold_host.
  destruct (Js.truthyStr pod); steps;
    try match goal with
        | Hc : negb (code (kubectl w ?n ?cmd) =? 0)%Z = false |- _ =>
            exfalso; apply negb_false_iff, Z.eqb_eq in Hc;
            apply (Hk n cmd); [first [apply prefix_append | reflexivity] | exact Hc]
        end.
  all: cbn beta; split; [reflexivity | eexists _, _; reflexivity].
Qed.

Lemma attach_stops_without_pods_witness :
  yields Scenario.noDelete
    (DebugServiceAttach.attachTarget
       (fun _ => inr "SyntaxError") (fun _ => inr "SyntaxError")
       JavaDebugProvider.provider "/work/app" (Some "app-pod"))
    (fun o new =>
       o = Normal tt
       /\ exists cmd n,
            new = [KubectlInvoke cmd;
                   ShowErrorMessage (stderr (kubectl Scenario.noDelete n cmd))]).
Proof.
  apply attach_stops_without_pods.
  intros n cmd _. cbn. discriminate.
Defined.




(** ** The environment of the build *)




(** The environment of a build for a local cluster *)
Example resolveDockerEnv_minikube :
  run resolveDockerEnv Scenario.minikube initial
  = (Normal [("DOCKER_API_VERSION", "1.35");
             ("DOCKER_TLS_VERIFY", "1");
             ("DOCKER_HOST", "tcp://192.168.99.100:2376");
             ("DOCKER_CERT_PATH", "/home/me/.minikube")],
     {| tick := 3;
        trace := [ShellExec ("docker version --format " +++ Js.dquote
                             +++ "{{.Client.APIVersion}}" +++ Js.dquote);
                  KubectlInvoke "config view -o json"] |}).
Proof. vm_compute. reflexivity. Qed.

(** ** What the launch flow deletes *)

Ltac emits_with leaf :=
  repeat lazymatch goal with
         | |- emitsOnly _ _ (bind _ _) => apply emitsOnly_bind; [| intros ?]
         | |- emitsOnly _ _ (ret _) => apply emitsOnly_ret
         | |- emitsOnly _ _ (throw _) => apply emitsOnly_throw
         | |- emitsOnly _ _ pending => apply emitsOnly_pending
         | |- emitsOnly _ _ (lift _) => apply emitsOnly_lift
         | |- emitsOnly _ _ (read _) => apply emitsOnly_read
         | |- emitsOnly _ _ (query _) => apply emitsOnly_query
         | |- emitsOnly _ _ (emit _) => apply emitsOnly_emit; leaf
         | |- emitsOnly _ _ (ask _ _) => apply emitsOnly_ask; leaf
         | |- emitsOnly _ _ (tryCatch _ _) =>
             apply emitsOnly_tryCatch; [| intros ?]
         | |- emitsOnly _ _ (tryCatchWith _ _ _) =>
             apply emitsOnly_tryCatchWith; [| intros ? | intros ? ?]
         | |- emitsOnly _ _ (callAsync _) => apply emitsOnly_callAsync
         | |- emitsOnly _ _ (withProgress _) => apply emitsOnly_withProgress
         | |- emitsOnly _ _ (if ?b then _ else _) => destruct b
         | |- emitsOnly _ _ (match ?x with _ => _ end) => destruct x
         end.

Ltac keeps :=
  first [ exact I
        | reflexivity
        | let H := fresh in
          cbn -[String.append]; intros H;
          first [ discriminate H | reflexivity ]
        | idtac ].

Lemma yields_conj {A} w (m : M A) (Q1 Q2 : Outcome A -> list Event -> Prop) :
  yields w m Q1 -> yields w m Q2 ->
  yields w m (fun o new => Q1 o new /\ Q2 o new).
Proof.
  intros H1 H2 st.
  destruct (H1 st) as [o [st' [new [Hr [Ht Hq]]]]].
  destruct (H2 st) as [o2 [st2 [new2 [Hr2 [Ht2 Hq2]]]]].
  rewrite Hr in Hr2. injection Hr2 as <- <-.
  rewrite Ht in Ht2. apply app_inv_head in Ht2. subst new2.
  exists o, st', new. auto.
Qed.

Lemma deletesNothing_only name e : deletesNothing e -> deletesOnly name e.
Proof.
  destruct e; cbn; auto. intros H1 H2. rewrite H1 in H2. discriminate H2.
Qed.

Lemma runCmd_join deploymentName image exposedPorts env :
  exists rest,
    Js.join " " (runCmd deploymentName image exposedPorts env)
    = "run " +++ deploymentName +++ rest.
Proof.
  unfold runCmd, Js.join. cbn [Datatypes.app String.concat].
  eexists. cbn [String.append]. reflexivity.
Qed.

Section Deleting.
Variable w : World.

Lemma runDockerImageInK8s_runs image exposedPorts env :
  yields w (runDockerImageInK8s image exposedPorts env)
    (fun o new =>
       Forall deletesNothing new
       /\ forall name, o = Normal name ->
            exists rest, In (KubectlInvoke ("run " +++ name +++ rest)) new).
Proof.
  unfold runDockerImageInK8s. unfold_host.
  apply step_query. intros n.
  match goal with
  | |- context [Js.join " " (runCmd ?d ?i ?p ?e)] =>
      destruct (runCmd_join d i p e) as [rest Hj]; rewrite Hj
  end.
  steps; cbn beta.
  - split; [repeat (apply Forall_cons; [keeps |]); apply Forall_nil |].
    intros name H. discriminate H.
  - split; [repeat (apply Forall_cons; [keeps |]); apply Forall_nil |].
    intros name H. injection H as <-. exists rest. now left.
Qed.

Lemma buildDockerImage_keeps cwd dockerImageUser :
  emitsOnly w deletesNothing (buildDockerImage cwd dockerImageUser).
Proof.
  unfold buildDockerImage, findVersion, resolveDockerEnv, DockerClient.build,
    DockerClient.push.
  unfold_host. emits_with keeps.
Qed.


Lemma deleteResource_only name :
  emitsOnly w (deletesOnly name) (deleteResource ("deployment/" +++ name)).
Proof. unfold deleteResource. unfold_host. emits_with keeps. Qed.

Lemma findPods_only name labelQuery :
  emitsOnly w (deletesOnly name) (findPods labelQuery).
Proof. unfold findPods. unfold_host. emits_with keeps. Qed.

Lemma waitForRunningPod_only name podName polls :
  emitsOnly w (deletesOnly name) (waitForRunningPod polls podName).
Proof.
  induction polls as [|polls IH]; cbn [waitForRunningPod]; unfold_host;
    emits_with keeps.
  exact IH.
Qed.

Lemma createPortForward_only name podName debugPort appPort :
  emitsOnly w (deletesOnly name) (createPortForward podName debugPort appPort).
Proof. unfold createPortForward. unfold_host. emits_with keeps. Qed.

Lemma registered_startDebugging_only name p workspaceFolder sessionName port_ :
  registered p ->
  emitsOnly w (deletesOnly name)
    (startDebugging p workspaceFolder sessionName port_).
Proof.
  intros [-> | ->]; cbn [startDebugging JavaDebugProvider.provider
                         NodeDebugProvider.provider];
    unfold JavaDebugProvider.startDebugging; emits_with keeps.
Qed.

Lemma handle_only name p workspaceFolder debugType proxyDebugPort_
    proxyAppPort_ s e :
  registered p ->
  emitsOnly w (deletesOnly name)
    (handle p (Some name) workspaceFolder debugType proxyDebugPort_
       proxyAppPort_ s e).
Proof.
  intros Hp.
  unfold handle, onStdoutData, onStderrData, onClose, onDidStart,
    onDidTerminate.
  cbn [Js.show]. unfold_host. destruct e; emits_with keeps.
  all: first [ apply registered_startDebugging_only; exact Hp
             | apply deleteResource_only ].
Qed.

Lemma untilSettled_only name p workspaceFolder debugType proxyDebugPort_
    proxyAppPort_ events :
  registered p ->
  forall s,
    emitsOnly w (deletesOnly name)
      (untilSettled p (Some name) workspaceFolder debugType proxyDebugPort_
         proxyAppPort_ s events).
Proof.
  intros Hp. induction events as [|e events IH]; intros s;
    cbn [untilSettled]; emits_with keeps.
  - now apply handle_only.
  - apply IH.
Qed.

Lemma sessionStep_only polls p cwd portInfo name :
  registered p ->
  emitsOnly w (deletesOnly name) (sessionStep polls p cwd portInfo name).
Proof.
  intros Hp. unfold sessionStep, startDebug. unfold_host. emits_with keeps.
  - apply findPods_only.
  - apply waitForRunningPod_only.
  - apply createPortForward_only.
  - now apply untilSettled_only.
Qed.

Lemma onLaunchError_only name error :
  emitsOnly w (deletesOnly name) (onLaunchError (Some name) error).
Proof.
  unfold onLaunchError. cbn [Js.show]. unfold_host. emits_with keeps.
  apply deleteResource_only.
Qed.

Lemma onLaunchError_nothing error :
  emitsOnly w deletesNothing (onLaunchError None error).
Proof.
  unfold onLaunchError. cbn [Js.truthyStr Js.ofString Js.truthy].
  unfold_host. emits_with keeps.
Qed.
End Deleting.




(** ** The resolution of ports in a running pod *)

(** X20.  Both resolvers, when the process listing cannot be had: the
    [exec] command is sent once, its output is not looked at, the user is
    asked for the debug port, and the resolution returns what was typed,
    trimmed, with no application port. *)
Theorem pod_resolution_without_listing :
  forall pod container w st,
    (code (kubectl w (tick st) (NodeDockerResolver.execCmd pod container))
     <> 0%Z ->
     run (NodeDockerResolver.resolvePortsFromPod pod container) w st
     = (Normal {| debug := typedPort (inputBox w (S (tick st))); app := None |},
        {| tick := S (S (tick st));
           trace := trace st ++
             [KubectlInvoke (NodeDockerResolver.execCmd pod container);
              ShowInputBox
                "Please specify debug port exposed by the container (e.g. 9229)"
                "9229"] |}))
    /\ (code (kubectl w (tick st) (JavaDockerResolver.execCmd pod container))
        <> 0%Z ->
        run (JavaDockerResolver.resolvePortsFromPod pod container) w st
        = (Normal {| debug := typedPort (inputBox w (S (tick st)));
                     app := None |},
           {| tick := S (S (tick st));
              trace := trace st ++
                [KubectlInvoke (JavaDockerResolver.execCmd pod container);
                 ShowInputBox
                   "Please specify debug port exposed by the container (e.g. 5005)"
                   "5005"] |})).
Proof.
  intros pod container w st. split; intros Hc; apply Z.eqb_neq in Hc.
  - rewrite (node_resolvePortsFromPod_run pod container w st None);
      [reflexivity | now rewrite Hc].
  - rewrite (java_resolvePortsFromPod_run pod container w st None);
      [reflexivity | now rewrite Hc].
Qed.

Lemma pod_resolution_without_listing_witness :
  run (JavaDockerResolver.resolvePortsFromPod "app-pod" None)
    Scenario.noDelete initial
  = (Normal {| debug := None; app := None |},
     {| tick := 2;
        trace := [KubectlInvoke "exec app-pod  -- ps -ef";
                  ShowInputBox
                    "Please specify debug port exposed by the container (e.g. 5005)"
                    "5005"] |}).
Proof.
  apply (proj2 (pod_resolution_without_listing "app-pod" None
                  Scenario.noDelete initial)).
  cbn. discriminate.
Defined.

(** ** The shape of a debug port read from the build file *)

Lemma split_without c s :
  Forall (fun x => without c x = true) (Js.split c s).
Proof.
  induction s as [|a s IH]; cbn [Js.split].
  - repeat constructor.
  - destruct (Ascii.eqb a c) eqn:E.
    + constructor; [reflexivity | exact IH].
    + destruct (Js.split c s) as [|h t].
      * repeat constructor. cbn. now rewrite E.
      * inversion IH as [|x l Hh Ht]; subst.
        constructor; [| exact Ht]. cbn. now rewrite E, Hh.
Qed.

Lemma lastElement_without c s p :
  lastElement (Js.split c s) = Some p -> without c p = true.
Proof.
  unfold lastElement. intros H. apply nth_error_In in H.
  pose proof (split_without c s) as Hf. rewrite Forall_forall in Hf.
  now apply Hf.
Qed.

(** X21.  A debug port read from the build file never contains a colon:
    of an address written as host and port, both resolvers keep what follows
    the last colon, and the defaults have none. *)
Theorem file_debug_port_has_no_colon :
  forall dockerParser env w st portInfo env' st' p,
    debug portInfo = Some p ->
    (run (NodeDockerResolver.resolvePortsFromFile dockerParser env) w st
     = (Normal (portInfo, env'), st') ->
     without ":" p = true)
    /\ (run (JavaDockerResolver.resolvePortsFromFile dockerParser env) w st
        = (Normal (portInfo, env'), st') ->
        without ":" p = true).
Proof.
  intros dp env w st portInfo env' st' p Hd. split; intros H.
  - destruct (node_resolvePortsFromFile_debug dp env w st)
      as [pi [e [s [Hr Hdebug]]]].
    rewrite H in Hr. injection Hr as <- _ _.
    rewrite Hd in Hdebug.
    destruct (searchLaunchArgs dp NodeDockerResolver.nodeDebugOptsRegExp)
      as [nodeCmd|]; [| discriminate Hdebug].
    unfold NodeDockerResolver.debugPortOf in Hdebug.
    destruct (negb (Js.truthyStr (RegExp.group nodeCmd 3))).
    + injection Hdebug as ->. clear Hd.
      destruct (RegExp.caps nodeCmd 2) as [f|]; [| reflexivity].
      destruct (String.eqb f "inspect"); reflexivity.
    + symmetry in Hdebug. eapply lastElement_without. exact Hdebug.
  - pose proof (java_resolvePortsFromFile_debug dp env w st _ _ _ H) as Hdebug.
    rewrite Hd in Hdebug.
    destruct (searchLaunchArgs dp JavaDockerResolver.javaDebugOptsRegExp)
      as [matches|].
    + unfold JavaDockerResolver.debugPortOf in Hdebug.
      destruct (RegExp.group matches 2) as [g|]; [| discriminate Hdebug].
      cbn [member obind] in Hdebug.
      destruct (nth_error (Js.split "=" g) 1) as [a|]; [| discriminate Hdebug].
      cbn [member obind] in Hdebug. injection Hdebug as Hdebug.
      eapply lastElement_without. exact Hdebug.
    + destruct (searchLaunchArgs dp JavaDockerResolver.javaOptsRegExp);
        [| discriminate Hdebug].
      injection Hdebug as ->. reflexivity.
Qed.

Lemma file_debug_port_has_no_colon_witness :
  run (NodeDockerResolver.resolvePortsFromFile
         (Scenario.dockerfile "node:8" []
            ["node --inspect=[::1]:9230 index.js"]) [])
    Scenario.debugOnly initial
  = (Normal ({| debug := Some "9230"; app := None |}, []), initial)
  /\ without ":" "9230" = true.
Proof.
  assert (H : run (NodeDockerResolver.resolvePortsFromFile
                     (Scenario.dockerfile "node:8" []
                        ["node --inspect=[::1]:9230 index.js"]) [])
                Scenario.debugOnly initial
              = (Normal ({| debug := Some "9230"; app := None |}, []),
                 initial)) by (vm_compute; reflexivity).
  split; [exact H |].
  exact (proj1 (file_debug_port_has_no_colon _ _ _ _
                  {| debug := Some "9230"; app := None |} _ _ "9230" eq_refl)
           H).
Defined.


(** ** What the launch entry does before the build *)

Section BeforeBuild.
Variable w : World.

Lemma harmlessUntilBuild_harmless new :
  Forall harmless new -> harmlessUntilBuild new.
Proof.
  intros H. exists new, []. rewrite app_nil_r. auto.
Qed.

Lemma harmlessUntilBuild_app n1 n2 :
  Forall harmless n1 -> harmlessUntilBuild n2 -> harmlessUntilBuild (n1 ++ n2).
Proof.
  intros H1 [before [rest [-> [Hb Hr]]]].
  exists (n1 ++ before), rest. rewrite app_assoc.
  split; [reflexivity |]. split; [| exact Hr].
  apply Forall_app. split; assumption.
Qed.

Lemma harmless_bind {A B} (m : M A) (f : A -> M B) :
  emitsOnly w harmless m ->
  (forall a, yields w (f a) (fun _ new => harmlessUntilBuild new)) ->
  yields w (bind m f) (fun _ new => harmlessUntilBuild new).
Proof.
  intros Hm Hf. eapply yields_bind; [exact Hm | | |].
  - intros a n1 H1. eapply yields_weaken; [apply Hf |].
    intros o n2 H2. now apply harmlessUntilBuild_app.
  - intros e n1 H1. now apply harmlessUntilBuild_harmless.
  - intros n1 H1. now apply harmlessUntilBuild_harmless.
Qed.

Lemma launchFlow_announces polls p cwd dockerImageUser portInfo containerEnv :
  registered p ->
  yields w (launchFlow polls p cwd dockerImageUser portInfo containerEnv)
    (fun _ new =>
       exists rest', new = ProgressReport "Building docker image..." :: rest').
Proof.
  intros Hp. rewrite launchFlow_steps.
  eapply yields_tryCatchWith
    with (Q1 := fun _ new =>
                  exists rest',
                    new = ProgressReport "Building docker image..." :: rest').
  - unfold deployStep, report. apply step_emit.
    eapply yields_weaken with (Q := fun _ new => Forall deletesNothing new).
    + apply emitsOnly_bind; [apply buildDockerImage_keeps |].
      intros image. apply emitsOnly_bind; [apply emitsOnly_emit; exact I |].
      intros _. eapply yields_weaken; [apply runDockerImageInK8s_runs |].
      intros o new [H _]. exact H.
    + intros o new _. eexists. reflexivity.
  - intros name n1 [r ->].
    eapply yields_weaken.
    + apply emitsOnly_tryCatch with (P := deletesOnly name).
      * now apply sessionStep_only.
      * intros e. apply onLaunchError_only.
    + intros o n2 _. eexists. reflexivity.
  - intros e n1 [r ->].
    eapply yields_weaken; [apply onLaunchError_nothing |].
    intros o n2 _. eexists. reflexivity.
  - intros n1 H. exact H.
Qed.

Lemma getDebugProvider_harmless baseImage :
  yields w (ProviderRegistry.getDebugProvider baseImage)
    (fun o new => Forall harmless new
                  /\ forall p, o = Normal (Some p) -> registered p).
Proof.
  unfold ProviderRegistry.getDebugProvider, ProviderRegistry.showProviderPick.
  unfold_host.
  destruct (Js.truthyStr baseImage);
    cbn [ProviderRegistry.supportedProviders find];
    steps; cbn beta;
    (split; [repeat (apply Forall_cons; [exact I |]); apply Forall_nil |]);
    intros p Hp; try discriminate Hp; injection Hp as Hp;
    try (injection Hp as <-; first [now left | now right]).
  all: match goal with
       | H : nth_error _ ?i = Some _ |- _ =>
           destruct i as [|[|i]]; cbn in H;
           [ injection H as <-; now left
           | injection H as <-; now right
           | destruct i; discriminate H ]
       | H : (if ?a then _ else if ?b then _ else _) = Some _ |- _ =>
           subst; destruct a; [injection H as <-; now left |];
           destruct b; [injection H as <-; now right | discriminate H]
       end.
Qed.

Ltac quiet := first [exact I | idtac].

Lemma registered_isDebuggerInstalled_harmless p :
  registered p -> emitsOnly w harmless (isDebuggerInstalled p).
Proof.
  intros [-> | ->]; cbn [isDebuggerInstalled JavaDebugProvider.provider
                         NodeDebugProvider.provider];
    unfold JavaDebugProvider.isDebuggerInstalled; unfold_host;
    emits_with quiet.
Qed.

Lemma registered_resolvePortsFromFile_harmless p dockerParser env :
  registered p ->
  emitsOnly w harmless
    (resolvePortsFromFile (getDockerResolver p) dockerParser env).
Proof.
  intros [-> | ->]; cbn [resolvePortsFromFile getDockerResolver
                         JavaDebugProvider.provider NodeDebugProvider.provider
                         JavaDockerResolver.resolver
                         NodeDockerResolver.resolver];
    unfold JavaDockerResolver.resolvePortsFromFile,
      NodeDockerResolver.resolvePortsFromFile; unfold_host; cbv zeta;
    emits_with quiet.
Qed.

Lemma launchResolved_harmless polls p cwd dockerImageUser portInfo
    containerEnv :
  registered p ->
  yields w
    (launchResolved polls p cwd dockerImageUser portInfo containerEnv)
    (fun _ new => harmlessUntilBuild new).
Proof.
  intros Hp. unfold launchResolved. unfold_host.
  destruct (negb (Js.truthyStr (debug portInfo))).
  - apply step_last. steps. cbn beta.
    apply harmlessUntilBuild_harmless. repeat constructor.
  - apply step_read.
    destruct (negb (Js.truthyStr (app portInfo)) || _).
    + apply step_last. steps. cbn beta.
      apply harmlessUntilBuild_harmless. repeat constructor.
    + eapply yields_withProgress; [now apply launchFlow_announces |].
      intros o n1 [r ->]. exists [], (ProgressReport "Building docker image..." :: r).
      split; [reflexivity |]. split; [constructor |]. right. now exists r.
Qed.
End BeforeBuild.

(** X22.  Whatever the host and the user answer, the launch entry sends
    nothing to the cluster, runs nothing in the working directory, spawns
    nothing and does not call the host debugger before it announces the
    build of the image: a launch that stops earlier, for want of a build
    file, a provider, a debugger or a port, has touched nothing. *)
Theorem launch_is_harmless_until_build :
  forall polls workspaceFolder w,
    yields w (launchDebug polls workspaceFolder)
      (fun _ new =>
         exists before rest,
           new = before ++ rest
           /\ Forall harmless before
           /\ (rest = []
               \/ exists rest',
                    rest = ProgressReport "Building docker image..." :: rest')).
Proof.
  intros polls workspaceFolder w.
  change (yields w (launchDebug polls workspaceFolder)
            (fun _ new => harmlessUntilBuild new)).
  unfold launchDebug.
  destruct workspaceFolder as [folder|];
    [| apply yields_ret; apply harmlessUntilBuild_harmless; constructor].
  apply step_read. apply step_query. intros n.
  destruct (negb (existsSync w n _)).
  - unfold_host. apply step_last. steps. cbn beta.
    apply harmlessUntilBuild_harmless. repeat constructor.
  - apply step_read. apply step_lift.
    destruct (newDockerfileParser w _) as [dockerParser | e];
      cbn [constructed];
      [| apply harmlessUntilBuild_harmless; constructor].
    eapply yields_bind; [apply getDebugProvider_harmless | | |].
    + intros [p|] n1 [Hn Hp]; [specialize (Hp p eq_refl) |].
      * eapply yields_weaken
          with (Q := fun _ new => harmlessUntilBuild new).
        -- apply harmless_bind;
             [now apply registered_isDebuggerInstalled_harmless |].
           intros installed. destruct (negb installed).
           ++ apply yields_ret. apply harmlessUntilBuild_harmless. constructor.
           ++ apply step_read. apply harmless_bind;
                [now apply registered_resolvePortsFromFile_harmless |].
              intros r. now apply launchResolved_harmless.
        -- intros o n2 H2. now apply harmlessUntilBuild_app.
      * apply yields_ret. rewrite app_nil_r.
        now apply harmlessUntilBuild_harmless.
    + intros e n1 [Hn _]. now apply harmlessUntilBuild_harmless.
    + intros n1 [Hn _]. now apply harmlessUntilBuild_harmless.
Qed.


(** ** The end of the port-forward subprocess *)

Lemma kills_app a b : kills (a ++ b) = kills a + kills b.
Proof.
  induction a as [|e a IH]; [reflexivity |].
  destruct e; cbn; rewrite ?IH; reflexivity.
Qed.

Lemma kills_none new : Forall (fun e => e <> Kill) new -> kills new = 0.
Proof.
  induction 1 as [|e new He _ IH]; [reflexivity |].
  destruct e; cbn; try exact IH. contradiction.
Qed.

Section Killing.
Variable w : World.

Lemma step_callAsync {A B} (m : M A) (f : Outcome A -> M B)
    (Q1 : Outcome A -> list Event -> Prop)
    (Q : Outcome B -> list Event -> Prop) :
  yields w m Q1 ->
  (forall o n1, Q1 o n1 -> yields w (f o) (fun o' n2 => Q o' (n1 ++ n2))) ->
  yields w (bind (callAsync m) f) Q.
Proof.
  intros Hm Hf. eapply yields_bind.
  - eapply yields_callAsync with (Q := fun o new =>
                                         exists o', o = Normal o' /\ Q1 o' new);
      [exact Hm | eauto].
  - intros o n1 [o' [Ho H1]]. injection Ho as ->. now apply Hf.
  - intros e n1 [o' [Ho _]]. discriminate Ho.
  - intros n1 [o' [Ho _]]. discriminate Ho.
Qed.

Lemma registered_startDebugging_no_kill p workspaceFolder sessionName port_ :
  registered p ->
  emitsOnly w (fun e => e <> Kill)
    (startDebugging p workspaceFolder sessionName port_).
Proof.
  intros [-> | ->]; cbn [startDebugging JavaDebugProvider.provider
                         NodeDebugProvider.provider];
    unfold JavaDebugProvider.startDebugging;
    emits_with ltac:(discriminate).
Qed.

Lemma registered_startDebugging_kills p workspaceFolder sessionName port_ :
  registered p ->
  yields w (startDebugging p workspaceFolder sessionName port_)
    (fun _ new => kills new = 0).
Proof.
  intros Hp.
  eapply yields_weaken;
    [apply registered_startDebugging_no_kill; exact Hp |].
  intros o new. apply kills_none.
Qed.

Lemma deleteResource_kills resourceId :
  yields w (deleteResource resourceId)
    (fun o new => o = Normal tt /\ kills new = 0).
Proof.
  unfold deleteResource. unfold_host. steps; cbn beta; split; reflexivity.
Qed.

Lemma handle_kills p appName workspaceFolder debugType proxyDebugPort_
    proxyAppPort_ s e :
  registered p ->
  listening s ->
  yields w
    (handle p appName workspaceFolder debugType proxyDebugPort_ proxyAppPort_
       s e)
    (fun o new =>
       exists s',
         o = Normal s' /\ listening s'
         /\ kills new + killable s' <= killable s
         /\ (terminates e = false -> kills new = 0)).
Proof.
  intros Hp Hs. destruct s as [started settled_ listeners_].
  unfold listening, killable in *. cbn [isStarted listeners] in *.
  unfold handle, onStdoutData, onStderrData, onClose, onDidStart,
    onDidTerminate, settle.
  cbn [isStarted listeners DebugService.settled]. unfold_host.
  assert (Hl : forall x, listeners_ = Some x -> started = true)
    by (intros x Hx; apply Hs; rewrite Hx; discriminate).
  destruct e as [data|data|c|n|n]; cbn [terminates].
  - destruct (negb started && RegExp.test forwardingRegExp data) eqn:Ht.
    + assert (started = false) as ->
        by (destruct started; [discriminate | reflexivity]).
      assert (listeners_ = None) as ->.
      { destruct listeners_ as [x|]; [| reflexivity].
        specialize (Hl x eq_refl). discriminate Hl. }
      destruct (Js.truthyStr appName); steps.
      all: eapply step_callAsync;
        [apply registered_startDebugging_kills; exact Hp |].
      all: intros o n1 Hk; cbn [Js.truthy negb]; steps; cbn beta in *.
      all: eexists; split; [reflexivity |].
      all: cbn; rewrite ?app_nil_r, ?Hk.
      all: split; [reflexivity |]; split; [lia | reflexivity].
    + steps. eexists. split; [reflexivity |]. cbn.
      split; [exact Hs |]. split; [lia | reflexivity].
  - steps. cbn beta. eexists. split; [reflexivity |]. cbn.
    split; [exact Hs |]. split; [lia | reflexivity].
  - destruct (Js.truthyStr appName).
    + eapply yields_bind; [apply deleteResource_kills | | |].
      * intros [] n1 [_ Hk]. steps. cbn beta.
        eexists. split; [reflexivity |]. cbn. rewrite app_nil_r, Hk.
        split; [reflexivity |].
        split; [destruct listeners_, started; cbn; lia | reflexivity].
      * intros e n1 [He _]. discriminate He.
      * intros n1 [He _]. discriminate He.
    + steps. cbn beta. eexists. split; [reflexivity |]. cbn.
      split; [reflexivity |].
      split; [destruct listeners_, started; cbn; lia | reflexivity].
  - destruct listeners_ as [sessionName|]; steps; cbn beta;
      eexists; (split; [reflexivity |]); cbn;
      (split; [exact Hs |]); (split; [lia | reflexivity]).
  - destruct listeners_ as [sessionName|]; steps; cbn beta;
      eexists; (split; [reflexivity |]); cbn.
    + split; [intros H; now contradiction H |].
      rewrite (Hl _ eq_refl). cbn. split; [lia | discriminate].
    + split; [exact Hs |]. split; [lia | discriminate].
    + split; [exact Hs |]. split; [lia | discriminate].
Qed.

Lemma handleAll_kills p appName workspaceFolder debugType proxyDebugPort_
    proxyAppPort_ events :
  registered p ->
  forall s,
    listening s ->
    yields w
      (handleAll p appName workspaceFolder debugType proxyDebugPort_
         proxyAppPort_ s events)
      (fun o new =>
         exists s',
           o = Normal s'
           /\ kills new + killable s' <= killable s
           /\ (existsb terminates events = false -> kills new = 0)).
Proof.
  intros Hp. induction events as [|e events IH]; intros s Hs;
    cbn [handleAll existsb].
  - apply yields_ret. exists s. split; [reflexivity |]. cbn. split; [lia | auto].
  - eapply yields_bind; [apply handle_kills; [exact Hp | exact Hs] | | |].
    + intros s1 n1 [s' [Ho [Hl [Hk Ht]]]]. injection Ho as <-.
      eapply yields_weaken; [apply IH; exact Hl |].
      intros o n2 [s2 [Ho2 [Hk2 Ht2]]]. cbn beta.
      exists s2. split; [exact Ho2 |]. rewrite kills_app.
      split; [lia |]. intros Hex. apply orb_false_iff in Hex.
      destruct Hex as [He Hev]. rewrite (Ht He), (Ht2 Hev). reflexivity.
    + intros e0 n1 [s' [Ho _]]. discriminate Ho.
    + intros n1 [s' [Ho _]]. discriminate Ho.
Qed.
End Killing.

(** X23.  Whatever the port-forward subprocess and the host debugger
    signal, in whatever order, the handlers of a session with a provider of
    the registry kill the subprocess at most once, and not at all as long as
    the host debugger has not reported the end of a session. *)
Theorem proxy_killed_at_most_once :
  forall debugProvider appName workspaceFolder debugType proxyDebugPort_
         proxyAppPort_ events w,
    registered debugProvider ->
    yields w
      (handleAll debugProvider appName workspaceFolder debugType
         proxyDebugPort_ proxyAppPort_ newSession events)
      (fun o new =>
         (exists s, o = Normal s)
         /\ kills new <= 1
         /\ (existsb terminates events = false -> kills new = 0)).
Proof.
  intros p appName ws dt dp ap events w Hp.
  eapply yields_weaken.
  - apply handleAll_kills; [exact Hp |].
    intros H. now contradiction H.
  - intros o new [s [Ho [Hk Ht]]]. cbn in Hk.
    split; [now exists s |]. split; [lia | exact Ht].
Qed.

Lemma proxy_killed_at_most_once_witness :
  yields Scenario.debugOnly
    (handleAll JavaDebugProvider.provider (Some "app-debug-1") "/work/app"
       "java" (PortNumber 8001) (PortNumber 8000) newSession
       [StdoutData Scenario.forwarding;
        DidTerminateDebugSession "app-debug-1";
        DidTerminateDebugSession "app-debug-1"])
    (fun o new => (exists s, o = Normal s) /\ kills new <= 1).
Proof.
  eapply yields_weaken.
  - apply proxy_killed_at_most_once. left. reflexivity.
  - intros o new [Hs [Hk _]]. split; assumption.
Defined.


(** ** The tree of the explorer *)

Section ExplorerTree.
Import Explorer.
Variables node service deployment job pod : ResourceKind.
Variable kubernetesSvg : string.
Variable asLines : nat -> string -> list string + ShellResult.
Variable parseConfig : string -> ConfigJson + string.

Let getChildren_ :=
  getChildren node service deployment job pod asLines parseConfig.
Let getTreeItem_ := getTreeItem kubernetesSvg.

Lemma getClusters_run w st :
  run (getClusters parseConfig) w st
  = ((if negb (code (kubectl w (tick st) "config view -o json") =? 0)%Z
      then Normal []
      else
        match clustersOf parseConfig
                (stdout (kubectl w (tick st) "config view -o json")) with
        | Normal clusters_ => Normal clusters_
        | _ => Pending
        end),
     {| tick := S (tick st);
        trace := trace st ++ [KubectlInvoke "config view -o json"] |}).
Proof.
  unfold getClusters, run. cbn [bind kubectl_invokeAsync ask].
  destruct (negb (code (kubectl w (tick st) "config view -o json") =? 0)%Z);
    [reflexivity |].
  destruct (clustersOf parseConfig _); reflexivity.
Qed.

(** What [contexts.map] makes of the contexts: one cluster per context, at
    the top of the tree, when every entry holds a [context]; an exception
    otherwise. *)
Lemma clusters_of_contexts currentContext_ contexts_ :
  match DebugServiceAttach.mapOutcome (clusterOf currentContext_) contexts_ with
  | Normal clusters_ =>
      forallb hasContext contexts_ = true
      /\ length clusters_ = length contexts_
      /\ Forall (fun c => exists id md,
                    c = VirtualKubernetesResource id "cluster" (Some md))
           clusters_
      /\ length (filter isActive clusters_)
         = length (filter (fun c => String.eqb (entryName c) currentContext_)
                     contexts_)
  | Thrown _ =>
      forallb hasContext contexts_ = false
  | Pending => False
  end.
Proof.
  induction contexts_ as [| c l IH]; cbn [DebugServiceAttach.mapOutcome].
  - repeat split. constructor.
  - unfold clusterOf at 1. cbn [forallb].
    replace (hasContext c)
      with (if entryCluster c is Some _ then true else false)
      by reflexivity.
    destruct (entryCluster c) as [cluster_ |]; cbn [member obind];
      [| reflexivity].
    destruct (DebugServiceAttach.mapOutcome (clusterOf currentContext_) l)
      as [clusters_ | e | ]; cbn [obind andb]; [| exact IH | exact IH].
    destruct IH as [Ha [Hl [Hf Hn]]].
    split; [exact Ha |]. split; [cbn; now rewrite Hl |].
    split; [constructor; [now eexists _, _ | exact Hf] |].
    cbn [filter isActive active].
    destruct (String.eqb (entryName c) currentContext_); cbn [length];
      now rewrite Hn.
Qed.

Lemma getChildren_depth parent w st children st' :
  run (getChildren_ parent) w st = (Normal children, st') ->
  Forall (fun child =>
            depth child < match parent with
                          | Some p => depth p
                          | None => 4
                          end) children.
Proof.
  unfold getChildren_, getChildren, run.
  destruct parent as [[id kind md | kind | rid id | id] |].
  - cbn [ret virtualGetChildren depth]. intros H. injection H as <- _.
    unfold virtualGetChildren.
    destruct (String.eqb kind "cluster");
      [repeat constructor |].
    destruct (String.eqb kind "workload"); repeat constructor.
  - cbn [bind ask]. destruct (asLines (tick st) _) as [lines | r].
    + cbn. intros H. injection H as <- _.
      apply Forall_map. apply Forall_forall. intros l _. cbn. lia.
    + cbn. intros H. injection H as <- _. repeat constructor.
  - cbn. intros H. injection H as <- _. constructor.
  - cbn. intros H. injection H as <- _. constructor.
  - fold (run (getClusters parseConfig) w st). rewrite getClusters_run.
    destruct (negb _); [intros H; injection H as <- _; constructor |].
    unfold clustersOf.
    destruct (parseConfig _) as [configJson | e]; cbn [constructed obind];
      [| intros H; discriminate H].
    destruct (configContexts configJson) as [contexts_ |]; cbn [member obind];
      [| intros H; discriminate H].
    pose proof (clusters_of_contexts (configCurrentContext configJson)
                  contexts_) as Hc.
    destruct (DebugServiceAttach.mapOutcome _ contexts_)
      as [clusters_ | e | ]; intros H; try discriminate H.
    injection H as <- _. destruct Hc as [_ [_ [Hf _]]].
    eapply Forall_impl; [| exact Hf].
    intros c [id [md ->]]. cbn. lia.
Qed.
End ExplorerTree.

(** X24.  The tree of the explorer is at most four levels deep.  Every
    object that [getChildren] returns lies strictly deeper than its parent
    on the scale: clusters, then the workloads, then the kinds, then the
    resources and the error entry, under which there is nothing. *)
Theorem explorer_children_are_shallower :
  forall node service deployment job pod asLines parseConfig
         parent w st children st',
    run (Explorer.getChildren node service deployment job pod asLines
           parseConfig parent) w st = (Normal children, st') ->
    Forall (fun child =>
              Explorer.depth child < match parent with
                                     | Some p => Explorer.depth p
                                     | None => 4
                                     end) children.
Proof.
  intros node service deployment job pod asLines parseConfig.
  apply getChildren_depth.
Qed.

Lemma explorer_children_are_shallower_witness :
  run (ExplorerScenario.getChildren ExplorerScenario.twoPods
         ExplorerScenario.twoContexts
         (Some (Explorer.KubernetesKind ExplorerScenario.pods)))
    Scenario.debugOnly initial
  = (Normal [Explorer.KubernetesResource "pod/web-1" "web-1";
             Explorer.KubernetesResource "pod/web-2" "web-2"],
     {| tick := 1; trace := [KubectlInvoke "get pod"] |})
  /\ Forall (fun child => Explorer.depth child < 1)
       [Explorer.KubernetesResource "pod/web-1" "web-1";
        Explorer.KubernetesResource "pod/web-2" "web-2"].
Proof.
  assert (H : run (ExplorerScenario.getChildren ExplorerScenario.twoPods
                     ExplorerScenario.twoContexts
                     (Some (Explorer.KubernetesKind ExplorerScenario.pods)))
                Scenario.debugOnly initial
              = (Normal [Explorer.KubernetesResource "pod/web-1" "web-1";
                         Explorer.KubernetesResource "pod/web-2" "web-2"],
                 {| tick := 1; trace := [KubectlInvoke "get pod"] |}))
    by (vm_compute; reflexivity).
  split; [exact H |].
  exact (explorer_children_are_shallower _ _ _ _ _ _ _ _ _ _ _ _ H).
Defined.

(** ** The items of the explorer *)

Lemma prefix_app p a b :
  String.prefix p a = true -> String.prefix p (a +++ b) = true.
Proof.
  revert a. induction p as [|c p IH]; intros a H.
  - now destruct (a +++ b).
  - destruct a as [|d a]; [discriminate H |].
    cbn in H |- *. destruct (Ascii.ascii_dec c d); [| discriminate H].
    now apply IH.
Qed.

(** X25.  An item of the explorer that cannot be expanded has no children.
    For every object other than a virtual resource, [getTreeItem] returns
    an item; when the item is not collapsible, [getChildren] returns the
    empty list without asking the cluster, and when it is, the object is a
    kind and [getChildren] asks the cluster once, for that kind. *)
Theorem explorer_leaves_have_no_children :
  forall node service deployment job pod kubernetesSvg asLines parseConfig
         element w st,
    (forall id kind metadata,
        element <> Explorer.VirtualKubernetesResource id kind metadata) ->
    exists item,
      Explorer.getTreeItem kubernetesSvg element = Normal item
      /\ match Explorer.collapsibleState item with
         | Explorer.StateNone =>
             run (Explorer.getChildren node service deployment job pod asLines
                    parseConfig (Some element)) w st = (Normal [], st)
         | _ =>
             exists kind children st',
               element = Explorer.KubernetesKind kind
               /\ run (Explorer.getChildren node service deployment job pod
                         asLines parseConfig (Some element)) w st
                  = (Normal children, st')
               /\ exists more,
                    trace st' = trace st ++
                      KubectlInvoke ("get " +++ Explorer.abbreviation kind)
                      :: more
                    /\ Forall (fun e => ~ clusterCommand e) more
         end.
Proof.
  intros node service deployment job pod svg asLines parseConfig element w st
    Hv.
  destruct element as [id kind md | kind | rid id | id].
  - exfalso. now apply (Hv id kind md).
  - eexists. split; [reflexivity |]. cbn [Explorer.collapsibleState
                                          Explorer.isKind].
    unfold Explorer.getChildren, run. cbn [bind ask].
    destruct (asLines (tick st) _) as [lines | r]; cbn.
    + eexists kind, _, _. split; [reflexivity |]. split; [reflexivity |].
      exists []. split; [reflexivity | constructor].
    + eexists kind, _, _. split; [reflexivity |]. split; [reflexivity |].
      eexists. rewrite <- app_assoc. split; [reflexivity |].
      repeat constructor. cbn. tauto.
  - unfold Explorer.getTreeItem.
    destruct (Explorer.isResource (Explorer.KubernetesResource rid id));
      eexists; (split; [reflexivity |]); reflexivity.
  - eexists. split; [reflexivity |]. reflexivity.
Qed.

Lemma explorer_leaves_have_no_children_witness :
  exists item,
    Explorer.getTreeItem "kubernetes.svg"
      (Explorer.parse ExplorerScenario.pods "web-1   1/1   Running   0   2d")
    = Normal item
    /\ Explorer.collapsibleState item = Explorer.StateNone
    /\ run (ExplorerScenario.getChildren ExplorerScenario.twoPods
              ExplorerScenario.twoContexts
              (Some (Explorer.parse ExplorerScenario.pods
                       "web-1   1/1   Running   0   2d")))
         Scenario.debugOnly initial = (Normal [], initial).
Proof.
  destruct (explorer_leaves_have_no_children
              ExplorerScenario.nodes ExplorerScenario.services
              ExplorerScenario.deployments ExplorerScenario.jobs
              ExplorerScenario.pods "kubernetes.svg" ExplorerScenario.twoPods
              ExplorerScenario.twoContexts
              (Explorer.parse ExplorerScenario.pods
                 "web-1   1/1   Running   0   2d")
              Scenario.debugOnly initial)
    as [item [Hi Hc]].
  { intros id kind md H. discriminate H. }
  exists item. split; [exact Hi |].
  vm_compute in Hi. injection Hi as <-.
  split; [reflexivity | exact Hc].
Defined.

(** X26.  The children of a kind.  [getChildren] asks the cluster for the
    kind by its abbreviation.  When the command fails, the error output is
    shown and the only child is the error entry; otherwise there is one
    resource per line, in the order of the lines, whose [id] is the text of
    the line before its first space and whose [resourceId] is the
    abbreviation, a slash and the [id]. *)
Theorem explorer_kind_children :
  forall node service deployment job pod asLines parseConfig kind w st,
  exists children more,
    run (Explorer.getChildren node service deployment job pod asLines
           parseConfig (Some (Explorer.KubernetesKind kind))) w st
    = (Normal children,
       {| tick := S (tick st);
          trace := trace st ++
            KubectlInvoke ("get " +++ Explorer.abbreviation kind) :: more |})
    /\ match asLines (tick st) ("get " +++ Explorer.abbreviation kind) with
       | inr shellResult =>
           children = [Explorer.Plain "Error"]
           /\ more = [ShowErrorMessage (stderr shellResult)]
       | inl lines =>
           more = []
           /\ length children = length lines
           /\ forall i line,
                nth_error lines i = Some line ->
                exists id rest,
                  nth_error children i
                  = Some (Explorer.KubernetesResource
                            (Explorer.abbreviation kind +++ "/" +++ id) id)
                  /\ without " " id = true
                  /\ (line = id \/ line = id +++ " " +++ rest)
       end.
Proof.
  intros node service deployment job pod asLines parseConfig kind w st.
  unfold Explorer.getChildren, run. cbn [bind ask].
  destruct (asLines (tick st) _) as [lines | r]; cbn [bind ret].
  - eexists _, []. split; [reflexivity |]. split; [reflexivity |].
    split; [apply length_map |].
    intros i line Hl. rewrite nth_error_map, Hl. cbn [option_map].
    unfold Explorer.parse, Explorer.newKubernetesResource.
    pose proof (split_without " " line) as Hw.
    assert (Hs : exists id, Js.split " " line = [id] /\ line = id
                 \/ exists rest tl_, Js.split " " line = id :: tl_
                                     /\ line = id +++ " " +++ rest).
    { clear Hl Hw. induction line as [|c line IH]; cbn [Js.split].
      - exists EmptyString. left. split; reflexivity.
      - destruct (Ascii.eqb c " ") eqn:E.
        + apply Ascii.eqb_eq in E. subst c.
          exists EmptyString. right. exists line, (Js.split " " line).
          split; reflexivity.
        + destruct IH as [id [[Hs Hi] | [rest [tl_ [Hs Hi]]]]]; rewrite Hs.
          * exists (String c id). left. split; [reflexivity |].
            now rewrite Hi at 1.
          * exists (String c id). right. exists rest, tl_.
            split; [reflexivity |]. now rewrite Hi at 1. }
    destruct Hs as [id [[Hs Hi] | [rest [tl_ [Hs Hi]]]]]; rewrite Hs in Hw |- *;
      inversion Hw as [|x l Hx _]; subst x l; cbn [hd].
    + exists id, EmptyString. split; [reflexivity |]. split; [exact Hx |].
      now left.
    + exists id, rest. split; [reflexivity |]. split; [exact Hx |].
      now right.
  - eexists _, _. cbn. rewrite <- app_assoc. split; [reflexivity |].
    split; reflexivity.
Qed.

Lemma prefix_before_slash word a b :
  without "/" word = true ->
  Js.isEmpty word = false ->
  String.prefix word (a +++ String "/" b) = String.prefix word a.
Proof.
  revert a. induction word as [|c word IH]; intros a Hw He;
    [discriminate He |].
  cbn [without] in Hw. apply andb_prop in Hw. destruct Hw as [Hc Hw].
  destruct a as [|d a]; cbn [String.append String.prefix].
  - destruct (Ascii.ascii_dec c "/") as [-> | Hn]; [discriminate Hc |].
    reflexivity.
  - destruct (Ascii.ascii_dec c d); [| reflexivity].
    destruct word as [|c' word].
    + now destruct (a +++ String "/" b), a.
    + now apply IH.
Qed.

(** X27.  The item of a resource.  A resource read from a line of the
    cluster is shown as a leaf that loads the resource when it is chosen,
    and its context menu depends on the kind alone, never on the name: the
    menu of pods for a kind whose abbreviation begins with [pod], else the
    menu of services for one that begins with [service], else the general
    menu of resources. *)
Theorem explorer_resource_item :
  forall kubernetesSvg kind kubeLine,
    Explorer.getTreeItem kubernetesSvg (Explorer.parse kind kubeLine)
    = Normal
        {| Explorer.label := hd EmptyString (Js.split " " kubeLine);
           Explorer.collapsibleState := Explorer.StateNone;
           Explorer.iconPath := kubernetesSvg;
           Explorer.itemCommand :=
             Some {| Explorer.command := "extension.vsKubernetesLoad";
                     Explorer.title := "Load";
                     Explorer.arguments := [Explorer.parse kind kubeLine] |};
           Explorer.contextValue :=
             Some (if String.prefix "pod" (Explorer.abbreviation kind)
                   then "vsKubernetes.resource.pod"
                   else if String.prefix "service" (Explorer.abbreviation kind)
                   then "vsKubernetes.resource.service"
                   else "vsKubernetes.resource") |}.
Proof.
  intros svg kind kubeLine.
  unfold Explorer.parse, Explorer.newKubernetesResource, Explorer.getTreeItem,
    Explorer.isResource, Explorer.resourceIdOf, Explorer.isKind, Explorer.idOf.
  set (id := hd EmptyString (Js.split " " kubeLine)).
  change (Explorer.abbreviation kind +++ "/" +++ id)
    with (Explorer.abbreviation kind +++ String "/" id).
  assert (Ht : Js.truthyStr (Some (Explorer.abbreviation kind +++ String "/" id))
               = true)
    by (apply truthyStr_append; reflexivity).
  rewrite Ht. cbn [Js.show].
  rewrite !prefix_before_slash by reflexivity.
  reflexivity.
Qed.

Lemma filter_unique {A} (g : A -> string) (x : string) (l : list A) :
  NoDup (map g l) ->
  length (filter (fun c => String.eqb (g c) x) l) <= 1.
Proof.
  induction l as [|a l IH]; cbn [map filter]; intros Hn; [cbn; lia |].
  inversion Hn as [|y ys Hy Hl]; subst.
  destruct (String.eqb (g a) x) eqn:E; [| now apply IH].
  apply String.eqb_eq in E. cbn [length].
  assert (Hf : filter (fun c => String.eqb (g c) x) l = []).
  { clear IH Hn Hl. induction l as [|b l IH]; [reflexivity |].
    cbn [filter]. destruct (String.eqb (g b) x) eqn:Eb.
    - apply String.eqb_eq in Eb. exfalso. apply Hy. left. congruence.
    - apply IH. intros H. apply Hy. now right. }
  rewrite Hf. cbn. lia.
Qed.

(** The clusters of two contexts; a configuration without contexts and an
    answer that is not JSON leave the explorer waiting. *)
Example explorer_clusters_examples :
  run (Explorer.getClusters ExplorerScenario.twoContexts)
    Scenario.debugOnly initial
  = (Normal
       [Explorer.VirtualKubernetesResource "local" "cluster"
          (Some {| Explorer.context := "minikube"; Explorer.active := false |});
        Explorer.VirtualKubernetesResource "cloud" "cluster"
          (Some {| Explorer.context := "staging"; Explorer.active := true |})],
     {| tick := 1; trace := [KubectlInvoke "config view -o json"] |})
  /\ run (Explorer.getClusters ExplorerScenario.noContexts)
       Scenario.debugOnly initial
     = (Pending,
        {| tick := 1; trace := [KubectlInvoke "config view -o json"] |})
  /\ run (Explorer.getClusters ExplorerScenario.notJson)
       Scenario.debugOnly initial
     = (Pending,
        {| tick := 1; trace := [KubectlInvoke "config view -o json"] |}).
Proof. repeat split; vm_compute; reflexivity. Qed.

(** X28.  The clusters of the explorer.  [getClusters] sends one command
    and never throws.  When the command fails there are no clusters, and
    nothing is shown.  When the answer cannot be parsed, holds no list of
    contexts, or holds a context entry without a [context], the callback
    throws before it settles the promise: the call stays waiting.
    Otherwise there is one cluster per context of the configuration; every
    one of them lies at the top of the tree and has an item, which is
    collapsible exactly when the cluster is the active one; and when the
    names of the contexts differ, at most one cluster is active. *)
Theorem explorer_clusters :
  forall kubernetesSvg parseConfig w st,
    let result := kubectl w (tick st) "config view -o json" in
    exists o,
      run (Explorer.getClusters parseConfig) w st
      = (o,
         {| tick := S (tick st);
            trace := trace st ++ [KubectlInvoke "config view -o json"] |})
      /\ (forall e, o <> Thrown e)
      /\ if (code result =? 0)%Z then
           match parseConfig (stdout result) with
           | inr _ => o = Pending
           | inl configJson =>
               match Explorer.configContexts configJson with
               | None => o = Pending
               | Some contexts_ =>
                   if forallb Explorer.hasContext contexts_ then
                     exists clusters_,
                       o = Normal clusters_
                       /\ length clusters_ = length contexts_
                       /\ Forall
                            (fun c =>
                               Explorer.depth c = 3
                               /\ exists item,
                                    Explorer.getTreeItem kubernetesSvg c
                                    = Normal item
                                    /\ Explorer.collapsibleState item
                                       = (if Explorer.isActive c
                                          then Explorer.Collapsed
                                          else Explorer.StateNone))
                            clusters_
                       /\ (NoDup (map Explorer.entryName contexts_) ->
                           length (filter Explorer.isActive clusters_) <= 1)
                   else o = Pending
               end
           end
         else o = Normal [].
Proof.
  intros svg parseConfig w st result.
  eexists. split; [apply getClusters_run |].
  fold result.
  destruct (code result =? 0)%Z; cbn [negb];
    [| split; [intros e H; discriminate H | reflexivity]].
  unfold Explorer.clustersOf.
  destruct (parseConfig (stdout result)) as [configJson | e];
    cbn [constructed obind];
    [| split; [intros e' H; discriminate H | reflexivity]].
  destruct (Explorer.configContexts configJson) as [contexts_ |];
    cbn [member obind];
    [| split; [intros e' H; discriminate H | reflexivity]].
  pose proof (clusters_of_contexts (Explorer.configCurrentContext configJson)
                contexts_) as Hc.
  destruct (DebugServiceAttach.mapOutcome _ contexts_)
    as [clusters_ | e | ]; [| | contradiction].
  - destruct Hc as [Ha [Hl [Hf Hn]]]. rewrite Ha.
    split; [intros e H; discriminate H |].
    exists clusters_. split; [reflexivity |]. split; [exact Hl |].
    split.
    + eapply Forall_impl; [| exact Hf].
      intros c [id [md ->]]. split; [reflexivity |].
      cbn. destruct (Explorer.active md); eexists; split; reflexivity.
    + intros Hd. rewrite Hn. now apply filter_unique.
  - rewrite Hc. split; [intros e' H; discriminate H | reflexivity].
Qed.


(** ** What is deployed *)



Section Deploying.
Variable w : World.


End Deploying.



(** ** Failures of the attach flow *)

Ltac calm := first [exact I | idtac].

Section Silence.
Variable w : World.

Lemma registered_startDebugging_silent p workspaceFolder sessionName port_ :
  registered p ->
  emitsOnly w showsNoError
    (startDebugging p workspaceFolder sessionName port_).
Proof.
  intros [-> | ->]; cbn [startDebugging JavaDebugProvider.provider
                         NodeDebugProvider.provider];
    unfold JavaDebugProvider.startDebugging; emits_with calm.
Qed.

Lemma handle_silent p workspaceFolder debugType proxyDebugPort_ proxyAppPort_
    s e :
  registered p ->
  emitsOnly w showsNoError
    (handle p None workspaceFolder debugType proxyDebugPort_ proxyAppPort_ s e).
Proof.
  intros Hp.
  unfold handle, onStdoutData, onStderrData, onClose, onDidStart,
    onDidTerminate.
  cbn [Js.truthyStr Js.ofString Js.truthy]. unfold_host.
  destruct e; emits_with calm.
  all: apply registered_startDebugging_silent; exact Hp.
Qed.

Lemma untilSettled_silent p workspaceFolder debugType proxyDebugPort_
    proxyAppPort_ events :
  registered p ->
  forall s,
    emitsOnly w showsNoError
      (untilSettled p None workspaceFolder debugType proxyDebugPort_
         proxyAppPort_ s events).
Proof.
  intros Hp. induction events as [|e events IH]; intros s;
    cbn [untilSettled]; emits_with calm.
  - now apply handle_silent.
  - apply IH.
Qed.

Lemma startDebug_silent p workspaceFolder debugType proxyDebugPort_
    proxyAppPort_ events :
  registered p ->
  emitsOnly w showsNoError
    (startDebug p None workspaceFolder debugType proxyDebugPort_
       proxyAppPort_ events).
Proof.
  intros Hp. unfold startDebug. emits_with calm.
  now apply untilSettled_silent.
Qed.

Lemma attachFlow_body_silent p cwd targetPod portInfo :
  registered p ->
  emitsOnly w showsNoError
    (report "Creating port-forwarding..." ;;;
     proxyResult <- createPortForward targetPod (Js.show (debug portInfo))
                      None ;;
     report ("Starting " +++ getDebuggerType p +++ " debug session...") ;;;
     startDebug p None cwd (getDebuggerType p)
       (proxyDebugPort proxyResult) (proxyAppPort proxyResult)
       (proxyProcess proxyResult) ;;;
     ret tt).
Proof.
  intros Hp. unfold createPortForward. unfold_host. emits_with calm.
  now apply startDebug_silent.
Qed.

Lemma tryCatch_swallows (m : M unit) (P : Event -> Prop) :
  emitsOnly w P m ->
  yields w (tryCatch m (fun _ => ret tt))
    (fun o new => (o = Normal tt \/ o = Pending) /\ Forall P new).
Proof.
  intros Hm. eapply yields_tryCatch; [exact Hm | | |].
  - intros e n1 H1. apply yields_ret. rewrite app_nil_r. auto.
  - intros [] n1 H1. auto.
  - intros n1 H1. auto.
Qed.
End Silence.

(** X30.  The attach flow keeps its failures to itself.  With a provider
    of the registry, the task that forwards the port and starts the session
    in attach mode never ends with an exception, whatever fails inside it,
    and it never shows an error message: a failure to find a free port or to
    start the session goes by without a word to the user. *)
Theorem attach_flow_fails_silently :
  forall debugProvider cwd targetPod portInfo w,
    registered debugProvider ->
    yields w
      (DebugServiceAttach.attachFlow debugProvider cwd targetPod portInfo)
      (fun o new =>
         (o = Normal tt \/ o = Pending) /\ Forall showsNoError new).
Proof.
  intros p cwd targetPod portInfo w Hp.
  unfold DebugServiceAttach.attachFlow.
  apply tryCatch_swallows. now apply attachFlow_body_silent.
Qed.

Lemma attach_flow_fails_silently_witness :
  yields Scenario.attachTarget
    (DebugServiceAttach.attachFlow JavaDebugProvider.provider "/work/app"
       "app-pod" {| debug := Some "5005"; app := None |})
    (fun o new =>
       (o = Normal tt \/ o = Pending) /\ Forall showsNoError new).
Proof.
  apply attach_flow_fails_silently. left. reflexivity.
Defined.
